(** * FraudShield: the decision orchestration engine

    A shallow embedding of the scoring and decision code of the repository:

    - [fraudshield/config/rewards.py]: the reward matrix, [classify_risk],
      [should_flag];
    - [fraudshield/tools/fraud_tools.py]: [detect_anomalies],
      [match_fraud_patterns], [score_transaction];
    - [fraudshield/agents/transaction_analyst.py]: [analyze],
      [batch_analyze];
    - [fraudshield/agents/orchestrator.py]: the four workflows, the intake,
      analyze and decide phases, [_extract_key_findings], [process].

    Conventions of the embedding.

    - A Python number is an exact rational of [Q]: a finite [float], its
      rounding left out, or an [int] within the float range, identified
      with the float of the same value.  Numeric results are compared
      with [==].
    - NaN and the infinities are the further values of [PyFloat.float], on
      which [FloatTools] embeds [fraud_tools.py] once more;
      [score_transaction_on_finite] shows that [FraudTools] is
      [FloatTools] on the finite numbers.
    - An [int] beyond the float range, on which Python's arithmetic raises
      [OverflowError], is in neither: the statements that depend on it
      assume the numbers of the transaction within the float range
      ([Finite.numbers_in_range], [FloatTools.well_formed]).
    - A dict read with [.get(key, default)] is a record of optional
      entries, [None] standing for an absent key.
    - Code that can raise lives in the error monad [Py.res]; an exception
      is its class name and its message.
    - Wall-clock fields (timestamps, elapsed milliseconds) are left out of
      the result records: no control flow depends on them. *)

From Stdlib Require Import QArith Qround Qabs ZArith List String Bool Lia Lqa.
From Stdlib Require Import Permutation Sorted.
Import ListNotations.

Local Open Scope string_scope.
Local Open Scope Q_scope.

(** ** Python primitives *)

Module Py.

(** An exception object: class name and [str(e)]. *)
Record exn : Type := Exn { exn_class : string; exn_msg : string }.

Inductive res (A : Type) : Type :=
| Ok (a : A)
| Raise (e : exn).
Arguments Ok {A} a.
Arguments Raise {A} e.

Definition bind {A B : Type} (c : res A) (k : A -> res B) : res B :=
  match c with
  | Ok a => k a
  | Raise e => Raise e
  end.

Definition AttributeError (cls attr : string) : exn :=
  Exn "AttributeError"
      ("'" ++ cls ++ "' object has no attribute '" ++ attr ++ "'").

Definition ZeroDivisionError : exn :=
  Exn "ZeroDivisionError" "float division by zero".

(** [d.get(key, default)] on an optional entry. *)
Definition get {A : Type} (entry : option A) (default : A) : A :=
  match entry with
  | Some v => v
  | None => default
  end.

(** Comparisons, as booleans. *)
Definition ge (x y : Q) : bool := Qle_bool y x.
Definition gt (x y : Q) : bool := negb (Qle_bool x y).
Definition lt (x y : Q) : bool := negb (Qle_bool y x).

(** [min(a, b)] keeps [a] unless [b < a]; [max(a, b)] keeps [a] unless
    [b > a]. *)
Definition min (a b : Q) : Q := if lt b a then b else a.
Definition max (a b : Q) : Q := if gt b a then b else a.

(** True division [a / b]. *)
Definition truediv (a b : Q) : res Q :=
  if Qeq_bool b 0 then Raise ZeroDivisionError else Ok (a / b).

(** [round(x, ndigits)]: nearest multiple of [10^-ndigits], ties to the
    even neighbour. *)
Definition round_half_even (x : Q) : Z :=
  let f := Qfloor x in
  match Qcompare (x - inject_Z f) (1 # 2) with
  | Lt => f
  | Gt => (f + 1)%Z
  | Eq => if Z.even f then f else (f + 1)%Z
  end.

Definition round (x : Q) (ndigits : nat) : Q :=
  let scale := inject_Z (10 ^ Z.of_nat ndigits) in
  inject_Z (round_half_even (x * scale)) / scale.

(** Truth value of a [str], and [a or b] on strings. *)
Definition truthy (s : string) : bool := negb (s =? "")%string.

Definition str_or (a b : option string) : option string :=
  match a with
  | Some s => if truthy s then a else b
  | None => b
  end.

(** [sum(...)] over numbers. *)
Definition sum (l : list Q) : Q := fold_left Qplus l 0.

(** [sub in s] on strings. *)
Definition contains (sub s : string) : bool :=
  match String.index 0 sub s with
  | Some _ => true
  | None => false
  end.

(** [list.sort(key=...)]: a stable sort, here by insertion from the
    right; an element goes before the first one whose key is not
    smaller, so equal keys keep their original order. *)
Section Sort.
Context {A : Type} (key : A -> nat).

Fixpoint insert (x : A) (l : list A) : list A :=
  match l with
  | [] => [x]
  | y :: t =>
      if (key x <=? key y)%nat then x :: y :: t else y :: insert x t
  end.

Fixpoint sort (l : list A) : list A :=
  match l with
  | [] => []
  | x :: t => insert x (sort t)
  end.
End Sort.

End Py.

Declare Scope py_scope.
Delimit Scope py_scope with py.
Notation "x <- c ;; k" := (Py.bind c (fun x => k))
  (at level 61, c at next level, right associativity) : py_scope.
Local Open Scope py_scope.

(** ** [config/rewards.py] *)

Module Rewards.
Import Py.

Record RewardConfig : Type := {
  true_positive_reward : Q;
  true_negative_reward : Q;
  false_positive_penalty : Q;
  false_negative_penalty : Q;
  discount_factor : Q
}.

(** [RewardConfig()]: the dataclass defaults. *)
Definition REWARD_MATRIX : RewardConfig := {|
  true_positive_reward := 10.0;
  true_negative_reward := 1.0;
  false_positive_penalty := -5.0;
  false_negative_penalty := -50.0;
  discount_factor := 0.99
|}.

Definition REWARD_CONFIG : RewardConfig := REWARD_MATRIX.

(** What an attribute of a [RewardConfig] instance holds: a number, or
    one of the callables of the class body. *)
Inductive attr : Type :=
| AFloat (q : Q)
| ACallable (name : string).

(** The attributes the class body of [RewardConfig] declares: its five
    fields, its two methods and its property. *)
Definition attributes (c : RewardConfig) : list (string * attr) :=
  [ ("true_positive_reward", AFloat (true_positive_reward c));
    ("true_negative_reward", AFloat (true_negative_reward c));
    ("false_positive_penalty", AFloat (false_positive_penalty c));
    ("false_negative_penalty", AFloat (false_negative_penalty c));
    ("discount_factor", AFloat (discount_factor c));
    ("get_reward", ACallable "get_reward");
    ("get_reward_matrix", ACallable "get_reward_matrix");
    ("cost_ratio", ACallable "cost_ratio") ].

Fixpoint lookup (name : string) (l : list (string * attr)) : option attr :=
  match l with
  | [] => None
  | (k, v) :: t => if (k =? name)%string then Some v else lookup name t
  end.

(** [c.name]: attribute access on an instance. *)
Definition getattr (c : RewardConfig) (name : string) : res attr :=
  match lookup name (attributes c) with
  | Some v => Ok v
  | None => Raise (AttributeError "RewardConfig" name)
  end.

Inductive RiskLevel : Type := LOW | MEDIUM | HIGH | CRITICAL.

(** [RiskLevel.value] *)
Definition value (r : RiskLevel) : string :=
  match r with
  | LOW => "low"
  | MEDIUM => "medium"
  | HIGH => "high"
  | CRITICAL => "critical"
  end.

Definition RiskLevel_eqb (a b : RiskLevel) : bool :=
  match a, b with
  | LOW, LOW | MEDIUM, MEDIUM | HIGH, HIGH | CRITICAL, CRITICAL => true
  | _, _ => false
  end.

Definition classify_risk (score : Q) : RiskLevel :=
  if ge score 0.7 then CRITICAL
  else if ge score 0.4 then HIGH
  else if ge score 0.2 then MEDIUM
  else LOW.

(** [should_flag(score, threshold=0.3)]: the callers of this
    development all leave [threshold] to its default. *)
Definition default_threshold : Q := 0.3.

Definition should_flag (score threshold : Q) : bool := ge score threshold.

End Rewards.

(** ** [tools/fraud_tools.py] *)

Module FraudTools.
Import Py Rewards.

(** A transaction dict: the keys of [TransactionData], each of them
    optional. *)
Record Transaction : Type := {
  transaction_id : option string;
  type : option string;
  amount : option Q;
  date : option string;
  time : option string;
  beneficiary_id : option string;
  beneficiary_name : option string;
  provider_id : option string;
  provider_name : option string;
  description : option string;
  documents_count : option Q;
  tenure_months : option Q;
  provider_risk_score : option Q;
  claims_30d : option Q;
  total_30d : option Q;
  days_since_last : option Q
}.

(** Text rendering of numbers and of the transaction template; only the
    text of messages depends on it.
    - [str x] is the f-string field [{x}],
    - [fixed n x] is [{x:.nf}],
    - [render tx] is the stripped text of [TRANSACTION_TEMPLATE] formatted
      with [tx], the defaults of [serialize_transaction] (the current date
      and time among them) filled in. *)
Record Formatter : Type := {
  str : Q -> string;
  fixed : nat -> Q -> string;
  render : Transaction -> string
}.

Record Metadata : Type := {
  meta_type : string;
  meta_amount : Q;
  meta_beneficiary_id : string;
  meta_provider_id : string
}.

Record Serialized : Type := {
  serialized_status : string;
  serialized_text : string;
  serialized_transaction_id : string;
  metadata : Metadata
}.

Definition serialize_transaction (fmt : Formatter) (transaction : Transaction)
  : Serialized :=
  {| serialized_status := "success";
     serialized_text := render fmt transaction;
     serialized_transaction_id := get (transaction_id transaction) "";
     metadata :=
       {| meta_type := get (type transaction) "REMBOURSEMENT";
          meta_amount := get (amount transaction) 0.0;
          meta_beneficiary_id := get (beneficiary_id transaction) "N/A";
          meta_provider_id := get (provider_id transaction) "N/A" |} |}.

Record Embedding : Type := {
  embedding_status : string;
  embedding_model : string;
  embedding_dimension : nat;
  embedding : list Q;
  text_length : nat
}.

(** [compute_embedding(text, model="text-embedding-004")]; [len(text)] is
    counted in bytes here. *)
Definition compute_embedding (text : string) : Embedding :=
  {| embedding_status := "success";
     embedding_model := "text-embedding-004";
     embedding_dimension := 768;
     embedding := repeat 0.0 768;
     text_length := String.length text |}.

Record Anomaly : Type := {
  anomaly_type : string;
  anomaly_description : string;
  anomaly_severity : string
}.

Record HistoricalStats : Type := {
  avg_amount : option Q;
  stats_total_30d : option Q;
  claim_count : option Q
}.

(** Truth value of the [historical_stats] argument: [None] and the empty
    dict are false. *)
Definition stats_truthy (historical_stats : option HistoricalStats) : bool :=
  match historical_stats with
  | None => false
  | Some h =>
      match avg_amount h, stats_total_30d h, claim_count h with
      | None, None, None => false
      | _, _, _ => true
      end
  end.

Record AnomalyResult : Type := {
  anomaly_status : string;
  anomaly_count : nat;
  anomalies : list Anomaly;
  risk_factors : list string;
  overall_anomaly_score : Q
}.

Definition len {A : Type} (l : list A) : Q := inject_Z (Z.of_nat (List.length l)).

Definition detect_anomalies (fmt : Formatter) (transaction : Transaction)
    (historical_stats : option HistoricalStats) : res AnomalyResult :=
  let anomalies0 : list Anomaly := [] in
  let risk_factors0 : list string := [] in
  let amount := get (amount transaction) 0 in
  let avg_amount :=
    if stats_truthy historical_stats
    then match historical_stats with
         | Some h => get (avg_amount h) 100
         | None => 100
         end
    else 100 in
  let claim_frequency := get (claims_30d transaction) 0 in
  (* Amount anomaly *)
  s1 <- (if gt amount (avg_amount * 5)
         then ratio <- truediv amount avg_amount ;;
              Ok ((anomalies0 ++
                    [ {| anomaly_type := "amount_spike";
                         anomaly_description :=
                           "Montant " ++ str fmt amount ++ "€ est "
                           ++ fixed fmt 1 ratio ++ "x supérieur à la moyenne";
                         anomaly_severity := "high" |} ])%list,
                  (risk_factors0 ++ ["amount_anomaly"])%list)
         else Ok (anomalies0, risk_factors0)) ;;
  let '(anomalies1, risk_factors1) := s1 in
  (* Frequency anomaly *)
  let '(anomalies2, risk_factors2) :=
    if gt claim_frequency 10
    then ((anomalies1 ++
            [ {| anomaly_type := "high_frequency";
                 anomaly_description :=
                   str fmt claim_frequency ++ " demandes en 30 jours";
                 anomaly_severity := "medium" |} ])%list,
          (risk_factors1 ++ ["frequency_anomaly"])%list)
    else (anomalies1, risk_factors1) in
  (* Provider risk *)
  let provider_risk := get (provider_risk_score transaction) 0 in
  let '(anomalies3, risk_factors3) :=
    if gt provider_risk 0.5
    then ((anomalies2 ++
            [ {| anomaly_type := "risky_provider";
                 anomaly_description :=
                   "Score de risque prestataire élevé: "
                   ++ fixed fmt 2 provider_risk;
                 anomaly_severity := "high" |} ])%list,
          (risk_factors2 ++ ["provider_risk"])%list)
    else (anomalies2, risk_factors2) in
  (* New beneficiary with high amount *)
  let tenure := get (tenure_months transaction) 0 in
  let '(anomalies4, risk_factors4) :=
    if lt tenure 3 && gt amount 500
    then ((anomalies3 ++
            [ {| anomaly_type := "new_beneficiary_high_amount";
                 anomaly_description :=
                   "Bénéficiaire récent (" ++ str fmt tenure
                   ++ " mois) avec demande de " ++ str fmt amount ++ "€";
                 anomaly_severity := "medium" |} ])%list,
          (risk_factors3 ++ ["new_beneficiary"])%list)
    else (anomalies3, risk_factors3) in
  Ok {| anomaly_status := "success";
        anomaly_count := List.length anomalies4;
        anomalies := anomalies4;
        risk_factors := risk_factors4;
        overall_anomaly_score := min (len anomalies4 * 0.2) 1.0 |}.

Record History : Type := {
  history_status : string;
  history_beneficiary_id : string;
  period_days : Q;
  transaction_count : Q;
  total_amount : Q;
  history_avg_amount : Q;
  providers_used : list string;
  fraud_flags : Q
}.

(** [get_transaction_history(beneficiary_id, days=90)]: the placeholder
    answer of the source. *)
Definition get_transaction_history (beneficiary_id : string) (days : Q)
  : History :=
  {| history_status := "success";
     history_beneficiary_id := beneficiary_id;
     period_days := days;
     transaction_count := 0;
     total_amount := 0.0;
     history_avg_amount := 0.0;
     providers_used := [];
     fraud_flags := 0 |}.

(** [config/models.py]: [FRAUD_PATTERNS]. *)
Record FraudPattern : Type := {
  id : string;
  name : string;
  pattern_description : string;
  indicators : list string;
  risk_weight : Q
}.

Definition FRAUD_PATTERNS : list FraudPattern :=
  [ {| id := "PATTERN_001";
       name := "Cascade de remboursements";
       pattern_description :=
         "Multiples demandes de petits montants sur une courte période";
       indicators := ["claim_frequency_30d > 10"; "avg_claim_amount < 100"];
       risk_weight := 0.7 |};
    {| id := "PATTERN_002";
       name := "Nouveau prestataire à risque";
       pattern_description :=
         "Demande importante vers un nouveau prestataire non vérifié";
       indicators := ["provider_tenure < 30"; "amount > 1000";
                      "provider_risk_score > 0.5"];
       risk_weight := 0.8 |};
    {| id := "PATTERN_003";
       name := "Pic inhabituel de dépenses";
       pattern_description :=
         "Montant significativement supérieur à l'historique";
       indicators := ["amount > avg_claim_amount * 5"];
       risk_weight := 0.6 |};
    {| id := "PATTERN_004";
       name := "Réseau suspect";
       pattern_description :=
         "Bénéficiaire lié à d'autres cas de fraude confirmés";
       indicators := ["community_risk_score > 0.7";
                      "shared_providers_count > 3"];
       risk_weight := 0.9 |};
    {| id := "PATTERN_005";
       name := "Documents suspects";
       pattern_description :=
         "Anomalies détectées dans les documents soumis";
       indicators := ["document_authenticity_score < 0.7";
                      "metadata_anomaly_score > 0.5"];
       risk_weight := 0.85 |} ].

Record MatchedPattern : Type := {
  matched_id : string;
  matched_name : string;
  matched_description : string;
  match_strength : Q;
  matched_risk_weight : Q
}.

Record PatternResult : Type := {
  pattern_status : string;
  patterns_checked : nat;
  patterns_matched : nat;
  matched_patterns : list MatchedPattern;
  combined_pattern_score : Q
}.

(** The [if / elif / elif] of the inner loop: does this indicator count? *)
Definition indicator_matches (transaction : Transaction) (indicator : string)
  : bool :=
  if contains "claim_frequency_30d" indicator
     && gt (get (claims_30d transaction) 0) 10 then true
  else if contains "amount" indicator
          && gt (get (amount transaction) 0) 1000 then true
  else if contains "provider_risk_score" indicator
          && gt (get (provider_risk_score transaction) 0) 0.5 then true
  else false.

(** One turn of the loop over [FRAUD_PATTERNS], on the pair
    [(matched_patterns, total_weight)].  The division is by
    [len(pattern["indicators"])], positive as soon as one indicator
    matched. *)
Definition match_pattern (transaction : Transaction)
    (acc : list MatchedPattern * Q) (pattern : FraudPattern)
  : list MatchedPattern * Q :=
  let '(matched_patterns, total_weight) := acc in
  let indicators_matched :=
    fold_left (fun n indicator =>
                 if indicator_matches transaction indicator
                 then S n else n)
              (indicators pattern) 0%nat in
  let total_indicators := List.length (indicators pattern) in
  if (0 <? indicators_matched)%nat
  then
    let match_strength :=
      inject_Z (Z.of_nat indicators_matched)
      / inject_Z (Z.of_nat total_indicators) in
    if ge match_strength 0.5
    then ((matched_patterns ++
            [ {| matched_id := id pattern;
                 matched_name := name pattern;
                 matched_description := pattern_description pattern;
                 match_strength := match_strength;
                 matched_risk_weight := risk_weight pattern |} ])%list,
          total_weight + risk_weight pattern * match_strength)
    else acc
  else acc.

Definition match_fraud_patterns (transaction : Transaction) : PatternResult :=
  let '(matched_patterns, total_weight) :=
    fold_left (match_pattern transaction) FRAUD_PATTERNS ([], 0.0) in
  {| pattern_status := "success";
     patterns_checked := List.length FRAUD_PATTERNS;
     patterns_matched := List.length matched_patterns;
     matched_patterns := matched_patterns;
     combined_pattern_score := min total_weight 1.0 |}.

Record Components : Type := {
  anomaly_score : Q;
  pattern_score : Q;
  amount_factor : Q;
  provider_risk : Q
}.

Record Score : Type := {
  score_status : string;
  score_transaction_id : string;
  fraud_probability : Q;
  risk_level : string;
  recommended_action : string;
  confidence : Q;
  components : Components;
  score_anomalies : list Anomaly;
  score_matched_patterns : list MatchedPattern;
  explanation_pending : bool
}.

(** [score_transaction(transaction, embedding=None)]; the third argument
    of the source, [structured_features], is never read. *)
Definition score_transaction (fmt : Formatter) (transaction : Transaction)
    (embedding : option (list Q)) : res Score :=
  (* Step 1: serialize and embed if not provided *)
  let embedding :=
    match embedding with
    | None =>
        let serialized := serialize_transaction fmt transaction in
        FraudTools.embedding (compute_embedding (serialized_text serialized))
    | Some e => e
    end in
  (* Step 2: detect anomalies *)
  anomaly_result <- detect_anomalies fmt transaction None ;;
  let anomaly_score := overall_anomaly_score anomaly_result in
  (* Step 3: match patterns *)
  let pattern_result := match_fraud_patterns transaction in
  let pattern_score := combined_pattern_score pattern_result in
  (* Step 4: combine scores *)
  let w_anomaly := 0.3 in
  let w_pattern := 0.4 in
  let w_amount_factor := 0.2 in
  let w_provider_risk := 0.1 in
  let amount := get (amount transaction) 0 in
  let amount_factor := min (amount / 5000) 1.0 in
  let provider_risk := get (provider_risk_score transaction) 0 in
  let combined_score :=
    w_anomaly * anomaly_score
    + w_pattern * pattern_score
    + w_amount_factor * amount_factor * 0.5
    + w_provider_risk * provider_risk in
  (* Normalize to 0-1 *)
  let fraud_probability := min (max combined_score 0) 1 in
  (* Step 5: classify and recommend action *)
  let risk_level := classify_risk fraud_probability in
  let should_flag_tx := should_flag fraud_probability default_threshold in
  Ok {| score_status := "success";
        score_transaction_id := get (transaction_id transaction) "";
        fraud_probability := round fraud_probability 4;
        risk_level := value risk_level;
        recommended_action := if should_flag_tx then "FLAG" else "PASS";
        confidence := round (1 - Qabs (fraud_probability - 0.5) * 2) 4;
        components :=
          {| anomaly_score := round anomaly_score 4;
             pattern_score := round pattern_score 4;
             amount_factor := round amount_factor 4;
             provider_risk := round provider_risk 4 |};
        score_anomalies := anomalies anomaly_result;
        score_matched_patterns := matched_patterns pattern_result;
        explanation_pending := true |}.

End FraudTools.

(** ** [agents/base_agent.py] and [agents/transaction_analyst.py] *)

Module TransactionAnalyst.
Import Py Rewards FraudTools.

Record AgentContext : Type := {
  context_transaction_id : string;
  context_case_id : string
}.

(** The agent object: of its attributes, only [reward_config] is read by
    the methods below. *)
Record TransactionAnalystAgent : Type := {
  reward_config : RewardConfig
}.

(** [TransactionAnalystAgent()] *)
Definition create_agent : TransactionAnalystAgent :=
  {| reward_config := REWARD_CONFIG |}.

(** A numeric attribute used in arithmetic. *)
Definition float_attr (c : RewardConfig) (name : string) : res Q :=
  a <- getattr c name ;;
  match a with
  | AFloat q => Ok q
  | ACallable _ =>
      Raise (Exn "TypeError" "unsupported operand type(s) for *")
  end.

Definition _calculate_expected_reward (self : TransactionAnalystAgent)
    (fraud_probability : Q) (flag_decision : bool) : res Q :=
  let p_fraud := fraud_probability in
  let p_legit := 1 - fraud_probability in
  if flag_decision
  then
    tp <- float_attr (reward_config self) "true_positive_reward" ;;
    fp <- float_attr (reward_config self) "false_positive_penalty" ;;
    Ok (p_fraud * tp + p_legit * fp)
  else
    fn <- float_attr (reward_config self) "false_negative_penalty" ;;
    tn <- float_attr (reward_config self) "true_negative_reward" ;;
    Ok (p_fraud * fn + p_legit * tn).

Record CostMatrix : Type := {
  TP : attr;
  TN : attr;
  FP : attr;
  FN : attr
}.

Record CostSensitive : Type := {
  expected_reward : Q;
  threshold_used : attr;
  cost_matrix : CostMatrix
}.

Record HistoricalContext : Type := {
  included : bool;
  stats : option HistoricalStats
}.

Record Analysis : Type := {
  analysis_status : string;
  analysis_transaction_id : string;
  analysis_fraud_probability : Q;
  analysis_risk_level : string;
  analysis_recommended_action : string;
  analysis_confidence : Q;
  analysis_components : Components;
  analysis_anomalies : list Anomaly;
  analysis_matched_patterns : list MatchedPattern;
  historical_context : HistoricalContext;
  cost_sensitive : CostSensitive;
  analysis_serialized_text : string
}.

(** [analyze(transaction, context, include_history=True)] *)
Definition analyze (self : TransactionAnalystAgent) (fmt : Formatter)
    (transaction : Transaction) (context : AgentContext)
    (include_history : bool) : res Analysis :=
  (* Step 1: historical context *)
  let historical_stats :=
    if include_history
    then
      let beneficiary_id := get (beneficiary_id transaction) "" in
      if truthy beneficiary_id
      then
        let history := get_transaction_history beneficiary_id 90 in
        Some {| avg_amount := Some (history_avg_amount history);
                stats_total_30d := Some (total_amount history);
                claim_count := Some (transaction_count history) |}
      else None
    else None in
  (* Step 2: serialize *)
  let serialized := serialize_transaction fmt transaction in
  (* Step 3: embedding *)
  let embedding_result := compute_embedding (serialized_text serialized) in
  let embedding := embedding embedding_result in
  (* Step 4: anomalies *)
  anomaly_result <- detect_anomalies fmt transaction historical_stats ;;
  (* Step 5: patterns *)
  let pattern_result := match_fraud_patterns transaction in
  (* Step 6: final score *)
  score_result <- score_transaction fmt transaction (Some embedding) ;;
  (* Step 7: cost-sensitive decision *)
  let fraud_probability := fraud_probability score_result in
  let risk_level := classify_risk fraud_probability in
  let flag_decision := should_flag fraud_probability default_threshold in
  expected_reward <-
    _calculate_expected_reward self fraud_probability flag_decision ;;
  (* the returned dict: its entries are evaluated in order *)
  threshold_used <- getattr (reward_config self) "flag_threshold" ;;
  tp <- getattr (reward_config self) "true_positive_reward" ;;
  tn <- getattr (reward_config self) "true_negative_reward" ;;
  fp <- getattr (reward_config self) "false_positive_penalty" ;;
  fn <- getattr (reward_config self) "false_negative_penalty" ;;
  Ok {| analysis_status := "success";
        analysis_transaction_id := get (transaction_id transaction) "";
        analysis_fraud_probability := round fraud_probability 4;
        analysis_risk_level := value risk_level;
        analysis_recommended_action :=
          if flag_decision then "FLAG" else "PASS";
        analysis_confidence := confidence score_result;
        analysis_components := components score_result;
        analysis_anomalies := anomalies anomaly_result;
        analysis_matched_patterns := matched_patterns pattern_result;
        historical_context :=
          {| included := include_history; stats := historical_stats |};
        cost_sensitive :=
          {| expected_reward := round expected_reward 4;
             threshold_used := threshold_used;
             cost_matrix := {| TP := tp; TN := tn; FP := fp; FN := fn |} |};
        analysis_serialized_text := serialized_text serialized |}.

Record BatchItem : Type := {
  item_transaction_id : string;
  item_fraud_probability : Q;
  item_risk_level : string;
  item_recommended_action : string
}.

Record Batch : Type := {
  batch_status : string;
  transactions_analyzed : nat;
  flagged_count : nat;
  pass_count : nat;
  average_fraud_probability : Q;
  results : list BatchItem
}.

(** The [for tx in transactions] loop of [batch_analyze], on the triple
    [(results, flagged, total_fraud_prob)]. *)
Fixpoint batch_loop (self : TransactionAnalystAgent) (fmt : Formatter)
    (context : AgentContext) (transactions : list Transaction)
    (acc : list BatchItem * nat * Q) : res (list BatchItem * nat * Q) :=
  match transactions with
  | [] => Ok acc
  | tx :: rest =>
      let '(results, flagged, total_fraud_prob) := acc in
      result <- analyze self fmt tx context false ;;
      let results' :=
        (results ++
           [ {| item_transaction_id := analysis_transaction_id result;
                item_fraud_probability := analysis_fraud_probability result;
                item_risk_level := analysis_risk_level result;
                item_recommended_action :=
                  analysis_recommended_action result |} ])%list in
      let flagged' :=
        if (analysis_recommended_action result =? "FLAG")%string
        then S flagged else flagged in
      batch_loop self fmt context rest
        (results', flagged', total_fraud_prob + analysis_fraud_probability result)
  end.

Definition batch_analyze (self : TransactionAnalystAgent) (fmt : Formatter)
    (transactions : list Transaction) (context : AgentContext) : res Batch :=
  out <- batch_loop self fmt context transactions ([], 0%nat, 0) ;;
  let '(results, flagged, total_fraud_prob) := out in
  Ok {| batch_status := "success";
        transactions_analyzed := List.length results;
        flagged_count := flagged;
        pass_count := List.length results - flagged;
        average_fraud_probability :=
          match results with
          | [] => 0
          | _ :: _ => round (total_fraud_prob / len results) 4
          end;
        results := results |}.

End TransactionAnalyst.

(** ** [agents/orchestrator.py] *)

Module Orchestrator.
Import Py Rewards.
Export TransactionAnalyst.

Inductive WorkflowType : Type := STANDARD | QUICK | INVESTIGATION | BATCH.

Definition workflow_value (w : WorkflowType) : string :=
  match w with
  | STANDARD => "standard"
  | QUICK => "quick"
  | INVESTIGATION => "investigation"
  | BATCH => "batch"
  end.

(** *** The dicts the orchestrator reads

    One record per adapter result, with the keys the orchestrator looks
    up; every key may be absent. *)

Record AnomalyDict : Type := {
  anomaly_type : option string;
  anomaly_severity : option string;
  anomaly_description : option string
}.

Record TransactionAnalysis : Type := {
  fraud_probability : option Q;
  anomalies : option (list AnomalyDict)
}.

Record DocumentAnalysis : Type := {
  overall_authenticity_score : option Q
}.

Record PatternDict : Type := {
  pattern_id : option string;
  pattern_name : option string;
  match_strength : option Q
}.

Record PatternDetection : Type := {
  combined_risk_score : option Q;
  patterns_matched : option (list PatternDict)
}.

Record IssueDict : Type := {
  issue_type : option string;
  issue_severity : option string;
  issue_details : option string
}.

Record IdentityVerification : Type := {
  verification_score : option Q;
  issues_found : option (list IssueDict)
}.

Record FraudRings : Type := {
  detected_count : option Q
}.

Record NetworkAnalysis : Type := {
  network_risk_score : option Q;
  fraud_rings : option FraudRings
}.

(** [analysis_results]: one optional entry per adapter. *)
Record AnalysisResults : Type := {
  transaction_analysis : option TransactionAnalysis;
  document_analysis : option DocumentAnalysis;
  pattern_detection : option PatternDetection;
  identity_verification : option IdentityVerification;
  network_analysis : option NetworkAnalysis
}.

(** The empty dict [{}] at each of these types. *)
Definition no_transaction_analysis : TransactionAnalysis :=
  {| fraud_probability := None; anomalies := None |}.
Definition no_document_analysis : DocumentAnalysis :=
  {| overall_authenticity_score := None |}.
Definition no_pattern_detection : PatternDetection :=
  {| combined_risk_score := None; patterns_matched := None |}.
Definition no_identity_verification : IdentityVerification :=
  {| verification_score := None; issues_found := None |}.
Definition no_fraud_rings : FraudRings :=
  {| detected_count := None |}.
Definition no_network_analysis : NetworkAnalysis :=
  {| network_risk_score := None; fraud_rings := None |}.
Definition no_results : AnalysisResults :=
  {| transaction_analysis := None;
     document_analysis := None;
     pattern_detection := None;
     identity_verification := None;
     network_analysis := None |}.

(** The dict returned by [TransactionAnalystAgent.analyze], as the
    orchestrator reads it. *)
Definition anomaly_dict (a : FraudTools.Anomaly) : AnomalyDict :=
  {| anomaly_type := Some (FraudTools.anomaly_type a);
     anomaly_severity := Some (FraudTools.anomaly_severity a);
     anomaly_description := Some (FraudTools.anomaly_description a) |}.

Definition analysis_dict (a : Analysis) : TransactionAnalysis :=
  {| fraud_probability := Some (analysis_fraud_probability a);
     anomalies := Some (map anomaly_dict (analysis_anomalies a)) |}.

(** A small dict from adapter name to number ([scores], [weights]). *)
Definition dict : Type := list (string * Q).

Fixpoint dict_get (d : dict) (k : string) (default : Q) : Q :=
  match d with
  | [] => default
  | (k', v) :: t => if (k' =? k)%string then v else dict_get t k default
  end.

Definition keys (d : dict) : list string := map fst d.
Definition values (d : dict) : list Q := map snd d.

(** *** Key findings *)

Record Finding : Type := {
  source : string;
  finding_type : string;
  severity : string;
  finding_description : string
}.

(** [severity_order.get(severity, 3)] *)
Definition severity_order (s : string) : nat :=
  if (s =? "critical")%string then 0
  else if (s =? "high")%string then 1
  else if (s =? "medium")%string then 2
  else if (s =? "low")%string then 3
  else 3.

(** The findings in the order the five blocks append them, before the
    sort. *)
Definition collect_findings (analysis_results : AnalysisResults)
  : list Finding :=
  let findings0 : list Finding := [] in
  (* From transaction analysis *)
  let tx_analysis :=
    get (transaction_analysis analysis_results) no_transaction_analysis in
  let findings1 :=
    (findings0 ++
       map (fun anomaly =>
              {| source := "transaction";
                 finding_type := get (anomaly_type anomaly) "";
                 severity := get (anomaly_severity anomaly) "medium";
                 finding_description :=
                   get (anomaly_description anomaly) "" |})
           (get (anomalies tx_analysis) []))%list in
  (* From document analysis *)
  let doc_analysis :=
    get (document_analysis analysis_results) no_document_analysis in
  let findings2 :=
    if lt (get (overall_authenticity_score doc_analysis) 1) 0.7
    then (findings1 ++
            [ {| source := "document";
                 finding_type := "authenticity_concern";
                 severity := "high";
                 finding_description :=
                   "Score d'authenticité documentaire faible" |} ])%list
    else findings1 in
  (* From pattern detection *)
  let pattern_analysis :=
    get (pattern_detection analysis_results) no_pattern_detection in
  let findings3 :=
    (findings2 ++
       map (fun pattern =>
              {| source := "pattern";
                 finding_type := get (pattern_id pattern) "";
                 severity :=
                   if gt (get (match_strength pattern) 0) 0.7
                   then "high" else "medium";
                 finding_description := get (pattern_name pattern) "" |})
           (get (patterns_matched pattern_analysis) []))%list in
  (* From identity verification *)
  let identity_analysis :=
    get (identity_verification analysis_results) no_identity_verification in
  let findings4 :=
    (findings3 ++
       map (fun issue =>
              {| source := "identity";
                 finding_type := get (issue_type issue) "";
                 severity := get (issue_severity issue) "medium";
                 finding_description := get (issue_details issue) "" |})
           (get (issues_found identity_analysis) []))%list in
  (* From network analysis *)
  let network_analysis :=
    get (network_analysis analysis_results) no_network_analysis in
  let findings5 :=
    if gt (get (detected_count
                  (get (fraud_rings network_analysis) no_fraud_rings)) 0) 0
    then (findings4 ++
            [ {| source := "network";
                 finding_type := "fraud_ring";
                 severity := "critical";
                 finding_description :=
                   "Cercle de fraude potentiel détecté" |} ])%list
    else findings4 in
  findings5.

Definition _extract_key_findings (analysis_results : AnalysisResults)
  : list Finding :=
  let findings := collect_findings analysis_results in
  (* Sort by severity *)
  let findings := sort (fun f => severity_order (severity f)) findings in
  firstn 10 findings.

(** *** Decide phase *)

(** [scores] *)
Definition decide_scores (analysis_results : AnalysisResults) : dict :=
  [ ("transaction",
     get (fraud_probability
            (get (transaction_analysis analysis_results)
                 no_transaction_analysis)) 0);
    ("document",
     1 - get (overall_authenticity_score
                (get (document_analysis analysis_results)
                     no_document_analysis)) 1);
    ("pattern",
     get (combined_risk_score
            (get (pattern_detection analysis_results)
                 no_pattern_detection)) 0);
    ("identity",
     1 - get (verification_score
                (get (identity_verification analysis_results)
                     no_identity_verification)) 1);
    ("network",
     get (network_risk_score
            (get (network_analysis analysis_results)
                 no_network_analysis)) 0) ].

(** [weights] *)
Definition decide_weights : dict :=
  [ ("transaction", 0.30);
    ("document", 0.20);
    ("pattern", 0.25);
    ("identity", 0.15);
    ("network", 0.10) ].

(** [sum(scores.get(k, 0) * weights.get(k, 0) for k in weights)] *)
Definition weighted_sum (scores weights : dict) : Q :=
  sum (map (fun k => dict_get scores k 0 * dict_get weights k 0)
           (keys weights)).

(** [sum((s - weighted_score) ** 2 for s in scores.values()) / len(scores)] *)
Definition variance_about (scores : dict) (weighted_score : Q) : Q :=
  sum (map (fun s => (s - weighted_score) ^ 2) (values scores))
  / FraudTools.len scores.

Definition choose_action (risk_level : RiskLevel) (flag_decision : bool)
  : string :=
  if RiskLevel_eqb risk_level CRITICAL then "BLOCK"
  else if flag_decision then "FLAG"
  else "PASS".

(** The local variables of [_decide_phase] when it reaches its [return]. *)
Record DecideLocals : Type := {
  scores : dict;
  weights : dict;
  weighted_score : Q;
  local_fraud_probability : Q;
  risk_level : RiskLevel;
  flag_decision : bool;
  action : string;
  score_variance : Q;
  local_confidence : Q;
  key_findings : list Finding
}.

Definition decide_locals (analysis_results : AnalysisResults)
  : DecideLocals :=
  let scores := decide_scores analysis_results in
  let weights := decide_weights in
  let weighted_score := weighted_sum scores weights in
  let fraud_probability := min (max weighted_score 0) 1 in
  let risk_level := classify_risk fraud_probability in
  let flag_decision := should_flag fraud_probability default_threshold in
  let action := choose_action risk_level flag_decision in
  let score_variance := variance_about scores weighted_score in
  let confidence := 1 - min score_variance 0.25 * 4 in
  let key_findings := _extract_key_findings analysis_results in
  {| scores := scores;
     weights := weights;
     weighted_score := weighted_score;
     local_fraud_probability := fraud_probability;
     risk_level := risk_level;
     flag_decision := flag_decision;
     action := action;
     score_variance := score_variance;
     local_confidence := confidence;
     key_findings := key_findings |}.

(** The orchestrator object: of its attributes, the transaction analyst
    and [reward_config] are the ones modelled in full; the other sub-agents
    are the fields of [SubAgents] below. *)
Record FraudOrchestratorAgent : Type := {
  transaction_analyst : TransactionAnalystAgent;
  orchestrator_reward_config : RewardConfig
}.

(** [FraudOrchestratorAgent()] *)
Definition create_orchestrator : FraudOrchestratorAgent :=
  {| transaction_analyst := create_agent;
     orchestrator_reward_config := REWARD_CONFIG |}.

Record Decision : Type := {
  decision_action : string;
  decision_fraud_probability : Q;
  decision_risk_level : string;
  decision_confidence : Q;
  component_scores : dict;
  weights_used : dict;
  decision_threshold_used : attr;
  decision_key_findings : list Finding;
  cost_matrix_applied : CostMatrix
}.

Definition _decide_phase (self : FraudOrchestratorAgent)
    (analysis_results : AnalysisResults) (context : AgentContext)
  : res Decision :=
  let l := decide_locals analysis_results in
  (* the returned dict: its entries are evaluated in order *)
  threshold_used <- getattr (orchestrator_reward_config self) "flag_threshold" ;;
  tp <- getattr (orchestrator_reward_config self) "true_positive_reward" ;;
  tn <- getattr (orchestrator_reward_config self) "true_negative_reward" ;;
  fp <- getattr (orchestrator_reward_config self) "false_positive_penalty" ;;
  fn <- getattr (orchestrator_reward_config self) "false_negative_penalty" ;;
  Ok {| decision_action := action l;
        decision_fraud_probability := round (local_fraud_probability l) 4;
        decision_risk_level := value (risk_level l);
        decision_confidence := round (local_confidence l) 4;
        component_scores :=
          map (fun kv => (fst kv, round (snd kv) 4)) (scores l);
        weights_used := weights l;
        decision_threshold_used := threshold_used;
        decision_key_findings := key_findings l;
        cost_matrix_applied := {| TP := tp; TN := tn; FP := fp; FN := fn |} |}.

(** *** Requests, state and responses *)

Record Beneficiary : Type := {
  beneficiary_id : option string;
  beneficiary_entries : list (string * string)
}.

(** Truth value of a dict: false when it has no key. *)
Definition beneficiary_truthy (b : Beneficiary) : bool :=
  match beneficiary_id b, beneficiary_entries b with
  | None, [] => false
  | _, _ => true
  end.

Definition is_some {A : Type} (o : option A) : bool :=
  match o with
  | Some _ => true
  | None => false
  end.

Definition transaction_truthy (t : FraudTools.Transaction) : bool :=
  is_some (FraudTools.transaction_id t) || is_some (FraudTools.type t)
  || is_some (FraudTools.amount t) || is_some (FraudTools.date t)
  || is_some (FraudTools.time t) || is_some (FraudTools.beneficiary_id t)
  || is_some (FraudTools.beneficiary_name t)
  || is_some (FraudTools.provider_id t)
  || is_some (FraudTools.provider_name t)
  || is_some (FraudTools.description t)
  || is_some (FraudTools.documents_count t)
  || is_some (FraudTools.tenure_months t)
  || is_some (FraudTools.provider_risk_score t)
  || is_some (FraudTools.claims_30d t) || is_some (FraudTools.total_30d t)
  || is_some (FraudTools.days_since_last t).

(** The empty dicts [{}] used as defaults of [request.get]. *)
Definition no_transaction : FraudTools.Transaction :=
  {| FraudTools.transaction_id := None; FraudTools.type := None;
     FraudTools.amount := None; FraudTools.date := None;
     FraudTools.time := None; FraudTools.beneficiary_id := None;
     FraudTools.beneficiary_name := None; FraudTools.provider_id := None;
     FraudTools.provider_name := None; FraudTools.description := None;
     FraudTools.documents_count := None; FraudTools.tenure_months := None;
     FraudTools.provider_risk_score := None; FraudTools.claims_30d := None;
     FraudTools.total_30d := None; FraudTools.days_since_last := None |}.

Definition no_beneficiary : Beneficiary :=
  {| beneficiary_id := None; beneficiary_entries := [] |}.

Record Explanation : Type := {
  explanation_text : option string;
  recommendations : option (list string)
}.

Record DecisionData : Type := {
  data_transaction_id : string;
  data_fraud_probability : Q;
  data_risk_level : string;
  data_recommended_action : string;
  data_anomalies : list AnomalyDict;
  data_matched_patterns : list PatternDict;
  data_components : dict
}.

Record Intake : Type := {
  transaction_received : bool;
  documents_count : nat;
  beneficiary_provided : bool;
  validation_passed : bool
}.

(** [state.results]: one optional entry per phase. *)
Record PhaseResults : Type := {
  results_intake : option Intake;
  results_analysis : option AnalysisResults;
  results_decision : option Decision;
  results_explanation : option Explanation
}.

Record OrchestratorState : Type := {
  state_transaction_id : string;
  state_case_id : string;
  workflow_type : WorkflowType;
  current_phase : string;
  state_results : PhaseResults
}.

Definition set_phase (state : OrchestratorState) (phase : string)
    (results : PhaseResults) : OrchestratorState :=
  {| state_transaction_id := state_transaction_id state;
     state_case_id := state_case_id state;
     workflow_type := workflow_type state;
     current_phase := phase;
     state_results := results |}.

Record InvestigationData : Type := {
  investigation_case_id : string;
  investigation_transaction : FraudTools.Transaction;
  investigation_analysis : option AnalysisResults;
  investigation_decision : option Decision
}.

Section Workflows.

(** The parts of a run this development leaves open: the type of a
    document and of an investigation report, the text formatter, the
    [CASE-<timestamp>] default of [case_id], and the sub-agents other than
    the transaction analyst, each of which returns a dict or raises. *)
Variable Document : Type.
Variable Report : Type.
Variable fmt : FraudTools.Formatter.
Variable default_case_id : string.

Record SubAgents : Type := {
  document_analyst_analyze :
    list Document -> AgentContext -> res DocumentAnalysis;
  pattern_detector_detect :
    FraudTools.Transaction -> AgentContext -> res PatternDetection;
  identity_verifier_verify :
    Beneficiary -> AgentContext -> res IdentityVerification;
  network_analyzer_analyze :
    string -> AgentContext -> res NetworkAnalysis;
  explanation_generator_explain :
    DecisionData -> AgentContext -> res Explanation;
  explanation_generator_create_report :
    string -> InvestigationData -> AgentContext -> res Report
}.

Variable agents : SubAgents.

Record Request : Type := {
  request_transaction_id : option string;
  request_case_id : option string;
  request_transaction : option FraudTools.Transaction;
  request_documents : option (list Document);
  request_beneficiary : option Beneficiary;
  request_transactions : option (list FraudTools.Transaction)
}.

Definition _intake_phase (transaction : FraudTools.Transaction)
    (documents : list Document) (beneficiary : Beneficiary) : res Intake :=
  Ok {| transaction_received := transaction_truthy transaction;
        documents_count := List.length documents;
        beneficiary_provided := beneficiary_truthy beneficiary;
        validation_passed := true |}.

Definition _analyze_phase (self : FraudOrchestratorAgent)
    (transaction : FraudTools.Transaction) (documents : list Document)
    (beneficiary : Beneficiary) (context : AgentContext)
  : res AnalysisResults :=
  (* 1. Document analysis *)
  document_entry <-
    (match documents with
     | [] => Ok None
     | _ :: _ =>
         doc_result <- document_analyst_analyze agents documents context ;;
         Ok (Some doc_result)
     end) ;;
  (* 2. Transaction scoring *)
  tx_result <-
    analyze (transaction_analyst self) fmt transaction context true ;;
  (* 3. Pattern detection *)
  pattern_result <- pattern_detector_detect agents transaction context ;;
  (* 4. Identity verification (if beneficiary data provided) *)
  identity_entry <-
    (if beneficiary_truthy beneficiary
     then identity_result <-
            identity_verifier_verify agents beneficiary context ;;
          Ok (Some identity_result)
     else Ok None) ;;
  (* 5. Network analysis (if beneficiary ID provided) *)
  let beneficiary_id :=
    str_or (beneficiary_id beneficiary)
           (FraudTools.beneficiary_id transaction) in
  network_entry <-
    (match beneficiary_id with
     | Some entity_id =>
         if truthy entity_id
         then network_result <-
                network_analyzer_analyze agents entity_id context ;;
              Ok (Some network_result)
         else Ok None
     | None => Ok None
     end) ;;
  Ok {| transaction_analysis := Some (analysis_dict tx_result);
        document_analysis := document_entry;
        pattern_detection := Some pattern_result;
        identity_verification := identity_entry;
        network_analysis := network_entry |}.

Definition _explain_phase (decision_result : Decision)
    (analysis_results : AnalysisResults) (context : AgentContext)
  : res Explanation :=
  let decision_data :=
    {| data_transaction_id := context_transaction_id context;
       data_fraud_probability := decision_fraud_probability decision_result;
       data_risk_level := decision_risk_level decision_result;
       data_recommended_action := decision_action decision_result;
       data_anomalies :=
         get (anomalies (get (transaction_analysis analysis_results)
                             no_transaction_analysis)) [];
       data_matched_patterns :=
         get (patterns_matched (get (pattern_detection analysis_results)
                                    no_pattern_detection)) [];
       data_components := component_scores decision_result |} in
  explanation_generator_explain agents decision_data context.

Record AnalysisSummary : Type := {
  phases_completed : list string;
  agents_invoked : list string;
  summary_component_scores : dict
}.

Record AuditTrail : Type := {
  audit_case_id : string;
  audit_transaction_id : string;
  audit_decision : option string;
  audit_fraud_probability : option Q;
  audit_threshold_used : option attr;
  audit_cost_matrix : option CostMatrix;
  model_version : string
}.

Record StandardResponse : Type := {
  standard_status : string;
  standard_transaction_id : string;
  standard_case_id : string;
  standard_workflow : string;
  standard_decision : string;
  standard_fraud_probability : Q;
  standard_risk_level : string;
  standard_confidence : Q;
  analysis_summary : AnalysisSummary;
  standard_key_findings : list Finding;
  standard_explanation : string;
  standard_recommendations : list string;
  audit_trail : AuditTrail;
  investigation_report : option Report
}.

Record QuickResponse : Type := {
  quick_status : string;
  quick_transaction_id : string;
  quick_workflow : string;
  quick_decision : string;
  quick_fraud_probability : Q;
  quick_risk_level : string;
  quick_screen : bool;
  requires_full_analysis : bool
}.

Record BatchResponse : Type := {
  batch_response_status : string;
  batch_workflow : string;
  transactions_processed : nat;
  batch_flagged_count : nat;
  batch_pass_count : nat;
  batch_average_fraud_probability : Q;
  batch_results : list BatchItem
}.

Record ErrorResponse : Type := {
  error_status : string;
  error : string;
  error_transaction_id : string;
  error_case_id : string
}.

(** The dict [process] returns, by its shape. *)
Inductive Response : Type :=
| Standard (r : StandardResponse)
| Quick (r : QuickResponse)
| BatchDone (r : BatchResponse)
| Failed (r : ErrorResponse).

(** [result["status"]] *)
Definition status (r : Response) : string :=
  match r with
  | Standard r => standard_status r
  | Quick r => quick_status r
  | BatchDone r => batch_response_status r
  | Failed r => error_status r
  end.

(** [list(analysis.keys())], in the order [_analyze_phase] inserts them. *)
Definition analysis_keys (analysis : AnalysisResults) : list string :=
  ((if is_some (document_analysis analysis)
    then ["document_analysis"] else [])
   ++ (if is_some (transaction_analysis analysis)
       then ["transaction_analysis"] else [])
   ++ (if is_some (pattern_detection analysis)
       then ["pattern_detection"] else [])
   ++ (if is_some (identity_verification analysis)
       then ["identity_verification"] else [])
   ++ (if is_some (network_analysis analysis)
       then ["network_analysis"] else []))%list.

Definition _compile_response (state : OrchestratorState)
    (context : AgentContext) : StandardResponse :=
  let decision := results_decision (state_results state) in
  let explanation := results_explanation (state_results state) in
  let analysis := get (results_analysis (state_results state)) no_results in
  {| standard_status := "success";
     standard_transaction_id := state_transaction_id state;
     standard_case_id := state_case_id state;
     standard_workflow := workflow_value (workflow_type state);
     standard_decision :=
       match decision with Some d => decision_action d | None => "REVIEW" end;
     standard_fraud_probability :=
       match decision with
       | Some d => decision_fraud_probability d
       | None => 0
       end;
     standard_risk_level :=
       match decision with
       | Some d => decision_risk_level d
       | None => "unknown"
       end;
     standard_confidence :=
       match decision with Some d => decision_confidence d | None => 0 end;
     analysis_summary :=
       {| phases_completed := ["intake"; "analyze"; "decide"; "explain"];
          agents_invoked := analysis_keys analysis;
          summary_component_scores :=
            match decision with Some d => component_scores d | None => [] end |};
     standard_key_findings :=
       match decision with
       | Some d => decision_key_findings d
       | None => []
       end;
     standard_explanation :=
       match explanation with
       | Some e => get (explanation_text e) ""
       | None => ""
       end;
     standard_recommendations :=
       match explanation with
       | Some e => get (recommendations e) []
       | None => []
       end;
     audit_trail :=
       {| audit_case_id := state_case_id state;
          audit_transaction_id := state_transaction_id state;
          audit_decision := option_map decision_action decision;
          audit_fraud_probability :=
            option_map decision_fraud_probability decision;
          audit_threshold_used :=
            option_map decision_threshold_used decision;
          audit_cost_matrix := option_map cost_matrix_applied decision;
          model_version := "fraudshield-v1.0" |};
     investigation_report := None |}.

(** The workflows thread [state] explicitly: each returns the response
    together with the state it leaves behind. *)
Definition _standard_workflow (self : FraudOrchestratorAgent)
    (request : Request) (state : OrchestratorState) (context : AgentContext)
  : res (StandardResponse * OrchestratorState) :=
  let transaction := get (request_transaction request) no_transaction in
  let documents := get (request_documents request) [] in
  let beneficiary := get (request_beneficiary request) no_beneficiary in
  (* Phase 1: INTAKE *)
  let state := set_phase state "intake" (state_results state) in
  intake_result <- _intake_phase transaction documents beneficiary ;;
  let results1 :=
    {| results_intake := Some intake_result;
       results_analysis := results_analysis (state_results state);
       results_decision := results_decision (state_results state);
       results_explanation := results_explanation (state_results state) |} in
  (* Phase 2: ANALYZE *)
  let state := set_phase state "analyze" results1 in
  analysis_results <-
    _analyze_phase self transaction documents beneficiary context ;;
  let results2 :=
    {| results_intake := results_intake results1;
       results_analysis := Some analysis_results;
       results_decision := results_decision results1;
       results_explanation := results_explanation results1 |} in
  (* Phase 3: DECIDE *)
  let state := set_phase state "decide" results2 in
  decision_result <- _decide_phase self analysis_results context ;;
  let results3 :=
    {| results_intake := results_intake results2;
       results_analysis := results_analysis results2;
       results_decision := Some decision_result;
       results_explanation := results_explanation results2 |} in
  (* Phase 4: EXPLAIN *)
  let state := set_phase state "explain" results3 in
  explanation_result <-
    _explain_phase decision_result analysis_results context ;;
  let results4 :=
    {| results_intake := results_intake results3;
       results_analysis := results_analysis results3;
       results_decision := results_decision results3;
       results_explanation := Some explanation_result |} in
  let state := set_phase state "explain" results4 in
  Ok (_compile_response state context, state).

Definition _quick_workflow (self : FraudOrchestratorAgent)
    (request : Request) (state : OrchestratorState) (context : AgentContext)
  : res QuickResponse :=
  let transaction := get (request_transaction request) no_transaction in
  (* Only transaction scoring *)
  tx_result <-
    analyze (transaction_analyst self) fmt transaction context false ;;
  let fraud_probability := analysis_fraud_probability tx_result in
  let risk_level := classify_risk fraud_probability in
  Ok {| quick_status := "success";
        quick_transaction_id := state_transaction_id state;
        quick_workflow := "quick";
        quick_decision :=
          if should_flag fraud_probability default_threshold
          then "FLAG" else "PASS";
        quick_fraud_probability := fraud_probability;
        quick_risk_level := value risk_level;
        quick_screen := true;
        requires_full_analysis :=
          RiskLevel_eqb risk_level MEDIUM || RiskLevel_eqb risk_level HIGH
          || RiskLevel_eqb risk_level CRITICAL |}.

Definition _investigation_workflow (self : FraudOrchestratorAgent)
    (request : Request) (state : OrchestratorState) (context : AgentContext)
  : res StandardResponse :=
  (* Run standard workflow first *)
  out <- _standard_workflow self request state context ;;
  let '(result, state) := out in
  (* Add investigation report *)
  let investigation_data :=
    {| investigation_case_id := state_case_id state;
       investigation_transaction :=
         get (request_transaction request) no_transaction;
       investigation_analysis := results_analysis (state_results state);
       investigation_decision := results_decision (state_results state) |} in
  report <-
    explanation_generator_create_report agents (state_case_id state)
      investigation_data context ;;
  Ok {| standard_status := standard_status result;
        standard_transaction_id := standard_transaction_id result;
        standard_case_id := standard_case_id result;
        standard_workflow := standard_workflow result;
        standard_decision := standard_decision result;
        standard_fraud_probability := standard_fraud_probability result;
        standard_risk_level := standard_risk_level result;
        standard_confidence := standard_confidence result;
        analysis_summary := analysis_summary result;
        standard_key_findings := standard_key_findings result;
        standard_explanation := standard_explanation result;
        standard_recommendations := standard_recommendations result;
        audit_trail := audit_trail result;
        investigation_report := Some report |}.

Definition _batch_workflow (self : FraudOrchestratorAgent)
    (request : Request) (state : OrchestratorState) (context : AgentContext)
  : res BatchResponse :=
  let transactions := get (request_transactions request) [] in
  (* Batch scoring *)
  batch_result <-
    batch_analyze (transaction_analyst self) fmt transactions context ;;
  Ok {| batch_response_status := "success";
        batch_workflow := "batch";
        transactions_processed := transactions_analyzed batch_result;
        batch_flagged_count := flagged_count batch_result;
        batch_pass_count := pass_count batch_result;
        batch_average_fraud_probability :=
          average_fraud_probability batch_result;
        batch_results := results batch_result |}.

(** [process(request, workflow=WorkflowType.STANDARD)], with its
    [try / except Exception]. *)
Definition process (self : FraudOrchestratorAgent) (request : Request)
    (workflow : WorkflowType) : Response :=
  (* Initialize state *)
  let state :=
    {| state_transaction_id := get (request_transaction_id request) "";
       state_case_id := get (request_case_id request) default_case_id;
       workflow_type := workflow;
       current_phase := "intake";
       state_results :=
         {| results_intake := None; results_analysis := None;
            results_decision := None; results_explanation := None |} |} in
  let context :=
    {| context_transaction_id := state_transaction_id state;
       context_case_id := state_case_id state |} in
  let attempt : res Response :=
    match workflow with
    | QUICK =>
        r <- _quick_workflow self request state context ;; Ok (Quick r)
    | INVESTIGATION =>
        r <- _investigation_workflow self request state context ;;
        Ok (Standard r)
    | BATCH =>
        r <- _batch_workflow self request state context ;; Ok (BatchDone r)
    | STANDARD =>
        out <- _standard_workflow self request state context ;;
        Ok (Standard (fst out))
    end in
  match attempt with
  | Ok r => r
  | Raise e =>
      Failed {| error_status := "error";
                error := exn_msg e;
                error_transaction_id := state_transaction_id state;
                error_case_id := state_case_id state |}
  end.

End Workflows.

Arguments _intake_phase {Document} transaction documents beneficiary.
Arguments _analyze_phase {Document Report} fmt agents self transaction
  documents beneficiary context.
Arguments _explain_phase {Document Report} agents decision_result
  analysis_results context.
Arguments _compile_response {Report} state context.
Arguments _standard_workflow {Document Report} fmt agents self request
  state context.
Arguments _quick_workflow {Document} fmt self request state context.
Arguments _investigation_workflow {Document Report} fmt agents self request
  state context.
Arguments _batch_workflow {Document} fmt self request state context.
Arguments process {Document Report} fmt default_case_id agents self request
  workflow.
Arguments status {Report} r.
Arguments Standard {Report} r.
Arguments Quick {Report} r.
Arguments BatchDone {Report} r.
Arguments Failed {Report} r.
Arguments request_transaction {Document} r.
Arguments request_documents {Document} r.
Arguments request_beneficiary {Document} r.
Arguments request_transactions {Document} r.
Arguments request_transaction_id {Document} r.
Arguments request_case_id {Document} r.

End Orchestrator.

(** ** [config/rewards.py]: the methods of [RewardConfig], the routing rules *)

Module RewardMatrix.
Import Py Rewards.

Inductive Action : Type := PASS | FLAG.
Inductive Outcome : Type := LEGITIMATE | FRAUD.

(** [Action.name] and [Outcome.name] *)
Definition action_name (a : Action) : string :=
  match a with
  | PASS => "PASS"
  | FLAG => "FLAG"
  end.

Definition outcome_name (o : Outcome) : string :=
  match o with
  | LEGITIMATE => "LEGITIMATE"
  | FRAUD => "FRAUD"
  end.

Definition Action_eqb (a b : Action) : bool :=
  match a, b with
  | PASS, PASS | FLAG, FLAG => true
  | _, _ => false
  end.

Definition Outcome_eqb (a b : Outcome) : bool :=
  match a, b with
  | LEGITIMATE, LEGITIMATE | FRAUD, FRAUD => true
  | _, _ => false
  end.

Definition get_reward (self : RewardConfig) (action : Action)
    (actual : Outcome) : res Q :=
  if Action_eqb action FLAG && Outcome_eqb actual FRAUD
  then Ok (true_positive_reward self)
  else if Action_eqb action PASS && Outcome_eqb actual LEGITIMATE
  then Ok (true_negative_reward self)
  else if Action_eqb action FLAG && Outcome_eqb actual LEGITIMATE
  then Ok (false_positive_penalty self)
  else if Action_eqb action PASS && Outcome_eqb actual FRAUD
  then Ok (false_negative_penalty self)
  else Raise (Exn "ValueError" "Invalid action/outcome combination").

(** [get_reward_matrix]: a dict of dicts. *)
Definition get_reward_matrix (self : RewardConfig)
  : list (string * list (string * Q)) :=
  [ ("FLAG", [ ("FRAUD", true_positive_reward self);
               ("LEGITIMATE", false_positive_penalty self) ]);
    ("PASS", [ ("FRAUD", false_negative_penalty self);
               ("LEGITIMATE", true_negative_reward self) ]) ].

(** [d[k]] on a dict whose keys are strings. *)
Fixpoint item {V : Type} (d : list (string * V)) (k : string) : res V :=
  match d with
  | [] => Raise (Exn "KeyError" k)
  | (k', v) :: t => if (k' =? k)%string then Ok v else item t k
  end.

(** The property [cost_ratio]. *)
Definition cost_ratio (self : RewardConfig) : res Q :=
  ratio <- truediv (false_negative_penalty self)
                   (false_positive_penalty self) ;;
  Ok (Qabs ratio).

Record Rule : Type := {
  rule_action : string;
  rule_queue : option string;
  rule_sla_hours : option Q;
  rule_auto_escalate : bool
}.

(** [ROUTING_RULES], a dict keyed by risk level. *)
Definition ROUTING_RULES : list (RiskLevel * Rule) :=
  [ (CRITICAL, {| rule_action := "block_immediate";
                  rule_queue := Some "fraud_investigation_urgent";
                  rule_sla_hours := Some 2;
                  rule_auto_escalate := true |});
    (HIGH, {| rule_action := "flag_review";
              rule_queue := Some "fraud_investigation";
              rule_sla_hours := Some 24;
              rule_auto_escalate := false |});
    (MEDIUM, {| rule_action := "flag_review";
                rule_queue := Some "manual_review";
                rule_sla_hours := Some 72;
                rule_auto_escalate := false |});
    (LOW, {| rule_action := "auto_approve";
             rule_queue := None;
             rule_sla_hours := None;
             rule_auto_escalate := false |}) ].

(** [ROUTING_RULES.get(risk_level)]: the rule, if the level has one. *)
Fixpoint routing_get (rules : list (RiskLevel * Rule)) (level : RiskLevel)
  : option Rule :=
  match rules with
  | [] => None
  | (l, r) :: t => if RiskLevel_eqb l level then Some r else routing_get t level
  end.

Record RiskClassification : Type := {
  classification_status : string;
  classification_score : Q;
  classification_risk_level : string;
  classification_action : string;
  classification_queue : option string;
  classification_sla_hours : option Q;
  classification_auto_escalate : bool
}.

(** [tools/fraud_tools.py]: [classify_risk_level]; an absent rule is the
    empty dict, whose lookups fall to their defaults. *)
Definition classify_risk_level (score : Q) : RiskClassification :=
  let risk_level := classify_risk score in
  let routing := routing_get ROUTING_RULES risk_level in
  {| classification_status := "success";
     classification_score := score;
     classification_risk_level := value risk_level;
     classification_action :=
       match routing with
       | Some r => rule_action r
       | None => "manual_review"
       end;
     classification_queue :=
       match routing with Some r => rule_queue r | None => None end;
     classification_sla_hours :=
       match routing with Some r => rule_sla_hours r | None => None end;
     classification_auto_escalate :=
       match routing with
       | Some r => rule_auto_escalate r
       | None => false
       end |}.

(** The position of a level in the declaration of the enum: low, medium,
    high, critical. *)
Definition level_index (r : RiskLevel) : nat :=
  match r with
  | LOW => 0
  | MEDIUM => 1
  | HIGH => 2
  | CRITICAL => 3
  end.

End RewardMatrix.

(** ** [rl/reward.py] *)

Module RLReward.
Import Py Rewards.

Inductive PredictionOutcome : Type :=
| TRUE_POSITIVE
| TRUE_NEGATIVE
| FALSE_POSITIVE
| FALSE_NEGATIVE.

Record CostSensitiveReward : Type := {
  true_positive : Q;
  true_negative : Q;
  false_positive : Q;
  false_negative : Q
}.

(** The property [fn_fp_ratio]. *)
Definition fn_fp_ratio (self : CostSensitiveReward) : res Q :=
  ratio <- truediv (false_negative self) (false_positive self) ;;
  Ok (Qabs ratio).

(** [CostSensitiveReward.get_reward]: the lookup in the dict of the four
    outcomes, which holds them all. *)
Definition get_reward (self : CostSensitiveReward)
    (outcome : PredictionOutcome) : Q :=
  match outcome with
  | TRUE_POSITIVE => true_positive self
  | TRUE_NEGATIVE => true_negative self
  | FALSE_POSITIVE => false_positive self
  | FALSE_NEGATIVE => false_negative self
  end.

Record RewardCalculator : Type := {
  config : CostSensitiveReward
}.

(** [RewardCalculator(reward_config=None)] *)
Definition new (reward_config : option CostSensitiveReward)
  : RewardCalculator :=
  {| config :=
       match reward_config with
       | Some c => c
       | None =>
           {| true_positive := true_positive_reward REWARD_CONFIG;
              true_negative := true_negative_reward REWARD_CONFIG;
              false_positive := false_positive_penalty REWARD_CONFIG;
              false_negative := false_negative_penalty REWARD_CONFIG |}
       end |}.

Definition calculate_reward (self : RewardCalculator)
    (predicted_fraud actual_fraud : bool) : Q * PredictionOutcome :=
  let outcome :=
    if predicted_fraud && actual_fraud then TRUE_POSITIVE
    else if negb predicted_fraud && negb actual_fraud then TRUE_NEGATIVE
    else if predicted_fraud && negb actual_fraud then FALSE_POSITIVE
    else FALSE_NEGATIVE in
  (get_reward (config self) outcome, outcome).

Definition calculate_expected_reward (self : RewardCalculator)
    (fraud_probability : Q) (flag_decision : bool) : Q :=
  let p_fraud := fraud_probability in
  let p_legit := 1 - fraud_probability in
  if flag_decision
  then p_fraud * true_positive (config self)
       + p_legit * false_positive (config self)
  else p_fraud * false_negative (config self)
       + p_legit * true_negative (config self).

Definition calculate_optimal_threshold (self : RewardCalculator) : res Q :=
  let c_fp := Qabs (false_positive (config self)) in
  let c_fn := Qabs (false_negative (config self)) in
  truediv c_fp (c_fp + c_fn).

(** [calculate_advantage(state_value, reward, next_state_value, gamma)] *)
Definition calculate_advantage (state_value reward next_state_value gamma : Q)
  : Q :=
  reward + gamma * next_state_value - state_value.

(** [calculate_td_error(state_value, reward, next_state_value, gamma, done)] *)
Definition calculate_td_error (state_value reward next_state_value gamma : Q)
    (done : bool) : Q :=
  if done then reward - state_value
  else reward + gamma * next_state_value - state_value.

(** [counts], the dict from outcome to number. *)
Record Counts : Type := {
  count_tp : nat;
  count_tn : nat;
  count_fp : nat;
  count_fn : nat
}.

(** [counts[outcome] += 1] *)
Definition increment (counts : Counts) (outcome : PredictionOutcome)
  : Counts :=
  match outcome with
  | TRUE_POSITIVE =>
      {| count_tp := S (count_tp counts); count_tn := count_tn counts;
         count_fp := count_fp counts; count_fn := count_fn counts |}
  | TRUE_NEGATIVE =>
      {| count_tp := count_tp counts; count_tn := S (count_tn counts);
         count_fp := count_fp counts; count_fn := count_fn counts |}
  | FALSE_POSITIVE =>
      {| count_tp := count_tp counts; count_tn := count_tn counts;
         count_fp := S (count_fp counts); count_fn := count_fn counts |}
  | FALSE_NEGATIVE =>
      {| count_tp := count_tp counts; count_tn := count_tn counts;
         count_fp := count_fp counts; count_fn := S (count_fn counts) |}
  end.

Record Metrics : Type := {
  precision : Q;
  recall : Q;
  f1_score : Q;
  accuracy : Q
}.

Record CostAnalysis : Type := {
  fraud_caught_value : Q;
  legitimate_approved_value : Q;
  false_alarm_cost : Q;
  missed_fraud_cost : Q
}.

Record BatchStatistics : Type := {
  total : nat;
  counts : Counts;
  total_reward : Q;
  average_reward : Q;
  metrics : Metrics;
  cost_analysis : CostAnalysis
}.

(** A count as a number. *)
Definition num (n : nat) : Q := inject_Z (Z.of_nat n).

(** The loop of [get_batch_statistics], on the pair
    [(counts, total_reward)]. *)
Definition batch_step (self : RewardCalculator) (acc : Counts * Q)
    (pair : bool * bool) : Counts * Q :=
  let '(counts, total_reward) := acc in
  let '(predicted, actual) := pair in
  let '(reward, outcome) := calculate_reward self predicted actual in
  (increment counts outcome, total_reward + reward).

Definition get_batch_statistics (self : RewardCalculator)
    (outcomes : list (bool * bool)) : BatchStatistics :=
  let '(counts, total_reward) :=
    fold_left (batch_step self) outcomes
      ({| count_tp := 0; count_tn := 0; count_fp := 0; count_fn := 0 |},
       0.0) in
  let total := List.length outcomes in
  let tp := count_tp counts in
  let tn := count_tn counts in
  let fp := count_fp counts in
  let fn := count_fn counts in
  (* Calculate metrics *)
  let precision :=
    if (0 <? tp + fp)%nat then num tp / num (tp + fp) else 0 in
  let recall :=
    if (0 <? tp + fn)%nat then num tp / num (tp + fn) else 0 in
  let f1 :=
    if gt (precision + recall) 0
    then 2 * precision * recall / (precision + recall) else 0 in
  let accuracy :=
    if (0 <? total)%nat then num (tp + tn) / num total else 0 in
  {| total := total;
     counts := counts;
     total_reward := total_reward;
     average_reward :=
       if (0 <? total)%nat then total_reward / num total else 0;
     metrics :=
       {| precision := precision;
          recall := recall;
          f1_score := f1;
          accuracy := accuracy |};
     cost_analysis :=
       {| fraud_caught_value := num tp * true_positive (config self);
          legitimate_approved_value := num tn * true_negative (config self);
          false_alarm_cost := num fp * Qabs (false_positive (config self));
          missed_fraud_cost :=
            num fn * Qabs (false_negative (config self)) |} |}.

End RLReward.

(** ** [agents/base_agent.py]: [aggregate_scores] *)

Module BaseAgent.
Import Py Orchestrator.

(** [key in weights] *)
Definition has_key (d : dict) (k : string) : bool :=
  existsb (fun kv => (fst kv =? k)%string) d.

(** One turn of the inner loop [for key, value in score_dict.items()], on
    the pair [(weighted_sum, weight_sum)]; [weights[key]] is read only
    under [key in weights]. *)
Definition add_item (weights : dict) (acc : Q * Q) (kv : string * Q)
  : Q * Q :=
  let '(weighted_sum, weight_sum) := acc in
  let '(key, value) := kv in
  if has_key weights key
  then (weighted_sum + value * dict_get weights key 0,
        weight_sum + dict_get weights key 0)
  else acc.

(** [aggregate_scores(scores, weights=None)] *)
Definition aggregate_scores (scores : list dict) (weights : option dict)
  : Q :=
  match scores with
  | [] => 0.0
  | _ :: _ =>
      match weights with
      | None =>
          (* Equal weights *)
          let total := sum (map (fun s => dict_get s "score" 0) scores) in
          total / FraudTools.len scores
      | Some weights =>
          let '(weighted_sum, weight_sum) :=
            fold_left (fun acc score_dict =>
                         fold_left (add_item weights) score_dict acc)
                      scores (0.0, 0.0) in
          if gt weight_sum 0 then weighted_sum / weight_sum else 0.0
      end
  end.

End BaseAgent.

(** ** [agents/pattern_detector.py] and [agents/network_analyzer.py]:
    their numeric helpers *)

Module PatternDetector.
Import Py.

Definition le (x y : Q) : bool := Qle_bool x y.

Definition _classify_velocity (claims_30d : Q) : string :=
  if le claims_30d 2 then "normal"
  else if le claims_30d 5 then "elevated"
  else if le claims_30d 10 then "high"
  else "extreme".

End PatternDetector.

Module NetworkAnalyzer.
Import Py.

Record Ring : Type := {
  detection_confidence : option Q
}.

Record NetworkRisk : Type := {
  risk_severity : option string
}.

Record NetworkStats : Type := {
  clustering_coefficient : option Q
}.

(** [community_risk_map.get(community_risk, 0.1)] *)
Definition community_risk_map (community_risk : string) : Q :=
  if (community_risk =? "low")%string then 0.1
  else if (community_risk =? "medium")%string then 0.3
  else if (community_risk =? "high")%string then 0.5
  else 0.1.

(** [max(...)] over a sequence that is not empty: the first of the
    largest. *)
Definition max_of (first : Q) (rest : list Q) : Q :=
  fold_left max rest first.

(** One turn of the loop over [network_risks]. *)
Definition add_risk (score : Q) (risk : NetworkRisk) : Q :=
  let severity := get (risk_severity risk) "low" in
  if (severity =? "high")%string then score + 0.15
  else if (severity =? "medium")%string then score + 0.1
  else score + 0.05.

Definition _calculate_network_risk (network_stats : NetworkStats)
    (community_risk : string) (rings : list Ring) (is_influential : bool)
    (network_risks : list NetworkRisk) : Q :=
  let score := 0.0 in
  (* Community risk contribution *)
  let score := score + community_risk_map community_risk in
  (* Fraud rings contribution *)
  let score :=
    match map (fun r => get (detection_confidence r) 0) rings with
    | [] => score
    | c :: rest =>
        let highest_confidence := max_of c rest in
        score + highest_confidence * 0.3
    end in
  (* Influential node contribution *)
  let score := if is_influential then score + 0.1 else score in
  (* Network risks contribution *)
  let score := fold_left add_risk network_risks score in
  (* Clustering coefficient contribution *)
  let clustering := get (clustering_coefficient network_stats) 0 in
  let score := if gt clustering 0.6 then score + 0.1 else score in
  min score 1.0.

End NetworkAnalyzer.

(** ** Python floats with their special values *)

Module PyFloat.

(** A [float]: a finite value, an infinity or NaN.  A finite value is an
    exact rational, its rounding left out as in [Py]; an [int] within the
    float range is identified with the float of the same value; a result
    that leaves the float range is the infinity of its sign. *)
Inductive float : Type :=
| Fin (q : Q)
| PosInf
| NegInf
| NaN.

(** [sys.float_info.max] *)
Definition max_float : Q := inject_Z (2 ^ 1024 - 2 ^ 971).

(** The values a float can hold, and the ints that convert to one: the
    special values, and the finite values up to [max_float]. *)
Definition representable (x : float) : Prop :=
  match x with
  | Fin q => - max_float <= q <= max_float
  | _ => True
  end.

Definition overflow (q : Q) : float :=
  if Py.gt q max_float then PosInf
  else if Py.lt q (- max_float) then NegInf
  else Fin q.

Definition is_nan (x : float) : bool :=
  match x with
  | NaN => true
  | _ => false
  end.

(** Comparisons: every comparison with NaN is false. *)
Definition lt (x y : float) : bool :=
  match x, y with
  | Fin a, Fin b => Py.lt a b
  | Fin _, PosInf => true
  | NegInf, Fin _ => true
  | NegInf, PosInf => true
  | _, _ => false
  end.

Definition gt (x y : float) : bool := lt y x.

Definition ge (x y : float) : bool :=
  match x, y with
  | Fin a, Fin b => Py.ge a b
  | PosInf, Fin _ => true
  | PosInf, PosInf => true
  | PosInf, NegInf => true
  | Fin _, NegInf => true
  | NegInf, NegInf => true
  | _, _ => false
  end.

(** [min(a, b)] keeps [a] unless [b < a]; [max(a, b)] keeps [a] unless
    [b > a]: a NaN in first place is kept. *)
Definition min (a b : float) : float := if lt b a then b else a.
Definition max (a b : float) : float := if gt b a then b else a.

Definition opp (x : float) : float :=
  match x with
  | Fin q => Fin (- q)
  | PosInf => NegInf
  | NegInf => PosInf
  | NaN => NaN
  end.

Definition abs (x : float) : float :=
  match x with
  | Fin q => Fin (Qabs q)
  | PosInf => PosInf
  | NegInf => PosInf
  | NaN => NaN
  end.

Definition add (x y : float) : float :=
  match x, y with
  | NaN, _ => NaN
  | _, NaN => NaN
  | Fin a, Fin b => overflow (a + b)
  | PosInf, NegInf => NaN
  | NegInf, PosInf => NaN
  | PosInf, _ => PosInf
  | _, PosInf => PosInf
  | NegInf, _ => NegInf
  | _, NegInf => NegInf
  end.

Definition sub (x y : float) : float := add x (opp y).

(** The infinity times a finite factor: the factor's sign decides, and
    infinity times zero is NaN. *)
Definition scale_inf (q : Q) : float :=
  if Py.gt q 0 then PosInf else if Py.lt q 0 then NegInf else NaN.

Definition mul (x y : float) : float :=
  match x, y with
  | NaN, _ => NaN
  | _, NaN => NaN
  | Fin a, Fin b => overflow (a * b)
  | Fin a, PosInf => scale_inf a
  | PosInf, Fin b => scale_inf b
  | Fin a, NegInf => opp (scale_inf a)
  | NegInf, Fin b => opp (scale_inf b)
  | PosInf, PosInf => PosInf
  | NegInf, NegInf => PosInf
  | PosInf, NegInf => NegInf
  | NegInf, PosInf => NegInf
  end.

Definition is_zero (x : float) : bool :=
  match x with
  | Fin q => Qeq_bool q 0
  | _ => false
  end.

(** True division: a zero divisor raises whatever the dividend is. *)
Definition truediv (x y : float) : Py.res float :=
  match y with
  | Fin b =>
      if Qeq_bool b 0 then Py.Raise Py.ZeroDivisionError
      else Py.Ok match x with
                 | Fin a => overflow (a / b)
                 | PosInf => scale_inf b
                 | NegInf => opp (scale_inf b)
                 | NaN => NaN
                 end
  | PosInf | NegInf =>
      Py.Ok match x with
            | Fin _ => Fin 0
            | _ => NaN
            end
  | NaN => Py.Ok NaN
  end.

(** [round(x, ndigits)] leaves the special values as they are. *)
Definition round (x : float) (ndigits : nat) : float :=
  match x with
  | Fin q => Fin (Py.round q ndigits)
  | _ => x
  end.

End PyFloat.

Declare Scope float_scope.
Delimit Scope float_scope with float.
Infix "+" := PyFloat.add : float_scope.
Infix "-" := PyFloat.sub : float_scope.
Infix "*" := PyFloat.mul : float_scope.

(** ** [fraudshield/tools/fraud_tools.py] on floats

    The three scoring functions once more, on numbers that can be NaN or
    infinite.  [FraudTools] is their restriction to finite numbers. *)

Module FloatTools.
Import Py Rewards.
Import PyFloat.

Record Transaction : Type := {
  transaction_id : option string;
  type : option string;
  amount : option float;
  date : option string;
  time : option string;
  beneficiary_id : option string;
  beneficiary_name : option string;
  provider_id : option string;
  provider_name : option string;
  description : option string;
  documents_count : option float;
  tenure_months : option float;
  provider_risk_score : option float;
  claims_30d : option float;
  total_30d : option float;
  days_since_last : option float
}.

Definition representable_entry (entry : option float) : Prop :=
  match entry with
  | Some x => representable x
  | None => True
  end.

(** A transaction a caller can build: each numeric entry is a float, or
    an int within the float range. *)
Definition well_formed (t : Transaction) : Prop :=
  representable_entry (amount t)
  /\ representable_entry (documents_count t)
  /\ representable_entry (tenure_months t)
  /\ representable_entry (provider_risk_score t)
  /\ representable_entry (claims_30d t)
  /\ representable_entry (total_30d t)
  /\ representable_entry (days_since_last t).

Record Formatter : Type := {
  str : float -> string;
  fixed : nat -> float -> string;
  render : Transaction -> string
}.

Record HistoricalStats : Type := {
  avg_amount : option float;
  stats_total_30d : option float;
  claim_count : option float
}.

Definition stats_truthy (historical_stats : option HistoricalStats) : bool :=
  match historical_stats with
  | None => false
  | Some h =>
      match avg_amount h, stats_total_30d h, claim_count h with
      | None, None, None => false
      | _, _, _ => true
      end
  end.

Record AnomalyResult : Type := {
  anomaly_status : string;
  anomaly_count : nat;
  anomalies : list FraudTools.Anomaly;
  risk_factors : list string;
  overall_anomaly_score : float
}.

Definition len {A : Type} (l : list A) : float := Fin (FraudTools.len l).

Definition detect_anomalies (fmt : Formatter) (transaction : Transaction)
    (historical_stats : option HistoricalStats) : res AnomalyResult :=
  let anomalies0 : list FraudTools.Anomaly := [] in
  let risk_factors0 : list string := [] in
  let amount := get (amount transaction) (Fin 0) in
  let avg_amount :=
    if stats_truthy historical_stats
    then match historical_stats with
         | Some h => get (avg_amount h) (Fin 100)
         | None => Fin 100
         end
    else Fin 100 in
  let claim_frequency := get (claims_30d transaction) (Fin 0) in
  (* Amount anomaly *)
  s1 <- (if gt amount (avg_amount * Fin 5)%float
         then ratio <- truediv amount avg_amount ;;
              Ok ((anomalies0 ++
                    [ {| FraudTools.anomaly_type := "amount_spike";
                         FraudTools.anomaly_description :=
                           "Montant " ++ str fmt amount ++ "€ est "
                           ++ fixed fmt 1 ratio ++ "x supérieur à la moyenne";
                         FraudTools.anomaly_severity := "high" |} ])%list,
                  (risk_factors0 ++ ["amount_anomaly"])%list)
         else Ok (anomalies0, risk_factors0)) ;;
  let '(anomalies1, risk_factors1) := s1 in
  (* Frequency anomaly *)
  let '(anomalies2, risk_factors2) :=
    if gt claim_frequency (Fin 10)
    then ((anomalies1 ++
            [ {| FraudTools.anomaly_type := "high_frequency";
                 FraudTools.anomaly_description :=
                   str fmt claim_frequency ++ " demandes en 30 jours";
                 FraudTools.anomaly_severity := "medium" |} ])%list,
          (risk_factors1 ++ ["frequency_anomaly"])%list)
    else (anomalies1, risk_factors1) in
  (* Provider risk *)
  let provider_risk := get (provider_risk_score transaction) (Fin 0) in
  let '(anomalies3, risk_factors3) :=
    if gt provider_risk (Fin 0.5)
    then ((anomalies2 ++
            [ {| FraudTools.anomaly_type := "risky_provider";
                 FraudTools.anomaly_description :=
                   "Score de risque prestataire élevé: "
                   ++ fixed fmt 2 provider_risk;
                 FraudTools.anomaly_severity := "high" |} ])%list,
          (risk_factors2 ++ ["provider_risk"])%list)
    else (anomalies2, risk_factors2) in
  (* New beneficiary with high amount *)
  let tenure := get (tenure_months transaction) (Fin 0) in
  let '(anomalies4, risk_factors4) :=
    if lt tenure (Fin 3) && gt amount (Fin 500)
    then ((anomalies3 ++
            [ {| FraudTools.anomaly_type := "new_beneficiary_high_amount";
                 FraudTools.anomaly_description :=
                   "Bénéficiaire récent (" ++ str fmt tenure
                   ++ " mois) avec demande de " ++ str fmt amount ++ "€";
                 FraudTools.anomaly_severity := "medium" |} ])%list,
          (risk_factors3 ++ ["new_beneficiary"])%list)
    else (anomalies3, risk_factors3) in
  Ok {| anomaly_status := "success";
        anomaly_count := List.length anomalies4;
        anomalies := anomalies4;
        risk_factors := risk_factors4;
        overall_anomaly_score :=
          min (len anomalies4 * Fin 0.2)%float (Fin 1.0) |}.

Record MatchedPattern : Type := {
  matched_id : string;
  matched_name : string;
  matched_description : string;
  match_strength : float;
  matched_risk_weight : float
}.

Record PatternResult : Type := {
  pattern_status : string;
  patterns_checked : nat;
  patterns_matched : nat;
  matched_patterns : list MatchedPattern;
  combined_pattern_score : float
}.

Definition indicator_matches (transaction : Transaction) (indicator : string)
  : bool :=
  if contains "claim_frequency_30d" indicator
     && gt (get (claims_30d transaction) (Fin 0)) (Fin 10) then true
  else if contains "amount" indicator
          && gt (get (amount transaction) (Fin 0)) (Fin 1000) then true
  else if contains "provider_risk_score" indicator
          && gt (get (provider_risk_score transaction) (Fin 0)) (Fin 0.5)
       then true
  else false.

(** One turn of the loop over [FRAUD_PATTERNS].  [match_strength] is the
    quotient of two counts, the divisor positive as soon as one indicator
    matched. *)
Definition match_pattern (transaction : Transaction)
    (acc : list MatchedPattern * float) (pattern : FraudTools.FraudPattern)
  : list MatchedPattern * float :=
  let '(matched_patterns, total_weight) := acc in
  let indicators_matched :=
    fold_left (fun n indicator =>
                 if indicator_matches transaction indicator
                 then S n else n)
              (FraudTools.indicators pattern) 0%nat in
  let total_indicators := List.length (FraudTools.indicators pattern) in
  if (0 <? indicators_matched)%nat
  then
    let match_strength :=
      Fin (inject_Z (Z.of_nat indicators_matched)
           / inject_Z (Z.of_nat total_indicators)) in
    if ge match_strength (Fin 0.5)
    then ((matched_patterns ++
            [ {| matched_id := FraudTools.id pattern;
                 matched_name := FraudTools.name pattern;
                 matched_description := FraudTools.pattern_description pattern;
                 match_strength := match_strength;
                 matched_risk_weight :=
                   Fin (FraudTools.risk_weight pattern) |} ])%list,
          (total_weight
           + Fin (FraudTools.risk_weight pattern) * match_strength)%float)
    else acc
  else acc.

Definition match_fraud_patterns (transaction : Transaction) : PatternResult :=
  let '(matched_patterns, total_weight) :=
    fold_left (match_pattern transaction) FraudTools.FRAUD_PATTERNS
              ([], Fin 0.0) in
  {| pattern_status := "success";
     patterns_checked := List.length FraudTools.FRAUD_PATTERNS;
     patterns_matched := List.length matched_patterns;
     matched_patterns := matched_patterns;
     combined_pattern_score := min total_weight (Fin 1.0) |}.

(** [config/rewards.py] on floats. *)
Definition classify_risk (score : float) : RiskLevel :=
  if ge score (Fin 0.7) then CRITICAL
  else if ge score (Fin 0.4) then HIGH
  else if ge score (Fin 0.2) then MEDIUM
  else LOW.

Definition should_flag (score threshold : float) : bool := ge score threshold.

Record Components : Type := {
  anomaly_score : float;
  pattern_score : float;
  amount_factor : float;
  provider_risk : float
}.

Record Score : Type := {
  score_status : string;
  score_transaction_id : string;
  fraud_probability : float;
  risk_level : string;
  recommended_action : string;
  confidence : float;
  components : Components;
  score_anomalies : list FraudTools.Anomaly;
  score_matched_patterns : list MatchedPattern;
  explanation_pending : bool
}.

Definition score_transaction (fmt : Formatter) (transaction : Transaction)
    (embedding : option (list Q)) : res Score :=
  (* Step 1: serialize and embed if not provided *)
  let embedding :=
    match embedding with
    | None =>
        let serialized_text := render fmt transaction in
        FraudTools.embedding (FraudTools.compute_embedding serialized_text)
    | Some e => e
    end in
  (* Step 2: detect anomalies *)
  anomaly_result <- detect_anomalies fmt transaction None ;;
  let anomaly_score := overall_anomaly_score anomaly_result in
  (* Step 3: match patterns *)
  let pattern_result := match_fraud_patterns transaction in
  let pattern_score := combined_pattern_score pattern_result in
  (* Step 4: combine scores *)
  let w_anomaly := Fin 0.3 in
  let w_pattern := Fin 0.4 in
  let w_amount_factor := Fin 0.2 in
  let w_provider_risk := Fin 0.1 in
  let amount := get (amount transaction) (Fin 0) in
  quotient <- truediv amount (Fin 5000) ;;
  let amount_factor := min quotient (Fin 1.0) in
  let provider_risk := get (provider_risk_score transaction) (Fin 0) in
  let combined_score :=
    (w_anomaly * anomaly_score
     + w_pattern * pattern_score
     + w_amount_factor * amount_factor * Fin 0.5
     + w_provider_risk * provider_risk)%float in
  (* Normalize to 0-1 *)
  let fraud_probability := min (max combined_score (Fin 0)) (Fin 1) in
  (* Step 5: classify and recommend action *)
  let risk_level := classify_risk fraud_probability in
  let should_flag_tx :=
    should_flag fraud_probability (Fin default_threshold) in
  Ok {| score_status := "success";
        score_transaction_id := get (transaction_id transaction) "";
        fraud_probability := round fraud_probability 4;
        risk_level := value risk_level;
        recommended_action := if should_flag_tx then "FLAG" else "PASS";
        confidence :=
          round (Fin 1 - abs (fraud_probability - Fin 0.5) * Fin 2)%float 4;
        components :=
          {| anomaly_score := round anomaly_score 4;
             pattern_score := round pattern_score 4;
             amount_factor := round amount_factor 4;
             provider_risk := round provider_risk 4 |};
        score_anomalies := anomalies anomaly_result;
        score_matched_patterns := matched_patterns pattern_result;
        explanation_pending := true |}.

End FloatTools.

(** ** The finite numbers among the floats

    [FraudTools] works on finite numbers.  The maps below send its
    transactions, formatters and results to those of [FloatTools]. *)

Module Finite.
Import Py PyFloat.

(** A number within the float range: what a finite float holds, and what
    an int must be to convert to one.  NaN, the infinities and the larger
    ints are not. *)
Definition in_float_range (q : Q) : Prop := - max_float <= q <= max_float.

Definition in_range_opt (entry : option Q) : Prop :=
  match entry with
  | Some q => in_float_range q
  | None => True
  end.

(** All the numeric entries of a transaction are within the float
    range. *)
Definition numbers_in_range (t : FraudTools.Transaction) : Prop :=
  in_range_opt (FraudTools.amount t)
  /\ in_range_opt (FraudTools.documents_count t)
  /\ in_range_opt (FraudTools.tenure_months t)
  /\ in_range_opt (FraudTools.provider_risk_score t)
  /\ in_range_opt (FraudTools.claims_30d t)
  /\ in_range_opt (FraudTools.total_30d t)
  /\ in_range_opt (FraudTools.days_since_last t).

Definition of_transaction (t : FraudTools.Transaction)
  : FloatTools.Transaction :=
  {| FloatTools.transaction_id := FraudTools.transaction_id t;
     FloatTools.type := FraudTools.type t;
     FloatTools.amount := option_map Fin (FraudTools.amount t);
     FloatTools.date := FraudTools.date t;
     FloatTools.time := FraudTools.time t;
     FloatTools.beneficiary_id := FraudTools.beneficiary_id t;
     FloatTools.beneficiary_name := FraudTools.beneficiary_name t;
     FloatTools.provider_id := FraudTools.provider_id t;
     FloatTools.provider_name := FraudTools.provider_name t;
     FloatTools.description := FraudTools.description t;
     FloatTools.documents_count :=
       option_map Fin (FraudTools.documents_count t);
     FloatTools.tenure_months := option_map Fin (FraudTools.tenure_months t);
     FloatTools.provider_risk_score :=
       option_map Fin (FraudTools.provider_risk_score t);
     FloatTools.claims_30d := option_map Fin (FraudTools.claims_30d t);
     FloatTools.total_30d := option_map Fin (FraudTools.total_30d t);
     FloatTools.days_since_last :=
       option_map Fin (FraudTools.days_since_last t) |}.

(** A formatter of floats, used on finite numbers. *)
Definition of_formatter (fmt : FloatTools.Formatter) : FraudTools.Formatter :=
  {| FraudTools.str := fun q => FloatTools.str fmt (Fin q);
     FraudTools.fixed := fun n q => FloatTools.fixed fmt n (Fin q);
     FraudTools.render := fun t => FloatTools.render fmt (of_transaction t) |}.

Definition of_matched_pattern (m : FraudTools.MatchedPattern)
  : FloatTools.MatchedPattern :=
  {| FloatTools.matched_id := FraudTools.matched_id m;
     FloatTools.matched_name := FraudTools.matched_name m;
     FloatTools.matched_description := FraudTools.matched_description m;
     FloatTools.match_strength := Fin (FraudTools.match_strength m);
     FloatTools.matched_risk_weight :=
       Fin (FraudTools.matched_risk_weight m) |}.

Definition of_anomaly_result (a : FraudTools.AnomalyResult)
  : FloatTools.AnomalyResult :=
  {| FloatTools.anomaly_status := FraudTools.anomaly_status a;
     FloatTools.anomaly_count := FraudTools.anomaly_count a;
     FloatTools.anomalies := FraudTools.anomalies a;
     FloatTools.risk_factors := FraudTools.risk_factors a;
     FloatTools.overall_anomaly_score :=
       Fin (FraudTools.overall_anomaly_score a) |}.

Definition of_pattern_result (p : FraudTools.PatternResult)
  : FloatTools.PatternResult :=
  {| FloatTools.pattern_status := FraudTools.pattern_status p;
     FloatTools.patterns_checked := FraudTools.patterns_checked p;
     FloatTools.patterns_matched := FraudTools.patterns_matched p;
     FloatTools.matched_patterns :=
       map of_matched_pattern (FraudTools.matched_patterns p);
     FloatTools.combined_pattern_score :=
       Fin (FraudTools.combined_pattern_score p) |}.

Definition of_score (r : FraudTools.Score) : FloatTools.Score :=
  {| FloatTools.score_status := FraudTools.score_status r;
     FloatTools.score_transaction_id := FraudTools.score_transaction_id r;
     FloatTools.fraud_probability := Fin (FraudTools.fraud_probability r);
     FloatTools.risk_level := FraudTools.risk_level r;
     FloatTools.recommended_action := FraudTools.recommended_action r;
     FloatTools.confidence := Fin (FraudTools.confidence r);
     FloatTools.components :=
       {| FloatTools.anomaly_score :=
            Fin (FraudTools.anomaly_score (FraudTools.components r));
          FloatTools.pattern_score :=
            Fin (FraudTools.pattern_score (FraudTools.components r));
          FloatTools.amount_factor :=
            Fin (FraudTools.amount_factor (FraudTools.components r));
          FloatTools.provider_risk :=
            Fin (FraudTools.provider_risk (FraudTools.components r)) |};
     FloatTools.score_anomalies := FraudTools.score_anomalies r;
     FloatTools.score_matched_patterns :=
       map of_matched_pattern (FraudTools.score_matched_patterns r);
     FloatTools.explanation_pending := FraudTools.explanation_pending r |}.

End Finite.

(** ** The aggregation as the specification words it

    These definitions follow the specification, not the code; the
    properties below compare them with [Orchestrator.decide_locals]. *)

Module Spec.
Import Py Orchestrator.

(** The adapters that produced a result, by name. *)
Definition present (analysis_results : AnalysisResults) : list string :=
  ((if is_some (transaction_analysis analysis_results)
    then ["transaction"] else [])
   ++ (if is_some (document_analysis analysis_results)
       then ["document"] else [])
   ++ (if is_some (pattern_detection analysis_results)
       then ["pattern"] else [])
   ++ (if is_some (identity_verification analysis_results)
       then ["identity"] else [])
   ++ (if is_some (network_analysis analysis_results)
       then ["network"] else []))%list.

(** The default weight of [k], rescaled so that the weights of the
    adapters of [available] sum to 1. *)
Definition redistributed_weight (available : list string) (k : string) : Q :=
  dict_get decide_weights k 0
  / sum (map (fun j => dict_get decide_weights j 0) available).

(** Weighted sum over the present adapters only, with redistributed
    weights. *)
Definition redistributed_probability (analysis_results : AnalysisResults)
  : Q :=
  let available := present analysis_results in
  sum (map (fun k =>
              redistributed_weight available k
              * dict_get (decide_scores analysis_results) k 0)
           available).

Definition mean (l : list Q) : Q := sum l / FraudTools.len l.

(** The variance of a list of scores: mean squared deviation from their
    mean. *)
Definition variance (l : list Q) : Q :=
  sum (map (fun s => (s - mean l) ^ 2) l) / FraudTools.len l.

(** Confidence from the variance of the scores of the adapters that ran. *)
Definition confidence (analysis_results : AnalysisResults) : Q :=
  let ran :=
    map (fun k => dict_get (decide_scores analysis_results) k 0)
        (present analysis_results) in
  1 - min (variance ran) 0.25 * 4.



End Spec.

(** ** Sample inputs *)

Module Examples.
Import Py Rewards Orchestrator.

Definition context0 : AgentContext :=
  {| context_transaction_id := "TX-1"; context_case_id := "CASE-1" |}.

(** Every adapter reports its highest risk but the network one, which is
    absent. *)
Definition four_alarms : AnalysisResults :=
  {| transaction_analysis :=
       Some {| fraud_probability := Some 1; anomalies := None |};
     document_analysis :=
       Some {| overall_authenticity_score := Some 0 |};
     pattern_detection :=
       Some {| combined_risk_score := Some 1; patterns_matched := None |};
     identity_verification :=
       Some {| verification_score := Some 0; issues_found := None |};
     network_analysis := None |}.

(** Only the transaction adapter produced a result, with the score
    given. *)
Definition only_transaction (score : Q) : AnalysisResults :=
  {| transaction_analysis :=
       Some {| fraud_probability := Some score; anomalies := None |};
     document_analysis := None;
     pattern_detection := None;
     identity_verification := None;
     network_analysis := None |}.

(** A transaction anomaly and a matched pattern, both of severity high. *)
Definition tied_findings : AnalysisResults :=
  {| transaction_analysis :=
       Some {| fraud_probability := Some 0.5;
               anomalies :=
                 Some [ {| anomaly_type := Some "amount_spike";
                           anomaly_severity := Some "high";
                           anomaly_description := Some "spike" |} ] |};
     document_analysis := None;
     pattern_detection :=
       Some {| combined_risk_score := Some 0.5;
               patterns_matched :=
                 Some [ {| pattern_id := Some "PATTERN_003";
                           pattern_name := Some "Pic inhabituel";
                           match_strength := Some 0.9 |} ] |};
     identity_verification := None;
     network_analysis := None |}.

(** A formatter that prints nothing of the numbers. *)
Definition plain_formatter : FraudTools.Formatter :=
  {| FraudTools.str := fun _ => "?";
     FraudTools.fixed := fun _ _ => "?";
     FraudTools.render := fun _ => "Demande de REMBOURSEMENT" |}.

(** A transaction dict with the four numeric keys given and every other
    key absent but the beneficiary. *)
Definition transaction_of (amount claims provider_risk tenure : option Q)
    (beneficiary : option string) : FraudTools.Transaction :=
  {| FraudTools.transaction_id := Some "TX-1";
     FraudTools.type := None;
     FraudTools.amount := amount;
     FraudTools.date := None;
     FraudTools.time := None;
     FraudTools.beneficiary_id := beneficiary;
     FraudTools.beneficiary_name := None;
     FraudTools.provider_id := None;
     FraudTools.provider_name := None;
     FraudTools.description := None;
     FraudTools.documents_count := None;
     FraudTools.tenure_months := tenure;
     FraudTools.provider_risk_score := provider_risk;
     FraudTools.claims_30d := claims;
     FraudTools.total_30d := None;
     FraudTools.days_since_last := None |}.

(** Amount 5000, twelve claims in 30 days, provider risk 0.6. *)
Definition suspicious_transaction : FraudTools.Transaction :=
  transaction_of (Some 5000) (Some 12) (Some 0.6) None None.

(** A negative amount and an empty identifier. *)
Definition invalid_transaction : FraudTools.Transaction :=
  {| FraudTools.transaction_id := Some "";
     FraudTools.type := None;
     FraudTools.amount := Some (-5);
     FraudTools.date := None;
     FraudTools.time := None;
     FraudTools.beneficiary_id := None;
     FraudTools.beneficiary_name := None;
     FraudTools.provider_id := None;
     FraudTools.provider_name := None;
     FraudTools.description := None;
     FraudTools.documents_count := None;
     FraudTools.tenure_months := None;
     FraudTools.provider_risk_score := None;
     FraudTools.claims_30d := None;
     FraudTools.total_30d := None;
     FraudTools.days_since_last := None |}.

(** Sub-agents over documents and reports that are plain strings: the
    document analyst raises, the others answer with empty dicts. *)
Definition agents : SubAgents string string :=
  {| document_analyst_analyze :=
       fun _ _ => Raise (Exn "RuntimeError" "document analysis ran");
     pattern_detector_detect := fun _ _ => Ok no_pattern_detection;
     identity_verifier_verify := fun _ _ => Ok no_identity_verification;
     network_analyzer_analyze := fun _ _ => Ok no_network_analysis;
     explanation_generator_explain :=
       fun _ _ => Ok {| explanation_text := None; recommendations := None |};
     explanation_generator_create_report := fun _ _ _ => Ok "report" |}.

(** A request with one transaction, with or without a document, and with
    a batch of transactions. *)
Definition request_of (transaction : FraudTools.Transaction)
    (documents : list string) (batch : list FraudTools.Transaction)
  : Request string :=
  {| request_transaction_id := Some "TX-1";
     request_case_id := Some "CASE-1";
     request_transaction := Some transaction;
     request_documents := Some documents;
     request_beneficiary := None;
     request_transactions := Some batch |}.

Definition state0 : OrchestratorState :=
  {| state_transaction_id := "TX-1";
     state_case_id := "CASE-1";
     workflow_type := STANDARD;
     current_phase := "intake";
     state_results :=
       {| results_intake := None; results_analysis := None;
          results_decision := None; results_explanation := None |} |}.

End Examples.

Module FloatExamples.
Import PyFloat.

(** A formatter that prints nothing of the numbers. *)
Definition plain_formatter : FloatTools.Formatter :=
  {| FloatTools.str := fun _ => "?";
     FloatTools.fixed := fun _ _ => "?";
     FloatTools.render := fun _ => "Demande de REMBOURSEMENT" |}.

(** A transaction dict with its amount and its provider risk score
    given, and every other key absent but the identifier. *)
Definition transaction_of (amount provider_risk : option float)
  : FloatTools.Transaction :=
  {| FloatTools.transaction_id := Some "TX-1";
     FloatTools.type := None;
     FloatTools.amount := amount;
     FloatTools.date := None;
     FloatTools.time := None;
     FloatTools.beneficiary_id := None;
     FloatTools.beneficiary_name := None;
     FloatTools.provider_id := None;
     FloatTools.provider_name := None;
     FloatTools.description := None;
     FloatTools.documents_count := None;
     FloatTools.tenure_months := None;
     FloatTools.provider_risk_score := provider_risk;
     FloatTools.claims_30d := None;
     FloatTools.total_30d := None;
     FloatTools.days_since_last := None |}.

(** [{"transaction_id": "TX-1", "amount": float("nan")}] *)
Definition nan_amount : FloatTools.Transaction :=
  transaction_of (Some NaN) None.

(** Statistics with an average amount of zero, as the placeholder
    history gives them. *)
Definition zero_average : FloatTools.HistoricalStats :=
  {| FloatTools.avg_amount := Some (Fin 0.0);
     FloatTools.stats_total_30d := Some (Fin 0.0);
     FloatTools.claim_count := Some (Fin 0) |}.

End FloatExamples.

(** * Properties *)

(** ** Comparisons, [min], [max] and [round] *)

Section PyFacts.
Import Py.

Lemma ge_true (x y : Q) : ge x y = true <-> y <= x.
Proof. unfold ge. apply Qle_bool_iff. Qed.

Lemma ge_false (x y : Q) : ge x y = false <-> x < y.
Proof.
  unfold ge. split; intro H.
  - apply Qnot_le_lt. intro Hle. apply Qle_bool_iff in Hle. congruence.
  - destruct (Qle_bool y x) eqn:E; [|reflexivity].
    apply Qle_bool_iff in E. exfalso. apply (Qlt_not_le _ _ H E).
Qed.

Lemma gt_true (x y : Q) : gt x y = true <-> y < x.
Proof.
  unfold gt. rewrite negb_true_iff. apply (ge_false y x).
Qed.

Lemma gt_false (x y : Q) : gt x y = false <-> x <= y.
Proof.
  unfold gt. rewrite negb_false_iff. apply (ge_true y x).
Qed.

Lemma lt_true (x y : Q) : lt x y = true <-> x < y.
Proof.
  unfold lt. rewrite negb_true_iff. apply (ge_false x y).
Qed.

Lemma lt_false (x y : Q) : lt x y = false <-> y <= x.
Proof.
  unfold lt. rewrite negb_false_iff. apply (ge_true x y).
Qed.

Lemma min_le_l (a b : Q) : min a b <= a.
Proof.
  unfold min. destruct (lt b a) eqn:E.
  - apply lt_true in E. lra.
  - lra.
Qed.

Lemma min_le_r (a b : Q) : min a b <= b.
Proof.
  unfold min. destruct (lt b a) eqn:E.
  - lra.
  - apply lt_false in E. lra.
Qed.

Lemma min_glb (a b c : Q) : c <= a -> c <= b -> c <= min a b.
Proof. intros Ha Hb. unfold min. destruct (lt b a); assumption. Qed.

Lemma max_le_l (a b : Q) : a <= max a b.
Proof.
  unfold max. destruct (gt b a) eqn:E.
  - apply gt_true in E. lra.
  - lra.
Qed.

Lemma max_le_r (a b : Q) : b <= max a b.
Proof.
  unfold max. destruct (gt b a) eqn:E.
  - lra.
  - apply gt_false in E. lra.
Qed.

Lemma max_lub (a b c : Q) : a <= c -> b <= c -> max a b <= c.
Proof. intros Ha Hb. unfold max. destruct (gt b a); assumption. Qed.

Lemma min_mono (a a' b : Q) : a <= a' -> min a b <= min a' b.
Proof.
  intro H. apply min_glb.
  - pose proof (min_le_l a b). lra.
  - apply min_le_r.
Qed.

Lemma max_mono (a a' b : Q) : a <= a' -> max a b <= max a' b.
Proof.
  intro H. apply max_lub.
  - pose proof (max_le_l a' b). lra.
  - apply max_le_r.
Qed.

(** The clamp [min(max(x, 0), 1)]. *)
Lemma clamp_range (x : Q) : 0 <= min (max x 0) 1 <= 1.
Proof.
  split.
  - apply min_glb; [apply max_le_r | lra].
  - apply min_le_r.
Qed.

Lemma clamp_mono (x y : Q) : x <= y -> min (max x 0) 1 <= min (max y 0) 1.
Proof. intro H. apply min_mono, max_mono, H. Qed.

Lemma clamp_id (x : Q) : 0 <= x <= 1 -> min (max x 0) 1 == x.
Proof.
  intros [H0 H1]. unfold min, max.
  destruct (gt 0 x) eqn:E0.
  - apply gt_true in E0. lra.
  - destruct (lt 1 x) eqn:E1; [apply lt_true in E1; lra | reflexivity].
Qed.

Lemma round_half_even_floor (x : Q) :
  (Qfloor x <= round_half_even x <= Qfloor x + 1)%Z.
Proof.
  unfold round_half_even.
  destruct (Qcompare (x - inject_Z (Qfloor x)) (1 # 2)); try lia.
  destruct (Z.even (Qfloor x)); lia.
Qed.

Lemma round_half_even_ge (x : Q) (z : Z) :
  inject_Z z <= x -> (z <= round_half_even x)%Z.
Proof.
  intro H. apply Qfloor_resp_le in H. rewrite Qfloor_Z in H.
  pose proof (round_half_even_floor x). lia.
Qed.

Lemma round_half_even_le (x : Q) (z : Z) :
  x <= inject_Z z -> (round_half_even x <= z)%Z.
Proof.
  intro H. pose proof (Qfloor_resp_le _ _ H) as Hf. rewrite Qfloor_Z in Hf.
  destruct (Z.eq_dec (Qfloor x) z) as [E | E].
  - unfold round_half_even. rewrite E.
    destruct (Qcompare_spec (x - inject_Z z) (1 # 2)); try lia; lra.
  - pose proof (round_half_even_floor x). lia.
Qed.

Lemma round_half_even_mono (x y : Q) :
  x <= y -> (round_half_even x <= round_half_even y)%Z.
Proof.
  intro H. pose proof (Qfloor_resp_le _ _ H) as Hf.
  destruct (Z.eq_dec (Qfloor x) (Qfloor y)) as [E | E].
  - unfold round_half_even. rewrite E.
    assert (Hr : x - inject_Z (Qfloor y) <= y - inject_Z (Qfloor y)) by lra.
    destruct (Qcompare_spec (x - inject_Z (Qfloor y)) (1 # 2));
      destruct (Qcompare_spec (y - inject_Z (Qfloor y)) (1 # 2));
      try lia; try lra; destruct (Z.even (Qfloor y)); lia.
  - pose proof (round_half_even_floor x).
    pose proof (round_half_even_floor y). lia.
Qed.

Lemma scale_pos (n : nat) : 0 < inject_Z (10 ^ Z.of_nat n).
Proof.
  replace 0 with (inject_Z 0) by reflexivity. rewrite <- Zlt_Qlt.
  apply Z.pow_pos_nonneg; lia.
Qed.

Lemma round_mono (x y : Q) (n : nat) : x <= y -> round x n <= round y n.
Proof.
  intro H. unfold round. pose proof (scale_pos n) as Hs.
  set (s := inject_Z (10 ^ Z.of_nat n)) in *.
  apply Qle_shift_div_l; [exact Hs|].
  unfold Qdiv. rewrite <- Qmult_assoc, (Qmult_comm (/ s)), Qmult_inv_r by lra.
  rewrite Qmult_1_r. rewrite <- Zle_Qle. apply round_half_even_mono.
  apply Qmult_le_compat_r; lra.
Qed.

(** Rounding keeps a value of [[0, 1]] in [[0, 1]]. *)
Lemma round_unit (x : Q) (n : nat) : 0 <= x <= 1 -> 0 <= round x n <= 1.
Proof.
  intros [H0 H1]. unfold round. pose proof (scale_pos n) as Hs.
  set (k := (10 ^ Z.of_nat n)%Z) in *.
  split.
  - apply Qle_shift_div_l; [exact Hs|]. rewrite Qmult_0_l.
    replace 0 with (inject_Z 0) by reflexivity. rewrite <- Zle_Qle.
    apply round_half_even_ge. simpl.
    apply Qmult_le_0_compat; lra.
  - apply Qle_shift_div_r; [exact Hs|]. rewrite Qmult_1_l.
    rewrite <- Zle_Qle. apply round_half_even_le.
    rewrite <- (Qmult_1_l (inject_Z k)) at 2.
    apply Qmult_le_compat_r; lra.
Qed.

End PyFacts.

(** ** The cost model: [classify_risk] and [should_flag] *)

Section CostModel.
Import Py Rewards.

Lemma classify_risk_critical (s : Q) :
  classify_risk s = CRITICAL <-> 0.7 <= s.
Proof.
  unfold classify_risk. split.
  - destruct (ge s 0.7) eqn:E; [intros _; apply ge_true, E|].
    destruct (ge s 0.4); [discriminate|].
    destruct (ge s 0.2); discriminate.
  - intro H. apply ge_true in H. rewrite H. reflexivity.
Qed.

Lemma classify_risk_high (s : Q) :
  classify_risk s = HIGH <-> 0.4 <= s < 0.7.
Proof.
  unfold classify_risk. split.
  - destruct (ge s 0.7) eqn:E7; [discriminate|].
    destruct (ge s 0.4) eqn:E4.
    + intros _. apply ge_false in E7. apply ge_true in E4. split; assumption.
    + destruct (ge s 0.2); discriminate.
  - intros [H4 H7]. apply ge_false in H7. apply ge_true in H4.
    rewrite H7, H4. reflexivity.
Qed.

Lemma classify_risk_medium (s : Q) :
  classify_risk s = MEDIUM <-> 0.2 <= s < 0.4.
Proof.
  unfold classify_risk. split.
  - destruct (ge s 0.7) eqn:E7; [discriminate|].
    destruct (ge s 0.4) eqn:E4; [discriminate|].
    destruct (ge s 0.2) eqn:E2; [|discriminate].
    intros _. apply ge_false in E4. apply ge_true in E2. split; assumption.
  - intros [H2 H4]. assert (H7 : s < 0.7) by lra.
    apply ge_false in H7. apply ge_false in H4. apply ge_true in H2.
    rewrite H7, H4, H2. reflexivity.
Qed.

Lemma classify_risk_low (s : Q) :
  classify_risk s = LOW <-> s < 0.2.
Proof.
  unfold classify_risk. split.
  - destruct (ge s 0.7) eqn:E7; [discriminate|].
    destruct (ge s 0.4) eqn:E4; [discriminate|].
    destruct (ge s 0.2) eqn:E2; [discriminate|].
    intros _. apply ge_false, E2.
  - intro H2. assert (H7 : s < 0.7) by lra. assert (H4 : s < 0.4) by lra.
    apply ge_false in H7. apply ge_false in H4. apply ge_false in H2.
    rewrite H7, H4, H2. reflexivity.
Qed.

Lemma should_flag_true (p t : Q) : should_flag p t = true <-> t <= p.
Proof. unfold should_flag. apply ge_true. Qed.

Lemma should_flag_false (p t : Q) : should_flag p t = false <-> p < t.
Proof. unfold should_flag. apply ge_false. Qed.

(** C5: [classify_risk] maps a score to a risk level by the fixed
    cutpoints: a score of at least 0.7 is Critical, a score in
    [[0.4, 0.7)] is High, a score in [[0.2, 0.4)] is Medium, and a score
    below 0.2 is Low. *)
Theorem classify_risk_cutpoints (s : Q) :
  (0.7 <= s -> classify_risk s = CRITICAL) /\
  (0.4 <= s < 0.7 -> classify_risk s = HIGH) /\
  (0.2 <= s < 0.4 -> classify_risk s = MEDIUM) /\
  (s < 0.2 -> classify_risk s = LOW).
Proof.
  repeat split; intro H.
  - apply classify_risk_critical, H.
  - apply classify_risk_high, H.
  - apply classify_risk_medium, H.
  - apply classify_risk_low, H.
Qed.

Lemma classify_risk_cutpoints_witness :
  classify_risk 0.7 = CRITICAL /\ classify_risk 0.4 = HIGH
  /\ classify_risk 0.2 = MEDIUM /\ classify_risk 0.1999 = LOW.
Proof.
  split; [|split; [|split]].
  - apply (proj1 (classify_risk_cutpoints 0.7)). lra.
  - apply (proj1 (proj2 (classify_risk_cutpoints 0.4))). lra.
  - apply (proj1 (proj2 (proj2 (classify_risk_cutpoints 0.2)))). lra.
  - apply (proj2 (proj2 (proj2 (classify_risk_cutpoints 0.1999)))). lra.
Defined.

End CostModel.

(** ** The decision policy of the decide phase *)

Section DecisionPolicy.
Import Py Rewards Orchestrator.

Lemma choose_action_block (risk : RiskLevel) (flag : bool) :
  risk = CRITICAL -> choose_action risk flag = "BLOCK".
Proof. intros ->. reflexivity. Qed.

Lemma choose_action_not_critical (risk : RiskLevel) (flag : bool) :
  risk <> CRITICAL ->
  choose_action risk flag = if flag then "FLAG" else "PASS".
Proof. intro H. destruct risk; try reflexivity. congruence. Qed.

Lemma decide_locals_action (r : AnalysisResults) :
  action (decide_locals r)
  = choose_action (classify_risk (local_fraud_probability (decide_locals r)))
      (should_flag (local_fraud_probability (decide_locals r))
                   default_threshold).
Proof. reflexivity. Qed.

(** C4: the action of the decide phase is BLOCK when the risk level of the
    fraud probability is Critical; otherwise FLAG when the probability is
    at least the flag threshold, whose default is 0.3; otherwise PASS.
    [should_flag] is monotone in the probability. *)
Theorem decide_action_policy (r : AnalysisResults) (p q : Q) :
  let l := decide_locals r in
  let prob := local_fraud_probability l in
  risk_level l = classify_risk prob
  /\ (classify_risk prob = CRITICAL -> action l = "BLOCK")
  /\ (classify_risk prob <> CRITICAL -> default_threshold <= prob ->
      action l = "FLAG")
  /\ (classify_risk prob <> CRITICAL -> prob < default_threshold ->
      action l = "PASS")
  /\ default_threshold == 0.3
  /\ (classify_risk p = CRITICAL ->
      choose_action (classify_risk p) (should_flag p default_threshold)
      = "BLOCK")
  /\ (p <= q -> should_flag p default_threshold = true ->
      should_flag q default_threshold = true).
Proof.
  intros l prob. split; [reflexivity|].
  split; [|split; [|split; [|split; [|split]]]].
  - intro H. unfold l. rewrite decide_locals_action.
    apply choose_action_block, H.
  - intros Hc Ht. unfold l. rewrite decide_locals_action.
    rewrite choose_action_not_critical by exact Hc.
    apply should_flag_true in Ht. fold l. fold prob. rewrite Ht. reflexivity.
  - intros Hc Ht. unfold l. rewrite decide_locals_action.
    rewrite choose_action_not_critical by exact Hc.
    apply should_flag_false in Ht. fold l. fold prob. rewrite Ht. reflexivity.
  - reflexivity.
  - intro H. apply choose_action_block, H.
  - intros Hpq Hp. apply should_flag_true. apply should_flag_true in Hp. lra.
Qed.

Lemma decide_action_policy_witness :
  action (decide_locals Examples.four_alarms) = "BLOCK"
  /\ action (decide_locals (Examples.only_transaction 1)) = "FLAG"
  /\ action (decide_locals (Examples.only_transaction 0.5)) = "PASS"
  /\ should_flag 0.9 default_threshold = true.
Proof.
  split; [|split; [|split]].
  - apply (decide_action_policy Examples.four_alarms 0 0). reflexivity.
  - apply (decide_action_policy (Examples.only_transaction 1) 0 0).
    + discriminate.
    + vm_compute. discriminate.
  - apply (decide_action_policy (Examples.only_transaction 0.5) 0 0).
    + discriminate.
    + reflexivity.
  - apply (decide_action_policy no_results 0.8 0.9).
    + vm_compute. discriminate.
    + reflexivity.
Defined.

End DecisionPolicy.

(** ** [score_transaction] *)

Section Scoring.
Import Py Rewards FraudTools.

(** Without historical statistics the average is 100, so the division of
    the [amount_spike] message cannot fail. *)
Lemma detect_anomalies_no_stats (fmt : Formatter) (t : Transaction) :
  exists a, detect_anomalies fmt t None = Ok a.
Proof.
  unfold detect_anomalies. cbn [stats_truthy].
  destruct (gt (get (amount t) 0) (100 * 5)); cbn [truediv bind];
    [change (Qeq_bool 100 0) with false; cbv iota|];
    destruct (gt (get (claims_30d t) 0) 10);
    destruct (gt (get (provider_risk_score t) 0) 0.5);
    destruct (lt (get (tenure_months t) 0) 3 && gt (get (amount t) 0) 500);
    eexists; reflexivity.
Qed.

Lemma score_transaction_total (fmt : Formatter) (t : Transaction)
    (e : option (list Q)) :
  exists r, score_transaction fmt t e = Ok r.
Proof.
  unfold score_transaction.
  destruct (detect_anomalies_no_stats fmt t) as [a Ha]. rewrite Ha.
  cbn [bind]. eexists. reflexivity.
Qed.

End Scoring.

(** ** Floats: NaN and the infinities *)

Section FloatFacts.
Import Py PyFloat.

Lemma max_float_large : 10000 <= max_float.
Proof. apply Qle_bool_imp_le. vm_compute. reflexivity. Qed.

Lemma overflow_in_range (q : Q) :
  - max_float <= q <= max_float -> overflow q = Fin q.
Proof.
  intros [Hl Hu]. unfold overflow.
  destruct (Py.gt q max_float) eqn:E1; [apply gt_true in E1; lra|].
  destruct (Py.lt q (- max_float)) eqn:E2; [apply lt_true in E2; lra|].
  reflexivity.
Qed.

Lemma add_nan_r (x : float) : add x NaN = NaN.
Proof. destruct x; reflexivity. Qed.

Lemma mul_nan_r (x : float) : mul x NaN = NaN.
Proof. destruct x; reflexivity. Qed.

Lemma min_fin (a b : Q) : min (Fin a) (Fin b) = Fin (Py.min a b).
Proof. unfold min, Py.min, lt. destruct (Py.lt b a); reflexivity. Qed.

Lemma max_fin (a b : Q) : max (Fin a) (Fin b) = Fin (Py.max a b).
Proof.
  unfold max, Py.max, gt, lt, Py.gt, Py.lt.
  destruct (Qle_bool b a); reflexivity.
Qed.

End FloatFacts.

(** ** [fraud_tools.py] on floats *)

Section FloatToolsFacts.
Import Py Rewards PyFloat FloatTools.

Lemma truediv_zero (x y : float) :
  is_zero y = true -> truediv x y = Raise ZeroDivisionError.
Proof.
  destruct y as [b| | |]; cbn [is_zero]; try discriminate.
  intro E. unfold truediv. rewrite E. reflexivity.
Qed.

Lemma truediv_nonzero (x y : float) :
  is_zero y = false -> exists v, truediv x y = Ok v.
Proof.
  destruct y as [b| | |]; cbn [is_zero]; intro E; unfold truediv;
    try rewrite E; eexists; reflexivity.
Qed.

Lemma anomaly_score_fin {A : Type} (l : list A) :
  (List.length l <= 4)%nat ->
  exists s, min (len l * Fin 0.2)%float (Fin 1.0) = Fin s /\ 0 <= s <= 1.
Proof.
  intro H.
  do 5 (destruct l as [|? l];
        [eexists; split;
         [vm_compute; reflexivity | split; vm_compute; discriminate]|]).
  cbn [List.length] in H. lia.
Qed.

(** [detect_anomalies] on floats: it fails on a zero average that the
    amount exceeds, and otherwise returns a finite score in [[0, 1]]. *)
Lemma float_detect_anomalies_cases (fmt : Formatter) (t : Transaction)
    (stats : option HistoricalStats) :
  let avg :=
    if stats_truthy stats
    then match stats with
         | Some h => get (avg_amount h) (Fin 100)
         | None => Fin 100
         end
    else Fin 100 in
  (gt (get (amount t) (Fin 0)) (avg * Fin 5)%float = true
   /\ is_zero avg = true
   /\ detect_anomalies fmt t stats = Raise ZeroDivisionError)
  \/ ((gt (get (amount t) (Fin 0)) (avg * Fin 5)%float = false
       \/ is_zero avg = false)
      /\ exists a s,
           detect_anomalies fmt t stats = Ok a
           /\ overall_anomaly_score a = Fin s /\ 0 <= s <= 1).
Proof.
  intro avg. unfold detect_anomalies. fold avg.
  destruct (gt (get (amount t) (Fin 0)) (avg * Fin 5)%float) eqn:G;
    [destruct (is_zero avg) eqn:E|].
  - left. rewrite (truediv_zero _ _ E). repeat split.
  - right. split; [right; reflexivity|].
    destruct (truediv_nonzero (get (amount t) (Fin 0)) avg E) as [v ->].
    cbn [bind].
    destruct (gt (get (claims_30d t) (Fin 0)) (Fin 10));
      destruct (gt (get (provider_risk_score t) (Fin 0)) (Fin 0.5));
      destruct (lt (get (tenure_months t) (Fin 0)) (Fin 3)
                && gt (get (amount t) (Fin 0)) (Fin 500));
      match goal with
      | |- context [min (len ?l * Fin 0.2)%float (Fin 1.0)] =>
          destruct (anomaly_score_fin l) as (s & Hs & Hr);
            [cbn [app List.length]; lia|]
      end;
      eexists; exists s; (split; [reflexivity|]);
      cbn [overall_anomaly_score]; split; assumption.
  - right. split; [left; reflexivity|]. cbn [bind].
    destruct (gt (get (claims_30d t) (Fin 0)) (Fin 10));
      destruct (gt (get (provider_risk_score t) (Fin 0)) (Fin 0.5));
      destruct (lt (get (tenure_months t) (Fin 0)) (Fin 3)
                && gt (get (amount t) (Fin 0)) (Fin 500));
      match goal with
      | |- context [min (len ?l * Fin 0.2)%float (Fin 1.0)] =>
          destruct (anomaly_score_fin l) as (s & Hs & Hr);
            [cbn [app List.length]; lia|]
      end;
      eexists; exists s; (split; [reflexivity|]);
      cbn [overall_anomaly_score]; split; assumption.
Qed.

Lemma float_detect_anomalies_no_stats (fmt : Formatter) (t : Transaction) :
  exists a s,
    detect_anomalies fmt t None = Ok a
    /\ overall_anomaly_score a = Fin s /\ 0 <= s <= 1.
Proof.
  destruct (float_detect_anomalies_cases fmt t None)
    as [(_ & E & _) | (_ & a & s & H)].
  - vm_compute in E. discriminate E.
  - exists a, s. exact H.
Qed.

Lemma float_pattern_score (t : Transaction) :
  exists p,
    combined_pattern_score (match_fraud_patterns t) = Fin p /\ 0 <= p <= 1.
Proof.
  unfold match_fraud_patterns, FraudTools.FRAUD_PATTERNS, match_pattern,
    indicator_matches.
  destruct (gt (get (claims_30d t) (Fin 0)) (Fin 10));
    destruct (gt (get (amount t) (Fin 0)) (Fin 1000));
    destruct (gt (get (provider_risk_score t) (Fin 0)) (Fin 0.5));
    match goal with
    | |- context [fold_left ?f ?l ?a] =>
        let v := eval vm_compute in (fold_left f l a) in
        change (fold_left f l a) with v
    end;
    cbv iota beta; cbn [combined_pattern_score];
    eexists; (split; [vm_compute; reflexivity|]);
    split; vm_compute; discriminate.
Qed.

End FloatToolsFacts.

Section FloatScoring.
Import Py Rewards PyFloat FloatTools.

Lemma mul_fin (a b : Q) :
  - max_float <= a * b <= max_float -> (Fin a * Fin b)%float = Fin (a * b).
Proof. intro H. cbn [mul]. apply overflow_in_range, H. Qed.

Lemma add_fin (a b : Q) :
  - max_float <= a + b <= max_float -> (Fin a + Fin b)%float = Fin (a + b).
Proof. intro H. cbn [add]. apply overflow_in_range, H. Qed.

Lemma sub_fin (a b : Q) :
  - max_float <= a - b <= max_float -> (Fin a - Fin b)%float = Fin (a - b).
Proof. intro H. unfold sub. cbn [opp add]. apply overflow_in_range, H. Qed.

Lemma representable_get (entry : option float) :
  representable_entry entry -> representable (get entry (Fin 0)).
Proof.
  destruct entry as [x|]; cbn [representable_entry get]; [tauto|].
  intros _. cbn [representable]. pose proof max_float_large. lra.
Qed.

Ltac in_range := pose proof max_float_large; split; lra.

(** The clamp and what is computed from it, on a finite combined
    score. *)
Lemma clamp_fin (c : Q) :
  let p := Py.min (Py.max c 0) 1 in
  min (max (Fin c) (Fin 0)) (Fin 1) = Fin p
  /\ round (Fin 1 - abs (Fin p - Fin 0.5) * Fin 2)%float 4
     = Fin (Py.round (1 - Qabs (p - 0.5) * 2) 4)
  /\ 0 <= Py.round p 4 <= 1
  /\ 0 <= Py.round (1 - Qabs (p - 0.5) * 2) 4 <= 1.
Proof.
  intro p. assert (Hp : 0 <= p <= 1) by apply clamp_range.
  assert (Ha : 0 <= Qabs (p - 0.5) <= 0.5).
  { split; [apply Qabs_nonneg|]. apply Qabs_Qle_condition. lra. }
  split; [rewrite max_fin, min_fin; reflexivity|].
  split.
  { rewrite sub_fin by in_range. cbn [abs].
    rewrite mul_fin by in_range. rewrite sub_fin by in_range.
    reflexivity. }
  split; apply round_unit; lra.
Qed.

Lemma div_5000 (x : Q) : x / 5000 == x * (1 # 5000).
Proof. field. Qed.

(** The amount factor: finite and at most 1, or minus infinity, or NaN. *)
Lemma amount_factor_cases (amount : float) :
  representable amount ->
  exists quotient,
    truediv amount (Fin 5000) = Ok quotient
    /\ match amount with
       | Fin x =>
           min quotient (Fin 1.0) = Fin (Py.min (x / 5000) 1.0)
       | PosInf => min quotient (Fin 1.0) = Fin 1.0
       | NegInf => min quotient (Fin 1.0) = NegInf
       | NaN => min quotient (Fin 1.0) = NaN
       end.
Proof.
  intro H. unfold truediv. change (Qeq_bool 5000 0) with false. cbv iota.
  eexists. split; [reflexivity|].
  destruct amount as [x| | |]; cbn [representable] in H.
  - rewrite overflow_in_range by (rewrite div_5000; in_range). apply min_fin.
  - vm_compute. reflexivity.
  - vm_compute. reflexivity.
  - reflexivity.
Qed.

(** The combined score, by the kind of the amount factor and of the
    provider risk score. *)
Lemma combined_score_cases (s p : Q) (af pr : float) :
  0 <= s <= 1 -> 0 <= p <= 1 -> representable pr ->
  match af with
  | Fin a => - max_float <= a <= 1
  | PosInf => False
  | _ => True
  end ->
  let c := (Fin 0.3 * Fin s + Fin 0.4 * Fin p + Fin 0.2 * af * Fin 0.5
            + Fin 0.1 * pr)%float in
  match af, pr with
  | NaN, _ => c = NaN
  | _, NaN => c = NaN
  | NegInf, PosInf => c = NaN
  | NegInf, _ => c = NegInf
  | Fin _, PosInf => c = PosInf
  | Fin _, NegInf => c = NegInf
  | Fin a, Fin y => c = Fin (0.3 * s + 0.4 * p + 0.2 * a * 0.5 + 0.1 * y)
  | PosInf, _ => True
  end.
Proof.
  intros Hs Hp Hpr Haf c. unfold c. clear c.
  rewrite (mul_fin 0.3 s) by in_range.
  rewrite (mul_fin 0.4 p) by in_range.
  rewrite add_fin by in_range.
  destruct af as [a| | |]; [| tauto | |].
  - rewrite (mul_fin 0.2 a) by in_range.
    rewrite mul_fin by in_range. rewrite add_fin by in_range.
    destruct pr as [y| | |]; cbn [representable] in Hpr.
    + rewrite mul_fin by in_range. rewrite add_fin by in_range.
      reflexivity.
    + reflexivity.
    + reflexivity.
    + reflexivity.
  - destruct pr as [y| | |]; cbn [representable] in Hpr.
    + rewrite mul_fin by in_range. reflexivity.
    + reflexivity.
    + reflexivity.
    + reflexivity.
  - destruct pr; reflexivity.
Qed.

(** [score_transaction] on floats returns for every well-formed
    transaction.  Its probability and its confidence are NaN when the
    amount or the provider risk score is NaN, or when the amount is minus
    infinity and the provider risk score plus infinity; otherwise both are
    finite and lie in [[0, 1]]. *)
Lemma float_score_cases (fmt : Formatter) (t : Transaction)
    (e : option (list Q)) :
  well_formed t ->
  exists r,
    score_transaction fmt t e = Ok r
    /\ match get (amount t) (Fin 0), get (provider_risk_score t) (Fin 0) with
       | NaN, _ | _, NaN | NegInf, PosInf =>
           fraud_probability r = NaN /\ confidence r = NaN
           /\ risk_level r = "low" /\ recommended_action r = "PASS"
       | _, _ =>
           exists p c,
             fraud_probability r = Fin p /\ confidence r = Fin c
             /\ 0 <= p <= 1 /\ 0 <= c <= 1
       end.
Proof.
  intros (Hamount & _ & _ & Hrisk & _).
  apply representable_get in Hamount. apply representable_get in Hrisk.
  unfold score_transaction.
  destruct (float_detect_anomalies_no_stats fmt t) as (a & s & Ha & Hs & Hsr).
  rewrite Ha. cbn [bind].
  destruct (amount_factor_cases _ Hamount) as (quotient & Hq & Haf).
  rewrite Hq. cbn [bind]. eexists. split; [reflexivity|].
  cbn [fraud_probability confidence risk_level recommended_action].
  destruct (float_pattern_score t) as (p & Hp & Hpr).
  rewrite Hs, Hp.
  set (af := min quotient (Fin 1.0)) in *.
  set (pr := get (provider_risk_score t) (Fin 0)) in *.
  assert (Hc := combined_score_cases s p af pr Hsr Hpr Hrisk).
  cbv zeta in Hc.
  set (c := (Fin 0.3 * Fin s + Fin 0.4 * Fin p + Fin 0.2 * af * Fin 0.5
             + Fin 0.1 * pr)%float) in *.
  assert (Hfin : forall q, c = Fin q ->
            exists p0 c0,
              round (min (max c (Fin 0)) (Fin 1)) 4 = Fin p0
              /\ round (Fin 1 - abs (min (max c (Fin 0)) (Fin 1) - Fin 0.5)
                                * Fin 2)%float 4 = Fin c0
              /\ 0 <= p0 <= 1 /\ 0 <= c0 <= 1).
  { intros q ->. destruct (clamp_fin q) as (H1 & H2 & H3 & H4).
    cbv zeta in *. rewrite H1, H2. cbn [round].
    eexists. eexists. split; [reflexivity|]. split; [reflexivity|].
    split; assumption. }
  assert (Hpos : c = PosInf ->
            exists p0 c0,
              round (min (max c (Fin 0)) (Fin 1)) 4 = Fin p0
              /\ round (Fin 1 - abs (min (max c (Fin 0)) (Fin 1) - Fin 0.5)
                                * Fin 2)%float 4 = Fin c0
              /\ 0 <= p0 <= 1 /\ 0 <= c0 <= 1).
  { intros ->. eexists. eexists.
    split; [vm_compute; reflexivity|]. split; [vm_compute; reflexivity|].
    split; split; vm_compute; discriminate. }
  assert (Hneg : c = NegInf ->
            exists p0 c0,
              round (min (max c (Fin 0)) (Fin 1)) 4 = Fin p0
              /\ round (Fin 1 - abs (min (max c (Fin 0)) (Fin 1) - Fin 0.5)
                                * Fin 2)%float 4 = Fin c0
              /\ 0 <= p0 <= 1 /\ 0 <= c0 <= 1).
  { intros ->. eexists. eexists.
    split; [vm_compute; reflexivity|]. split; [vm_compute; reflexivity|].
    split; split; vm_compute; discriminate. }
  assert (Hnan : c = NaN ->
            round (min (max c (Fin 0)) (Fin 1)) 4 = NaN
            /\ round (Fin 1 - abs (min (max c (Fin 0)) (Fin 1) - Fin 0.5)
                              * Fin 2)%float 4 = NaN
            /\ value (classify_risk (min (max c (Fin 0)) (Fin 1))) = "low"
            /\ (if should_flag (min (max c (Fin 0)) (Fin 1))
                     (Fin default_threshold)
                then "FLAG" else "PASS") = "PASS").
  { intros ->. repeat split. }
  clearbody c.
  destruct (get (amount t) (Fin 0)) as [x| | |]; cbn [representable] in *.
  - rewrite Haf in Hc.
    assert (Hb : - max_float <= Py.min (x / 5000) 1.0 <= 1).
    { split; [|pose proof (min_le_r (x / 5000) 1.0); lra].
      apply min_glb; [rewrite div_5000|]; pose proof max_float_large; lra. }
    specialize (Hc Hb).
    destruct pr as [y| | |]; eauto.
  - rewrite Haf in Hc.
    assert (Hb : - max_float <= 1.0 <= 1)
      by (pose proof max_float_large; lra).
    specialize (Hc Hb).
    destruct pr as [y| | |]; eauto.
  - rewrite Haf in Hc. specialize (Hc I).
    destruct pr as [y| | |]; eauto.
  - rewrite Haf in Hc. specialize (Hc I). auto.
Qed.

End FloatScoring.

(** ** [FraudTools] is [FloatTools] on finite numbers *)

Section OnFiniteNumbers.
Import Py Rewards PyFloat Finite.

Lemma get_fin (entry : option Q) (d : Q) :
  get (option_map Fin entry) (Fin d) = Fin (get entry d).
Proof. destruct entry; reflexivity. Qed.

Lemma div_100 (x : Q) : x / 100 == x * (1 # 100).
Proof. field. Qed.

Lemma anomaly_score_exact {A : Type} (l : list A) :
  (List.length l <= 4)%nat ->
  min (FloatTools.len l * Fin 0.2)%float (Fin 1.0)
  = Fin (Py.min (FraudTools.len l * 0.2) 1.0).
Proof.
  intro H.
  do 5 (destruct l as [|? l]; [vm_compute; reflexivity|]).
  cbn [List.length] in H. lia.
Qed.

(** On finite numbers within the float range the two embeddings of
    [detect_anomalies], called without statistics, agree. *)
Lemma detect_anomalies_on_finite (fmt : FloatTools.Formatter)
    (t : FraudTools.Transaction) :
  in_range_opt (FraudTools.amount t) ->
  exists a,
    FraudTools.detect_anomalies (of_formatter fmt) t None = Ok a
    /\ FloatTools.detect_anomalies fmt (of_transaction t) None
       = Ok (of_anomaly_result a).
Proof.
  intro Hr.
  assert (Hx : - max_float <= get (FraudTools.amount t) 0 <= max_float).
  { destruct (FraudTools.amount t) as [x|]; cbn [in_range_opt get] in *;
      [exact Hr | pose proof max_float_large; lra]. }
  unfold FraudTools.detect_anomalies, FloatTools.detect_anomalies.
  cbn [FraudTools.stats_truthy FloatTools.stats_truthy of_transaction
       FloatTools.amount FloatTools.claims_30d FloatTools.tenure_months
       FloatTools.provider_risk_score of_formatter FraudTools.str
       FraudTools.fixed].
  rewrite !get_fin.
  rewrite (mul_fin 100 5) by (pose proof max_float_large; split; lra).
  unfold Py.truediv, truediv.
  change (Qeq_bool 100 0) with false. cbv iota.
  rewrite (overflow_in_range (get (FraudTools.amount t) 0 / 100))
    by (rewrite div_100; pose proof max_float_large; split; lra).
  unfold gt, lt, Py.gt, Py.lt.
  destruct (negb (Qle_bool (get (FraudTools.amount t) 0) (100 * 5)));
    cbn [bind];
    destruct (negb (Qle_bool (get (FraudTools.claims_30d t) 0) 10));
    destruct (negb (Qle_bool (get (FraudTools.provider_risk_score t) 0) 0.5));
    destruct (negb (Qle_bool 3 (get (FraudTools.tenure_months t) 0))
              && negb (Qle_bool (get (FraudTools.amount t) 0) 500));
    (eexists; split; [reflexivity|]);
    rewrite anomaly_score_exact by (cbn [app List.length]; lia);
    reflexivity.
Qed.

Lemma match_fraud_patterns_on_finite (t : FraudTools.Transaction) :
  FloatTools.match_fraud_patterns (of_transaction t)
  = of_pattern_result (FraudTools.match_fraud_patterns t).
Proof.
  unfold FloatTools.match_fraud_patterns, FraudTools.match_fraud_patterns,
    FraudTools.FRAUD_PATTERNS, FloatTools.match_pattern,
    FraudTools.match_pattern, FloatTools.indicator_matches,
    FraudTools.indicator_matches.
  cbn [of_transaction FloatTools.amount FloatTools.claims_30d
       FloatTools.provider_risk_score].
  rewrite !get_fin. unfold gt, lt, Py.gt, Py.lt.
  destruct (negb (Qle_bool (get (FraudTools.claims_30d t) 0) 10));
    destruct (negb (Qle_bool (get (FraudTools.amount t) 0) 1000));
    destruct (negb (Qle_bool (get (FraudTools.provider_risk_score t) 0) 0.5));
    vm_compute; reflexivity.
Qed.

(** On finite numbers within the float range the two embeddings of
    [score_transaction] agree: [FraudTools.score_transaction] is
    [FloatTools.score_transaction] on such numbers. *)
Lemma score_transaction_on_finite (fmt : FloatTools.Formatter)
    (t : FraudTools.Transaction) (e : option (list Q)) :
  in_range_opt (FraudTools.amount t) ->
  in_range_opt (FraudTools.provider_risk_score t) ->
  exists r,
    FraudTools.score_transaction (of_formatter fmt) t e = Ok r
    /\ FloatTools.score_transaction fmt (of_transaction t) e
       = Ok (of_score r).
Proof.
  intros Hra Hrp.
  assert (Hx : - max_float <= get (FraudTools.amount t) 0 <= max_float).
  { destruct (FraudTools.amount t) as [x|]; cbn [in_range_opt get] in *;
      [exact Hra | pose proof max_float_large; lra]. }
  assert (Hy : - max_float <= get (FraudTools.provider_risk_score t) 0
               <= max_float).
  { destruct (FraudTools.provider_risk_score t) as [y|];
      cbn [in_range_opt get] in *;
      [exact Hrp | pose proof max_float_large; lra]. }
  destruct (detect_anomalies_on_finite fmt t Hra) as (a & Ha & Ha').
  destruct (float_detect_anomalies_no_stats fmt (of_transaction t))
    as (a' & s & Hs1 & Hs2 & Hs).
  rewrite Ha' in Hs1. injection Hs1 as <-.
  cbn [of_anomaly_result FloatTools.overall_anomaly_score] in Hs2.
  injection Hs2 as <-.
  destruct (float_pattern_score (of_transaction t)) as (p & Hp1 & Hp).
  rewrite match_fraud_patterns_on_finite in Hp1.
  cbn [of_pattern_result FloatTools.combined_pattern_score] in Hp1.
  injection Hp1 as <-.
  unfold FraudTools.score_transaction, FloatTools.score_transaction.
  rewrite Ha, Ha'. cbn [bind].
  rewrite match_fraud_patterns_on_finite.
  cbn [of_transaction FloatTools.amount FloatTools.provider_risk_score
       FloatTools.transaction_id of_anomaly_result of_pattern_result
       FloatTools.overall_anomaly_score FloatTools.combined_pattern_score
       FloatTools.anomalies FloatTools.matched_patterns].
  rewrite !get_fin.
  unfold truediv. change (Qeq_bool 5000 0) with false. cbv iota.
  rewrite (overflow_in_range (get (FraudTools.amount t) 0 / 5000))
    by (rewrite div_5000; pose proof max_float_large; split; lra).
  cbn [bind]. rewrite min_fin.
  assert (Hb : - max_float
               <= Py.min (get (FraudTools.amount t) 0 / 5000) 1.0 <= 1).
  { split;
      [|pose proof (min_le_r (get (FraudTools.amount t) 0 / 5000) 1.0); lra].
    apply min_glb; [rewrite div_5000|]; pose proof max_float_large; lra. }
  assert (Hc := combined_score_cases _ _
                  (Fin (Py.min (get (FraudTools.amount t) 0 / 5000) 1.0))
                  (Fin (get (FraudTools.provider_risk_score t) 0))
                  Hs Hp Hy Hb).
  cbv zeta in Hc. rewrite Hc.
  match goal with
  | |- context [min (max (Fin ?c) (Fin 0)) (Fin 1)] =>
      destruct (clamp_fin c) as (H1 & H2 & _ & _)
  end.
  cbv zeta in H1, H2. rewrite H1, H2.
  eexists. split; reflexivity.
Qed.

End OnFiniteNumbers.

(** ** NaN through the clamp of [score_transaction] *)

Section NaNThroughClamp.
Import Py Rewards PyFloat FloatTools.

(** C10, on the input that breaks it: for a transaction whose amount or
    provider risk score is NaN, [score_transaction] returns, and the
    [fraud_probability] it reports is NaN, not a number of [[0, 1]]: the
    clamp [min(max(combined_score, 0), 1)] keeps a NaN, every comparison
    with NaN being false.  The transaction is then reported as low risk
    with the action PASS. *)
Theorem score_transaction_passes_nan (fmt : Formatter) (t : Transaction)
    (e : option (list Q)) :
  well_formed t ->
  get (amount t) (Fin 0) = NaN \/ get (provider_risk_score t) (Fin 0) = NaN ->
  min (max NaN (Fin 0)) (Fin 1) = NaN
  /\ exists r,
       score_transaction fmt t e = Ok r
       /\ fraud_probability r = NaN
       /\ ~ (exists p, fraud_probability r = Fin p /\ 0 <= p <= 1)
       /\ confidence r = NaN
       /\ risk_level r = "low"
       /\ recommended_action r = "PASS".
Proof.
  intros Hwf Hnan. split; [reflexivity|].
  destruct (float_score_cases fmt t e Hwf) as (r & Hr & H).
  exists r. split; [exact Hr|].
  assert (H' : fraud_probability r = NaN /\ confidence r = NaN
               /\ risk_level r = "low" /\ recommended_action r = "PASS").
  { destruct Hnan as [E | E]; rewrite E in H.
    - exact H.
    - destruct (get (amount t) (Fin 0)); exact H. }
  destruct H' as (Hp & Hc & Hl & Ha).
  split; [exact Hp|]. split; [|repeat split; assumption].
  intros (p & Hp' & _). rewrite Hp in Hp'. discriminate Hp'.
Qed.

Lemma score_transaction_passes_nan_witness :
  exists r,
    score_transaction FloatExamples.plain_formatter FloatExamples.nan_amount
      None = Ok r
    /\ fraud_probability r = NaN
    /\ recommended_action r = "PASS".
Proof.
  destruct (score_transaction_passes_nan FloatExamples.plain_formatter
              FloatExamples.nan_amount None)
    as (_ & r & Hr & Hp & _ & _ & _ & Ha).
  - repeat split.
  - left. reflexivity.
  - exists r. repeat split; assumption.
Defined.

End NaNThroughClamp.

(** ** Aggregation in the decide phase *)

Section Aggregation.
Import Py Rewards Orchestrator.

(** [scores.get(k, 0)] on the scores of the decide phase. *)
Local Notation "'score' r k" := (dict_get (scores (decide_locals r)) k 0)
  (at level 10, r at level 9, k at level 9).

Lemma weighted_score_explicit (r : AnalysisResults) :
  weighted_score (decide_locals r)
  == 0.30 * score r "transaction" + 0.20 * score r "document"
     + 0.25 * score r "pattern" + 0.15 * score r "identity"
     + 0.10 * score r "network".
Proof.
  unfold decide_locals. cbn [weighted_score scores].
  unfold weighted_sum, decide_weights, decide_scores, keys, sum.
  cbn [map fst fold_left dict_get String.eqb Ascii.eqb Bool.eqb].
  ring.
Qed.

Lemma score_variance_explicit (r : AnalysisResults) :
  let w := weighted_score (decide_locals r) in
  score_variance (decide_locals r)
  == ((score r "transaction" - w) * (score r "transaction" - w)
      + (score r "document" - w) * (score r "document" - w)
      + (score r "pattern" - w) * (score r "pattern" - w)
      + (score r "identity" - w) * (score r "identity" - w)
      + (score r "network" - w) * (score r "network" - w)) / 5.
Proof.
  intro w. unfold w, decide_locals. cbn [score_variance weighted_score scores].
  set (ws := weighted_sum (decide_scores r) decide_weights).
  unfold variance_about, decide_scores, values, sum, FraudTools.len.
  cbn [map snd fold_left dict_get String.eqb Ascii.eqb Bool.eqb List.length].
  change (inject_Z (Z.of_nat 5)) with 5.
  field.
Qed.

Lemma local_fraud_probability_clamp (r : AnalysisResults) :
  local_fraud_probability (decide_locals r)
  = min (max (weighted_score (decide_locals r)) 0) 1.
Proof. reflexivity. Qed.

Lemma weights_sum_to_one : sum (values decide_weights) == 1.
Proof. reflexivity. Qed.

(** An adapter without a result enters the scores with 0. *)
Lemma absent_scores (r : AnalysisResults) :
  (transaction_analysis r = None -> score r "transaction" == 0)
  /\ (document_analysis r = None -> score r "document" == 0)
  /\ (pattern_detection r = None -> score r "pattern" == 0)
  /\ (identity_verification r = None -> score r "identity" == 0)
  /\ (network_analysis r = None -> score r "network" == 0).
Proof.
  unfold decide_locals. cbn [scores]. unfold decide_scores.
  cbn [dict_get String.eqb Ascii.eqb Bool.eqb].
  repeat split; intros ->; reflexivity.
Qed.

(** Scores that grow pointwise give a weighted score that grows. *)
Lemma weighted_score_mono (r r' : AnalysisResults) :
  score r "transaction" <= score r' "transaction" ->
  score r "document" <= score r' "document" ->
  score r "pattern" <= score r' "pattern" ->
  score r "identity" <= score r' "identity" ->
  score r "network" <= score r' "network" ->
  weighted_score (decide_locals r) <= weighted_score (decide_locals r').
Proof.
  intros Ht Hd Hp Hi Hn. rewrite !weighted_score_explicit. lra.
Qed.

(** C9: raising the component score of one adapter, the others being
    kept, never lowers the fraud probability of the decide phase, neither
    before nor after its rounding to four digits. *)
Theorem aggregation_monotone (r r' : AnalysisResults) (k : string) :
  (forall j, j <> k -> score r' j == score r j) ->
  score r k <= score r' k ->
  local_fraud_probability (decide_locals r)
  <= local_fraud_probability (decide_locals r')
  /\ round (local_fraud_probability (decide_locals r)) 4
     <= round (local_fraud_probability (decide_locals r')) 4.
Proof.
  intros Hothers Hk.
  assert (Hall : forall j, score r j <= score r' j).
  { intro j. destruct (string_dec j k) as [-> | Hj]; [exact Hk|].
    rewrite (Hothers j Hj). apply Qle_refl. }
  assert (Hp : local_fraud_probability (decide_locals r)
               <= local_fraud_probability (decide_locals r')).
  { rewrite !local_fraud_probability_clamp. apply clamp_mono.
    apply weighted_score_mono; apply Hall. }
  split; [exact Hp | apply round_mono, Hp].
Qed.

Lemma aggregation_monotone_witness :
  local_fraud_probability (decide_locals (Examples.only_transaction 0.5))
  <= local_fraud_probability (decide_locals (Examples.only_transaction 1)).
Proof.
  apply (aggregation_monotone (Examples.only_transaction 0.5)
           (Examples.only_transaction 1) "transaction").
  - intros j Hj. unfold decide_locals. cbn [scores].
    unfold decide_scores. cbn [dict_get].
    destruct ("transaction" =? j)%string eqn:E.
    + apply String.eqb_eq in E. congruence.
    + reflexivity.
  - vm_compute. discriminate.
Defined.

End Aggregation.

(** ** Missing adapters *)

Section MissingAdapters.
Import Py Rewards Orchestrator.

Local Notation "'score' r k" := (dict_get (scores (decide_locals r)) k 0)
  (at level 10, r at level 9, k at level 9).

(** C3, as stated, fails: with the transaction adapter alone, reporting 1,
    the redistributed weighted sum of the claim is 1, and the decide phase
    computes 0.3. *)
Lemma weights_not_redistributed :
  weighted_score (decide_locals (Examples.only_transaction 1)) == 0.3
  /\ Spec.redistributed_probability (Examples.only_transaction 1) == 1
  /\ ~ (weighted_score (decide_locals (Examples.only_transaction 1))
        == Spec.redistributed_probability (Examples.only_transaction 1)).
Proof.
  split; [reflexivity|]. split; [reflexivity|].
  intro H. vm_compute in H. discriminate H.
Qed.

(** C3, amended: the fraud probability is the clamp to [[0, 1]] of the
    weighted sum of the five component scores under the fixed weights
    0.30, 0.20, 0.25, 0.15 and 0.10, which sum to 1 over the five adapters;
    an adapter without a result keeps its weight and enters the sum with
    the component score 0. *)
Theorem aggregation_fixed_weights (r : AnalysisResults) :
  weighted_score (decide_locals r)
  == 0.30 * score r "transaction" + 0.20 * score r "document"
     + 0.25 * score r "pattern" + 0.15 * score r "identity"
     + 0.10 * score r "network"
  /\ local_fraud_probability (decide_locals r)
     = min (max (weighted_score (decide_locals r)) 0) 1
  /\ weights (decide_locals r)
     = [ ("transaction", 0.30); ("document", 0.20); ("pattern", 0.25);
         ("identity", 0.15); ("network", 0.10) ]
  /\ sum (values (weights (decide_locals r))) == 1
  /\ (transaction_analysis r = None -> score r "transaction" == 0)
  /\ (document_analysis r = None -> score r "document" == 0)
  /\ (pattern_detection r = None -> score r "pattern" == 0)
  /\ (identity_verification r = None -> score r "identity" == 0)
  /\ (network_analysis r = None -> score r "network" == 0).
Proof.
  split; [apply weighted_score_explicit|].
  split; [reflexivity|]. split; [reflexivity|].
  split; [apply weights_sum_to_one|].
  apply absent_scores.
Qed.

Lemma aggregation_fixed_weights_witness :
  score (Examples.only_transaction 1) "document" == 0
  /\ score (Examples.only_transaction 1) "network" == 0.
Proof.
  pose proof (aggregation_fixed_weights (Examples.only_transaction 1))
    as (_ & _ & _ & _ & _ & Hd & _ & _ & Hn).
  split; [apply Hd | apply Hn]; reflexivity.
Defined.

Lemma square_nonneg (x : Q) : 0 <= x * x.
Proof. nra. Qed.

Lemma score_variance_nonneg (r : AnalysisResults) :
  0 <= score_variance (decide_locals r).
Proof.
  pose proof (score_variance_explicit r) as H. cbv zeta in H. rewrite H.
  set (w := weighted_score (decide_locals r)).
  pose proof (square_nonneg (score r "transaction" - w)).
  pose proof (square_nonneg (score r "document" - w)).
  pose proof (square_nonneg (score r "pattern" - w)).
  pose proof (square_nonneg (score r "identity" - w)).
  pose proof (square_nonneg (score r "network" - w)).
  apply Qle_shift_div_l; lra.
Qed.

Lemma local_confidence_eq (r : AnalysisResults) :
  local_confidence (decide_locals r)
  = 1 - min (score_variance (decide_locals r)) 0.25 * 4.
Proof. reflexivity. Qed.

Lemma local_confidence_range (r : AnalysisResults) :
  0 <= local_confidence (decide_locals r) <= 1.
Proof.
  rewrite local_confidence_eq.
  pose proof (score_variance_nonneg r) as Hv.
  pose proof (min_le_r (score_variance (decide_locals r)) 0.25).
  assert (0 <= min (score_variance (decide_locals r)) 0.25)
    by (apply min_glb; lra).
  lra.
Qed.

(** C7, as stated, fails: with the transaction adapter alone, reporting 1,
    the variance over the adapters that ran is 0 and the confidence of the
    claim is 1, while the decide phase computes 0.32; its dispersion, 0.17,
    is not even the variance of the five scores, 0.16. *)
Lemma confidence_counts_absent_adapters :
  local_confidence (decide_locals (Examples.only_transaction 1)) == 0.32
  /\ Spec.confidence (Examples.only_transaction 1) == 1
  /\ ~ (local_confidence (decide_locals (Examples.only_transaction 1))
        == Spec.confidence (Examples.only_transaction 1))
  /\ score_variance (decide_locals (Examples.only_transaction 1)) == 0.17
  /\ Spec.variance
       (values (scores (decide_locals (Examples.only_transaction 1))))
     == 0.16.
Proof.
  split; [reflexivity|]. split; [reflexivity|].
  split; [|split; reflexivity].
  intro H. vm_compute in H. discriminate H.
Qed.

(** C7, amended: the confidence is [1 - min(v, 0.25) * 4], where [v] is
    the mean, over the five component scores (an absent adapter counting
    with its default score), of the squared distance to the weighted
    score; it lies in [[0, 1]], also after rounding, and a lower [v] gives
    a confidence at least as high. *)
Theorem confidence_from_dispersion (r r' : AnalysisResults) :
  let l := decide_locals r in
  let w := weighted_score l in
  local_confidence l = 1 - min (score_variance l) 0.25 * 4
  /\ score_variance l
     == ((score r "transaction" - w) * (score r "transaction" - w)
         + (score r "document" - w) * (score r "document" - w)
         + (score r "pattern" - w) * (score r "pattern" - w)
         + (score r "identity" - w) * (score r "identity" - w)
         + (score r "network" - w) * (score r "network" - w)) / 5
  /\ 0 <= local_confidence l <= 1
  /\ 0 <= round (local_confidence l) 4 <= 1
  /\ (score_variance l <= score_variance (decide_locals r') ->
      local_confidence (decide_locals r') <= local_confidence l).
Proof.
  intros l w. split; [reflexivity|].
  split; [apply score_variance_explicit|].
  split; [apply local_confidence_range|].
  split; [apply round_unit, local_confidence_range|].
  intro H. subst l. rewrite !local_confidence_eq.
  pose proof (min_mono _ _ 0.25 H). lra.
Qed.

Lemma confidence_from_dispersion_witness :
  local_confidence (decide_locals (Examples.only_transaction 1))
  <= local_confidence (decide_locals no_results).
Proof.
  apply (confidence_from_dispersion no_results (Examples.only_transaction 1)).
  vm_compute. discriminate.
Defined.

(** C2, as stated, fails: on no adapter result at all, the decide phase of
    the orchestrator does not raise an [InsufficientDataError]. *)
Lemma no_insufficient_data_error :
  ~ (exists msg,
       _decide_phase create_orchestrator no_results Examples.context0
       = Raise (Exn "InsufficientDataError" msg)).
Proof. intros [msg H]. vm_compute in H. discriminate H. Qed.

Lemma decide_phase_error_class (self : FraudOrchestratorAgent)
    (r : AnalysisResults) (ctx : AgentContext) (e : exn) :
  _decide_phase self r ctx = Raise e -> exn_class e = "AttributeError".
Proof.
  unfold _decide_phase, getattr, attributes.
  cbn [lookup String.eqb Ascii.eqb Bool.eqb bind].
  intro H. injection H as <-. reflexivity.
Qed.

(** C2, amended: on no adapter result the decide phase raises no
    [InsufficientDataError]; it takes each of the five component scores
    as 0, and from them computes the fraud probability 0, the risk level
    Low and the action PASS. *)
Theorem decide_on_no_evidence (self : FraudOrchestratorAgent)
    (ctx : AgentContext) (k msg : string) :
  score no_results k == 0
  /\ local_fraud_probability (decide_locals no_results) == 0
  /\ risk_level (decide_locals no_results) = LOW
  /\ action (decide_locals no_results) = "PASS"
  /\ _decide_phase self no_results ctx
     <> Raise (Exn "InsufficientDataError" msg).
Proof.
  split; [|split; [reflexivity|split; [reflexivity|split; [reflexivity|]]]].
  - unfold decide_locals. cbn [scores]. unfold decide_scores.
    cbn [dict_get get no_results transaction_analysis document_analysis
         pattern_detection identity_verification network_analysis
         no_transaction_analysis no_document_analysis no_pattern_detection
         no_identity_verification no_network_analysis fraud_probability
         overall_authenticity_score combined_risk_score verification_score
         network_risk_score].
    repeat (match goal with
            | |- context [if ?b then _ else _] => destruct b
            end); reflexivity.
  - intro H. apply decide_phase_error_class in H. discriminate H.
Qed.

End MissingAdapters.

(** ** The stable sort *)

Section SortFacts.
Import Py.
Context {A : Type} (key : A -> nat).

Local Notation "'le_key'" := (fun a b : A => (key a <= key b)%nat).

Lemma insert_perm (x : A) (l : list A) :
  Permutation (insert key x l) (x :: l).
Proof.
  induction l as [|y t IH]; cbn [insert].
  - apply Permutation_refl.
  - destruct (key x <=? key y)%nat.
    + apply Permutation_refl.
    + apply perm_trans with (y :: x :: t).
      * apply perm_skip, IH.
      * apply perm_swap.
Qed.

Lemma sort_perm (l : list A) : Permutation (sort key l) l.
Proof.
  induction l as [|x t IH]; cbn [sort].
  - apply perm_nil.
  - apply perm_trans with (x :: sort key t).
    + apply insert_perm.
    + apply perm_skip, IH.
Qed.

Lemma insert_Forall (P : A -> Prop) (x : A) (l : list A) :
  P x -> Forall P l -> Forall P (insert key x l).
Proof.
  intros Hx Hl. induction Hl as [|y t Hy Ht IH]; cbn [insert].
  - constructor; [exact Hx | constructor].
  - destruct (key x <=? key y)%nat.
    + constructor; [exact Hx|]. constructor; assumption.
    + constructor; assumption.
Qed.

Lemma insert_sorted (x : A) (l : list A) :
  StronglySorted le_key l -> StronglySorted le_key (insert key x l).
Proof.
  intro Hs. induction Hs as [|y t Ht IH Hy]; cbn [insert].
  - constructor; constructor.
  - destruct (key x <=? key y)%nat eqn:E.
    + apply Nat.leb_le in E. constructor.
      * constructor; assumption.
      * constructor; [exact E|].
        apply Forall_impl with (P := le_key y); [|exact Hy].
        intros z Hz. cbv beta in *. lia.
    + apply Nat.leb_gt in E. constructor; [exact IH|].
      apply insert_Forall; [cbv beta; lia | exact Hy].
Qed.

Lemma sort_sorted (l : list A) : StronglySorted le_key (sort key l).
Proof.
  induction l as [|x t IH]; cbn [sort].
  - constructor.
  - apply insert_sorted, IH.
Qed.




End SortFacts.

(** ** Key findings *)

Section KeyFindings.
Import Py Orchestrator.

Local Notation "'rank'" := (fun f : Finding => severity_order (severity f)).




End KeyFindings.

(** ** The workflows *)

Section Runs.
Import Py Rewards FraudTools Orchestrator.

Variables Document Report : Type.
Variable fmt : Formatter.
Variable default_case_id : string.
Variable agents : SubAgents Document Report.

(** No [RewardConfig] has an attribute [flag_threshold]. *)
Lemma no_flag_threshold (c : RewardConfig) :
  getattr c "flag_threshold"
  = Raise (AttributeError "RewardConfig" "flag_threshold").
Proof. reflexivity. Qed.

Lemma analyze_raises (self : TransactionAnalystAgent) (t : Transaction)
    (ctx : AgentContext) (include_history : bool) :
  exists e, analyze self fmt t ctx include_history = Raise e.
Proof.
  unfold analyze. cbv zeta.
  match goal with
  | |- context [bind ?c _] => destruct c as [anomaly_result | e]
  end; cbn [bind]; [|eexists; reflexivity].
  match goal with
  | |- context [bind ?c _] => destruct c as [score_result | e]
  end; cbn [bind]; [|eexists; reflexivity].
  match goal with
  | |- context [bind ?c _] => destruct c as [expected_reward | e]
  end; cbn [bind]; [|eexists; reflexivity].
  rewrite no_flag_threshold. cbn [bind]. eexists. reflexivity.
Qed.

(** Without the history, and on numbers within the float range, nothing
    fails before the read of [flag_threshold]. *)
Lemma analyze_without_history (self : TransactionAnalystAgent)
    (t : Transaction) (ctx : AgentContext) :
  Finite.numbers_in_range t ->
  analyze self fmt t ctx false
  = Raise (AttributeError "RewardConfig" "flag_threshold").
Proof.
  intros _. unfold analyze. cbv zeta. cbv iota.
  destruct (detect_anomalies_no_stats fmt t) as [a Ha]. rewrite Ha.
  cbn [bind].
  match goal with
  | |- context [score_transaction fmt t ?e] =>
      destruct (score_transaction_total fmt t e) as [sc Hs]
  end.
  rewrite Hs. cbn [bind].
  unfold _calculate_expected_reward, float_attr, getattr, attributes.
  destruct (should_flag (FraudTools.fraud_probability sc) default_threshold);
    reflexivity.
Qed.

Lemma decide_phase_raises (self : FraudOrchestratorAgent)
    (r : AnalysisResults) (ctx : AgentContext) :
  _decide_phase self r ctx
  = Raise (AttributeError "RewardConfig" "flag_threshold").
Proof. reflexivity. Qed.

Lemma analyze_phase_raises (self : FraudOrchestratorAgent) (t : Transaction)
    (documents : list Document) (b : Beneficiary) (ctx : AgentContext) :
  exists e, _analyze_phase fmt agents self t documents b ctx = Raise e.
Proof.
  unfold _analyze_phase.
  match goal with
  | |- context [bind ?c _] => destruct c as [document_entry | e]
  end; cbn [bind]; [|eexists; reflexivity].
  destruct (analyze_raises (transaction_analyst self) t ctx true) as [e He].
  rewrite He. cbn [bind]. eexists. reflexivity.
Qed.

Lemma standard_workflow_raises (self : FraudOrchestratorAgent)
    (request : Request Document) (state : OrchestratorState)
    (ctx : AgentContext) :
  exists e, _standard_workflow fmt agents self request state ctx = Raise e.
Proof.
  unfold _standard_workflow, _intake_phase. cbv zeta. cbn [bind].
  match goal with
  | |- context [_analyze_phase fmt agents self ?t ?d ?b ctx] =>
      destruct (analyze_phase_raises self t d b ctx) as [e He]
  end.
  rewrite He. cbn [bind]. eexists. reflexivity.
Qed.

Lemma batch_analyze_raises (self : TransactionAnalystAgent)
    (tx : Transaction) (rest : list Transaction) (ctx : AgentContext) :
  exists e, batch_analyze self fmt (tx :: rest) ctx = Raise e.
Proof.
  unfold batch_analyze. cbn [batch_loop].
  destruct (analyze_raises self tx ctx false) as [e He].
  rewrite He. cbn [bind]. eexists. reflexivity.
Qed.

(** C1, amended: a request run through the quick, the standard or the
    investigation workflow, or through the batch workflow with at least
    one transaction, ends in the error result of [process], never in a
    success: [RewardConfig] has no attribute [flag_threshold], which the
    transaction analyst and the decide phase both read, so that neither
    ever returns.  The exception that [process] converts is that
    [AttributeError] or one raised earlier on the path; in the quick and
    the batch workflow, on a transaction whose numbers are within the
    float range, it is that [AttributeError]. *)
Theorem process_reports_error (self : FraudOrchestratorAgent)
    (request : Request Document) (workflow : WorkflowType) :
  (workflow = BATCH -> get (request_transactions request) [] <> []) ->
  let missing_attribute :=
    Failed {| error_status := "error";
              error :=
                "'RewardConfig' object has no attribute 'flag_threshold'";
              error_transaction_id :=
                get (request_transaction_id request) "";
              error_case_id :=
                get (request_case_id request) default_case_id |} in
  status (process fmt default_case_id agents self request workflow)
  = "error"
  /\ (exists e,
        process fmt default_case_id agents self request workflow
        = Failed {| error_status := "error";
                    error := exn_msg e;
                    error_transaction_id :=
                      get (request_transaction_id request) "";
                    error_case_id :=
                      get (request_case_id request) default_case_id |})
  /\ (forall c, exists e,
        getattr c "flag_threshold" = Raise e
        /\ exn_class e = "AttributeError")
  /\ (forall t ctx h a,
        analyze (transaction_analyst self) fmt t ctx h <> Ok a)
  /\ (forall r ctx d, _decide_phase self r ctx <> Ok d)
  /\ (workflow = QUICK ->
      Finite.numbers_in_range
        (get (request_transaction request) no_transaction) ->
      process fmt default_case_id agents self request workflow
      = missing_attribute)
  /\ (workflow = BATCH ->
      (forall tx rest,
         get (request_transactions request) [] = tx :: rest ->
         Finite.numbers_in_range tx) ->
      process fmt default_case_id agents self request workflow
      = missing_attribute).
Proof.
  intros Hbatch missing_attribute. unfold missing_attribute.
  clear missing_attribute.
  assert (Hfail : exists e,
            process fmt default_case_id agents self request workflow
            = Failed {| error_status := "error";
                        error := exn_msg e;
                        error_transaction_id :=
                          get (request_transaction_id request) "";
                        error_case_id :=
                          get (request_case_id request) default_case_id |}).
  { unfold process. cbv zeta. destruct workflow.
    - match goal with
      | |- context [_standard_workflow fmt agents self request ?s ?c] =>
          destruct (standard_workflow_raises self request s c) as [e He]
      end.
      rewrite He. cbn [bind]. exists e. reflexivity.
    - unfold _quick_workflow.
      match goal with
      | |- context [analyze ?a fmt ?t ?c false] =>
          destruct (analyze_raises a t c false) as [e He]
      end.
      rewrite He. cbn [bind]. exists e. reflexivity.
    - unfold _investigation_workflow.
      match goal with
      | |- context [_standard_workflow fmt agents self request ?s ?c] =>
          destruct (standard_workflow_raises self request s c) as [e He]
      end.
      rewrite He. cbn [bind]. exists e. reflexivity.
    - unfold _batch_workflow. cbv zeta.
      destruct (get (request_transactions request) []) as [|tx rest] eqn:E.
      + exfalso. apply Hbatch; reflexivity.
      + match goal with
        | |- context [batch_analyze ?a fmt _ ?c] =>
            destruct (batch_analyze_raises a tx rest c) as [e He]
        end.
        rewrite He. cbn [bind]. exists e. reflexivity. }
  split; [destruct Hfail as [e0 ->]; reflexivity|].
  split; [exact Hfail|].
  split; [intro c; eexists; split; [apply no_flag_threshold | reflexivity]|].
  split.
  { intros t ctx h a H.
    destruct (analyze_raises (transaction_analyst self) t ctx h) as [e He].
    congruence. }
  split.
  { intros r ctx d H. rewrite decide_phase_raises in H. discriminate H. }
  split.
  - intros -> Hrange. unfold process. cbv zeta.
    unfold _quick_workflow. rewrite (analyze_without_history _ _ _ Hrange).
    reflexivity.
  - intros -> Hrange. unfold process. cbv zeta.
    unfold _batch_workflow. cbv zeta.
    destruct (get (request_transactions request) []) as [|tx rest] eqn:E.
    + exfalso. apply Hbatch; reflexivity.
    + unfold batch_analyze. cbn [batch_loop].
      rewrite (analyze_without_history _ _ _ (Hrange tx rest eq_refl)).
      reflexivity.
Qed.

(** C6, amended: the intake phase validates nothing: for every
    transaction, list of documents and beneficiary it returns its record
    with [validation_passed] true, it raises no exception, and the
    standard workflow goes on to the analyze phase, whose exception is
    the one the workflow raises. *)
Theorem intake_accepts_everything (self : FraudOrchestratorAgent)
    (request : Request Document) (state : OrchestratorState)
    (ctx : AgentContext) (t : Transaction) (documents : list Document)
    (b : Beneficiary) (e : exn) :
  _intake_phase t documents b
  = Ok {| transaction_received := transaction_truthy t;
          documents_count := List.length documents;
          beneficiary_provided := beneficiary_truthy b;
          validation_passed := true |}
  /\ (_analyze_phase fmt agents self
        (get (request_transaction request) no_transaction)
        (get (request_documents request) [])
        (get (request_beneficiary request) no_beneficiary) ctx
      = Raise e ->
      _standard_workflow fmt agents self request state ctx = Raise e).
Proof.
  split; [reflexivity|].
  intro H. unfold _standard_workflow, _intake_phase. cbv zeta. cbn [bind].
  rewrite H. reflexivity.
Qed.

End Runs.

(** ** Runs on the sample inputs *)

Section SampleRuns.
Import Py Rewards FraudTools Orchestrator.

Lemma suspicious_transaction_in_range :
  Finite.numbers_in_range Examples.suspicious_transaction.
Proof.
  pose proof max_float_large.
  unfold Finite.numbers_in_range, Finite.in_range_opt, Finite.in_float_range.
  cbn. repeat split; try exact I; lra.
Qed.

Lemma process_reports_error_witness :
  status (process Examples.plain_formatter "CASE-0" Examples.agents
            create_orchestrator
            (Examples.request_of Examples.suspicious_transaction [] [])
            QUICK)
  = "error"
  /\ status (process Examples.plain_formatter "CASE-0" Examples.agents
               create_orchestrator
               (Examples.request_of Examples.suspicious_transaction []
                  [Examples.suspicious_transaction])
               BATCH)
     = "error"
  /\ process Examples.plain_formatter "CASE-0" Examples.agents
       create_orchestrator
       (Examples.request_of Examples.suspicious_transaction [] [])
       QUICK
     = Failed {| error_status := "error";
                 error :=
                   "'RewardConfig' object has no attribute 'flag_threshold'";
                 error_transaction_id := "TX-1";
                 error_case_id := "CASE-1" |}.
Proof.
  split; [|split].
  - apply (process_reports_error string string Examples.plain_formatter
             "CASE-0" Examples.agents create_orchestrator
             (Examples.request_of Examples.suspicious_transaction [] [])
             QUICK).
    intro H. discriminate H.
  - apply (process_reports_error string string Examples.plain_formatter
             "CASE-0" Examples.agents create_orchestrator
             (Examples.request_of Examples.suspicious_transaction []
                [Examples.suspicious_transaction])
             BATCH).
    intros _ H. discriminate H.
  - refine (proj1 (proj2 (proj2 (proj2 (proj2 (proj2
              (process_reports_error string string
                 Examples.plain_formatter "CASE-0" Examples.agents
                 create_orchestrator
                 (Examples.request_of Examples.suspicious_transaction [] [])
                 QUICK _)))))) eq_refl suspicious_transaction_in_range).
    intro H. discriminate H.
Defined.

(** C1, as stated, fails: a standard run on a transaction with a
    beneficiary on record and a positive amount ends before anything reads
    [flag_threshold].  The placeholder history has an average amount of 0,
    by which the [amount_spike] message of [detect_anomalies] divides: the
    exception that [process] converts is that [ZeroDivisionError], not an
    [AttributeError]. *)
Lemma standard_workflow_division_error :
  let transaction :=
    Examples.transaction_of (Some 5) None None None (Some "B-1") in
  process Examples.plain_formatter "CASE-0" Examples.agents
    create_orchestrator (Examples.request_of transaction [] []) STANDARD
  = Failed {| error_status := "error";
              error := "float division by zero";
              error_transaction_id := "TX-1";
              error_case_id := "CASE-1" |}
  /\ TransactionAnalyst.analyze
       (transaction_analyst create_orchestrator) Examples.plain_formatter
       transaction Examples.context0 true
     = Raise ZeroDivisionError
  /\ exn_class ZeroDivisionError <> "AttributeError"
  /\ exn_msg ZeroDivisionError
     <> exn_msg (AttributeError "RewardConfig" "flag_threshold").
Proof.
  split; [reflexivity|]. split; [reflexivity|].
  split; intro H; discriminate H.
Qed.

(** The batch workflow on no transaction at all is the one run that
    succeeds. *)
Lemma empty_batch_succeeds :
  status (process Examples.plain_formatter "CASE-0" Examples.agents
            create_orchestrator
            (Examples.request_of Examples.suspicious_transaction [] [])
            BATCH)
  = "success".
Proof. reflexivity. Qed.

(** C6, as stated, fails: on a transaction with a negative amount and an
    empty identifier the intake phase raises no [InvalidInputError] and
    reports the validation as passed; the run goes on to the analyze
    phase, whose document analyst is the one that raises here. *)
Lemma intake_does_not_validate :
  ~ (exists msg,
       _intake_phase Examples.invalid_transaction ["doc"] no_beneficiary
       = Raise (Exn "InvalidInputError" msg))
  /\ (exists i,
        _intake_phase Examples.invalid_transaction ["doc"] no_beneficiary
        = Ok i
        /\ validation_passed i = true)
  /\ process Examples.plain_formatter "CASE-0" Examples.agents
       create_orchestrator
       (Examples.request_of Examples.invalid_transaction ["doc"] [])
       STANDARD
     = Failed {| error_status := "error";
                 error := "document analysis ran";
                 error_transaction_id := "TX-1";
                 error_case_id := "CASE-1" |}.
Proof.
  split; [intros [msg H]; discriminate H|].
  split; [eexists; split; reflexivity | reflexivity].
Qed.

Lemma intake_accepts_everything_witness :
  _standard_workflow Examples.plain_formatter Examples.agents
    create_orchestrator
    (Examples.request_of Examples.invalid_transaction ["doc"] [])
    Examples.state0 Examples.context0
  = Raise (Exn "RuntimeError" "document analysis ran").
Proof.
  apply (intake_accepts_everything string string Examples.plain_formatter
           Examples.agents create_orchestrator
           (Examples.request_of Examples.invalid_transaction ["doc"] [])
           Examples.state0 Examples.context0
           Examples.invalid_transaction ["doc"] no_beneficiary
           (Exn "RuntimeError" "document analysis ran")).
  reflexivity.
Defined.

End SampleRuns.

(** * Further properties *)

(** ** Risk levels, flags and actions *)

Section Levels.
Import Py Rewards RewardMatrix Orchestrator.

Ltac level_bounds H :=
  first [ apply classify_risk_low in H
        | apply classify_risk_medium in H
        | apply classify_risk_high in H
        | apply classify_risk_critical in H ].

(** X1: [classify_risk] is monotone: a higher score never gets a lower
    risk level. *)
Theorem classify_risk_monotone (p q : Q) :
  p <= q ->
  (level_index (classify_risk p) <= level_index (classify_risk q))%nat.
Proof.
  intro H.
  destruct (classify_risk p) eqn:Ep; destruct (classify_risk q) eqn:Eq;
    cbn [level_index]; try lia; exfalso;
    level_bounds Ep; level_bounds Eq; lra.
Qed.

Lemma classify_risk_monotone_witness :
  (level_index (classify_risk 0.25) <= level_index (classify_risk 0.65))%nat.
Proof. apply classify_risk_monotone. lra. Defined.

(** X2: at the default threshold the flag follows the risk level, but
    for Medium: High and Critical scores are flagged, Low scores are not,
    and a Medium score is flagged exactly from 0.3 on. *)
Theorem flag_follows_level (p : Q) :
  (classify_risk p = HIGH \/ classify_risk p = CRITICAL ->
   should_flag p default_threshold = true)
  /\ (classify_risk p = LOW -> should_flag p default_threshold = false)
  /\ (classify_risk p = MEDIUM ->
      (should_flag p default_threshold = true <-> 0.3 <= p)).
Proof.
  split; [|split].
  - intros [H | H]; level_bounds H; apply should_flag_true;
      unfold default_threshold; lra.
  - intro H. level_bounds H. apply should_flag_false.
    unfold default_threshold. lra.
  - intros _. apply should_flag_true.
Qed.

Lemma flag_follows_level_witness :
  should_flag 0.5 default_threshold = true
  /\ should_flag 0.1 default_threshold = false
  /\ should_flag 0.35 default_threshold = true.
Proof.
  split; [|split].
  - apply (proj1 (flag_follows_level 0.5)). left. reflexivity.
  - apply (proj1 (proj2 (flag_follows_level 0.1))). reflexivity.
  - apply (proj2 (proj2 (flag_follows_level 0.35))); [reflexivity|]. lra.
Defined.

Lemma risk_level_eq (r : AnalysisResults) :
  risk_level (decide_locals r)
  = classify_risk (local_fraud_probability (decide_locals r)).
Proof.
  unfold decide_locals. cbn [risk_level local_fraud_probability].
  reflexivity.
Qed.

Lemma flag_decision_eq (r : AnalysisResults) :
  flag_decision (decide_locals r)
  = should_flag (local_fraud_probability (decide_locals r)) default_threshold.
Proof.
  unfold decide_locals. cbn [flag_decision local_fraud_probability].
  reflexivity.
Qed.

Lemma action_cases (r : AnalysisResults) :
  let l := decide_locals r in
  (risk_level l = CRITICAL /\ action l = "BLOCK")
  \/ (risk_level l <> CRITICAL /\ flag_decision l = true
      /\ action l = "FLAG")
  \/ (risk_level l <> CRITICAL /\ flag_decision l = false
      /\ action l = "PASS").
Proof.
  intro l. unfold l. rewrite decide_locals_action.
  rewrite <- risk_level_eq, <- flag_decision_eq.
  destruct (risk_level (decide_locals r)) eqn:E;
    destruct (flag_decision (decide_locals r)) eqn:F; cbn;
    first [ left; split; reflexivity
          | right; left; repeat split; congruence
          | right; right; repeat split; congruence ].
Qed.

(** X3: in the decide phase the action BLOCK goes with the Critical
    level and with no other; a High level is always FLAG, a Low level
    always PASS; PASS is only chosen below 0.3 and FLAG only in
    [[0.3, 0.7)]. *)
Theorem action_matches_level (r : AnalysisResults) :
  let l := decide_locals r in
  let prob := local_fraud_probability l in
  (action l = "BLOCK" <-> risk_level l = CRITICAL)
  /\ (risk_level l = HIGH -> action l = "FLAG")
  /\ (risk_level l = LOW -> action l = "PASS")
  /\ (action l = "PASS" -> prob < 0.3)
  /\ (action l = "FLAG" -> 0.3 <= prob < 0.7).
Proof.
  intros l prob.
  assert (Hrisk : risk_level l = classify_risk prob)
    by apply risk_level_eq.
  assert (Hflag : flag_decision l = should_flag prob default_threshold)
    by apply flag_decision_eq.
  destruct (action_cases r) as [[Hc Ha] | [[Hc [Hf Ha]] | [Hc [Hf Ha]]]];
    fold l in Hc, Ha; try fold l in Hf.
  - repeat split; intros; try congruence.
  - rewrite Hflag in Hf. apply should_flag_true in Hf.
    unfold default_threshold in Hf.
    assert (Hlt : prob < 0.7).
    { apply Qnot_le_lt. intro Hge. apply classify_risk_critical in Hge.
      congruence. }
    repeat split; intros; try congruence; try assumption.
    rewrite Hrisk in H. level_bounds H. lra.
  - rewrite Hflag in Hf. apply should_flag_false in Hf.
    unfold default_threshold in Hf.
    repeat split; intros; try congruence; try assumption.
    rewrite Hrisk in H. level_bounds H. lra.
Qed.

Lemma action_matches_level_witness :
  risk_level (decide_locals Examples.four_alarms) = CRITICAL
  /\ local_fraud_probability (decide_locals (Examples.only_transaction 1))
     < 0.7.
Proof.
  split.
  - apply (proj1 (action_matches_level Examples.four_alarms)). reflexivity.
  - apply (action_matches_level (Examples.only_transaction 1)). reflexivity.
Defined.

End Levels.

(** ** Bounds of the aggregated probability *)

Section AggregationBounds.
Import Py Rewards Orchestrator.

Local Notation "'score' r k" := (dict_get (scores (decide_locals r)) k 0)
  (at level 10, r at level 9, k at level 9).

(** X4: the fraud probability of the decide phase lies in [[0, 1]]
    whatever the adapters report, and when the five component scores lie
    in [[0, 1]] it is the weighted score itself: the clamp changes
    nothing. *)
Theorem fraud_probability_range (r : AnalysisResults) :
  0 <= local_fraud_probability (decide_locals r) <= 1
  /\ ((forall k, 0 <= score r k <= 1) ->
      0 <= weighted_score (decide_locals r) <= 1
      /\ local_fraud_probability (decide_locals r)
         == weighted_score (decide_locals r)).
Proof.
  split; [rewrite local_fraud_probability_clamp; apply clamp_range|].
  intro H.
  assert (Hw : 0 <= weighted_score (decide_locals r) <= 1).
  { rewrite weighted_score_explicit.
    pose proof (H "transaction"). pose proof (H "document").
    pose proof (H "pattern"). pose proof (H "identity").
    pose proof (H "network"). lra. }
  split; [exact Hw|].
  rewrite local_fraud_probability_clamp. apply clamp_id, Hw.
Qed.

Lemma fraud_probability_range_witness :
  local_fraud_probability (decide_locals no_results)
  == weighted_score (decide_locals no_results).
Proof.
  apply (fraud_probability_range no_results).
  intro k. unfold decide_locals. cbn [scores]. unfold decide_scores.
  cbn [dict_get get no_results transaction_analysis document_analysis
       pattern_detection identity_verification network_analysis
       no_transaction_analysis no_document_analysis no_pattern_detection
       no_identity_verification no_network_analysis fraud_probability
       overall_authenticity_score combined_risk_score verification_score
       network_risk_score].
  repeat (match goal with
          | |- context [if ?b then _ else _] => destruct b
          end); split; discriminate.
Defined.

(** X5: a run without documents and without beneficiary data cannot be
    blocked: with the document and the identity results absent and the
    three other scores at most 1, the fraud probability is at most 0.65,
    below the Critical cutpoint, and the action is never BLOCK. *)
Theorem no_block_without_documents_and_identity (r : AnalysisResults) :
  document_analysis r = None ->
  identity_verification r = None ->
  score r "transaction" <= 1 ->
  score r "pattern" <= 1 ->
  score r "network" <= 1 ->
  local_fraud_probability (decide_locals r) <= 0.65
  /\ risk_level (decide_locals r) <> CRITICAL
  /\ action (decide_locals r) <> "BLOCK".
Proof.
  intros Hd Hi Ht Hp Hn.
  destruct (absent_scores r) as (_ & Hd0 & _ & Hi0 & _).
  specialize (Hd0 Hd). specialize (Hi0 Hi).
  assert (Hw : weighted_score (decide_locals r) <= 0.65)
    by (rewrite weighted_score_explicit; lra).
  assert (Hprob : local_fraud_probability (decide_locals r) <= 0.65).
  { rewrite local_fraud_probability_clamp.
    pose proof (min_le_l (max (weighted_score (decide_locals r)) 0) 1).
    assert (max (weighted_score (decide_locals r)) 0 <= 0.65)
      by (apply max_lub; lra).
    lra. }
  assert (Hrisk : risk_level (decide_locals r) <> CRITICAL).
  { intro Hc. rewrite risk_level_eq in Hc.
    apply classify_risk_critical in Hc. lra. }
  split; [exact Hprob|]. split; [exact Hrisk|].
  rewrite decide_locals_action, <- risk_level_eq.
  rewrite choose_action_not_critical by exact Hrisk.
  destruct (should_flag _ _); discriminate.
Qed.

Lemma no_block_without_documents_and_identity_witness :
  action (decide_locals (Examples.only_transaction 1)) <> "BLOCK".
Proof.
  apply (no_block_without_documents_and_identity
           (Examples.only_transaction 1));
    try reflexivity; vm_compute; discriminate.
Defined.

End AggregationBounds.

(** ** More on the key findings *)

Section KeyFindingsMore.
Import Py Orchestrator.

Local Notation "'rank'" := (fun f : Finding => severity_order (severity f)).

Lemma ring_is_collected (r : AnalysisResults) (na : NetworkAnalysis)
    (fr : FraudRings) (n : Q) :
  network_analysis r = Some na ->
  fraud_rings na = Some fr ->
  detected_count fr = Some n ->
  0 < n ->
  In {| source := "network";
        finding_type := "fraud_ring";
        severity := "critical";
        finding_description := "Cercle de fraude potentiel détecté" |}
     (collect_findings r).
Proof.
  intros Hna Hfr Hn Hpos. unfold collect_findings. cbv zeta.
  rewrite Hna. cbn [get]. rewrite Hfr. cbn [get]. rewrite Hn. cbn [get].
  apply gt_true in Hpos. rewrite Hpos.
  apply in_or_app. right. left. reflexivity.
Qed.

Lemma sorted_head_least {A : Type} (key : A -> nat) (x h : A) (t : list A) :
  StronglySorted (fun a b => (key a <= key b)%nat) (h :: t) ->
  In x (h :: t) -> (key h <= key x)%nat.
Proof.
  intros Hs Hin. inversion Hs as [|a l Hl Ha]; subst.
  destruct Hin as [-> | Hin]; [lia|].
  rewrite Forall_forall in Ha. apply Ha, Hin.
Qed.

(** X6: when the network analysis reports a fraud ring
    ([detected_count] above 0), the list of key findings is not empty and
    its first finding is of critical severity. *)
Theorem fraud_ring_heads_key_findings (r : AnalysisResults)
    (na : NetworkAnalysis) (fr : FraudRings) (n : Q) :
  network_analysis r = Some na ->
  fraud_rings na = Some fr ->
  detected_count fr = Some n ->
  0 < n ->
  exists f rest,
    _extract_key_findings r = f :: rest
    /\ severity_order (severity f) = 0%nat.
Proof.
  intros Hna Hfr Hn Hpos.
  pose proof (ring_is_collected r na fr n Hna Hfr Hn Hpos) as Hin.
  unfold _extract_key_findings. cbv zeta.
  pose proof (sort_perm rank (collect_findings r)) as Hperm.
  pose proof (sort_sorted rank (collect_findings r)) as Hsorted.
  apply (Permutation_in _ (Permutation_sym Hperm)) in Hin.
  destruct (sort rank (collect_findings r)) as [|h t]; [destruct Hin|].
  exists h, (firstn 9 t). split; [reflexivity|].
  pose proof (sorted_head_least rank _ h t Hsorted Hin) as Hle.
  cbn in Hle. lia.
Qed.

(** Three high transaction anomalies and one fraud ring. *)
Lemma fraud_ring_heads_key_findings_witness :
  exists f rest,
    _extract_key_findings
      {| transaction_analysis :=
           Some {| fraud_probability := Some 0.5;
                   anomalies :=
                     Some (repeat {| anomaly_type := Some "amount_spike";
                                     anomaly_severity := Some "high";
                                     anomaly_description := None |} 3) |};
         document_analysis := None;
         pattern_detection := None;
         identity_verification := None;
         network_analysis :=
           Some {| network_risk_score := Some 0.4;
                   fraud_rings := Some {| detected_count := Some 1 |} |} |}
    = f :: rest
    /\ severity_order (severity f) = 0%nat.
Proof.
  eapply fraud_ring_heads_key_findings; try reflexivity.
Defined.

(** X7: the key findings are cut at ten and at ten only: their number is
    the smaller of 10 and the number of merged findings, and when at most
    ten findings were merged, all of them are kept. *)
Theorem key_findings_length (r : AnalysisResults) :
  List.length (_extract_key_findings r)
  = Nat.min 10 (List.length (collect_findings r))
  /\ ((List.length (collect_findings r) <= 10)%nat ->
      Permutation (_extract_key_findings r) (collect_findings r)).
Proof.
  unfold _extract_key_findings. cbv zeta.
  pose proof (sort_perm rank (collect_findings r)) as Hperm.
  pose proof (Permutation_length Hperm) as Hlen.
  split.
  - rewrite length_firstn, Hlen. reflexivity.
  - intro Hle. rewrite firstn_all2 by lia. exact Hperm.
Qed.

Lemma key_findings_length_witness :
  Permutation (_extract_key_findings Examples.tied_findings)
              (collect_findings Examples.tied_findings).
Proof.
  apply (key_findings_length Examples.tied_findings). cbn. lia.
Defined.

End KeyFindingsMore.

(** ** The fraud tools *)

Section FraudToolsFacts.
Import Py Rewards FraudTools.

(** [detect_anomalies] either fails on the division by a zero average, or
    returns a result whose fields agree with its list of anomalies. *)
Lemma detect_anomalies_cases (fmt : Formatter) (t : Transaction)
    (stats : option HistoricalStats) :
  let avg :=
    if stats_truthy stats
    then match stats with
         | Some h => get (avg_amount h) 100
         | None => 100
         end
    else 100 in
  (gt (get (amount t) 0) (avg * 5) = true /\ Qeq_bool avg 0 = true
   /\ detect_anomalies fmt t stats = Raise ZeroDivisionError)
  \/ ((gt (get (amount t) 0) (avg * 5) = false \/ Qeq_bool avg 0 = false)
      /\ exists a,
           detect_anomalies fmt t stats = Ok a
           /\ anomaly_count a = List.length (anomalies a)
           /\ List.length (risk_factors a) = List.length (anomalies a)
           /\ (List.length (anomalies a) <= 4)%nat
           /\ overall_anomaly_score a == 0.2 * len (anomalies a)
           /\ Forall (fun x => anomaly_severity x = "high"
                               \/ anomaly_severity x = "medium")
                     (anomalies a)
           /\ existsb (fun x => (anomaly_type x =? "high_frequency")%string)
                      (anomalies a)
              = gt (get (claims_30d t) 0) 10).
Proof.
  intro avg. unfold detect_anomalies, truediv. fold avg.
  destruct (gt (get (amount t) 0) (avg * 5)) eqn:G;
    [destruct (Qeq_bool avg 0) eqn:E|].
  - left. repeat split.
  - right. split; [right; reflexivity|]. cbn [bind].
    destruct (gt (get (claims_30d t) 0) 10);
      destruct (gt (get (provider_risk_score t) 0) 0.5);
      destruct (lt (get (tenure_months t) 0) 3 && gt (get (amount t) 0) 500);
      eexists; (split; [reflexivity|]);
      cbn [anomaly_count anomalies risk_factors overall_anomaly_score app
           List.length];
      (split; [reflexivity|]); (split; [reflexivity|]); (split; [lia|]);
      (split; [reflexivity|]);
      (split;
       [repeat (apply Forall_cons;
                [first [left; reflexivity | right; reflexivity]|]);
        apply Forall_nil|]);
      reflexivity.
  - right. split; [left; reflexivity|]. cbn [bind].
    destruct (gt (get (claims_30d t) 0) 10);
      destruct (gt (get (provider_risk_score t) 0) 0.5);
      destruct (lt (get (tenure_months t) 0) 3 && gt (get (amount t) 0) 500);
      eexists; (split; [reflexivity|]);
      cbn [anomaly_count anomalies risk_factors overall_anomaly_score app
           List.length];
      (split; [reflexivity|]); (split; [reflexivity|]); (split; [lia|]);
      (split; [reflexivity|]);
      (split;
       [repeat (apply Forall_cons;
                [first [left; reflexivity | right; reflexivity]|]);
        apply Forall_nil|]);
      reflexivity.
Qed.

(** X9: a result of [detect_anomalies] holds at most four anomalies, as
    many risk factors as anomalies, the count of its anomalies, severities
    that are high or medium, and an overall score of 0.2 per anomaly,
    hence between 0 and 0.8. *)
Theorem detect_anomalies_invariants (fmt : Formatter) (t : Transaction)
    (stats : option HistoricalStats) (a : AnomalyResult) :
  detect_anomalies fmt t stats = Ok a ->
  anomaly_count a = List.length (anomalies a)
  /\ List.length (risk_factors a) = List.length (anomalies a)
  /\ (List.length (anomalies a) <= 4)%nat
  /\ overall_anomaly_score a == 0.2 * len (anomalies a)
  /\ 0 <= overall_anomaly_score a <= 0.8
  /\ Forall (fun x => anomaly_severity x = "high"
                      \/ anomaly_severity x = "medium")
            (anomalies a).
Proof.
  intro H.
  destruct (detect_anomalies_cases fmt t stats)
    as [(_ & _ & Hr) | (_ & a' & Ha & Hc & Hf & Hl & Hs & Hsev & _)].
  - rewrite Hr in H. discriminate H.
  - rewrite Ha in H. injection H as <-.
    split; [exact Hc|]. split; [exact Hf|]. split; [exact Hl|].
    split; [exact Hs|]. split; [|exact Hsev].
    rewrite Hs. unfold len.
    assert (H0 : 0 <= inject_Z (Z.of_nat (List.length (anomalies a')))).
    { replace 0 with (inject_Z 0) by reflexivity. rewrite <- Zle_Qle. lia. }
    assert (H4 : inject_Z (Z.of_nat (List.length (anomalies a'))) <= 4).
    { replace 4 with (inject_Z 4) by reflexivity. rewrite <- Zle_Qle. lia. }
    lra.
Qed.

Lemma detect_anomalies_invariants_witness :
  exists a,
    detect_anomalies Examples.plain_formatter Examples.suspicious_transaction
      None = Ok a
    /\ 0 <= overall_anomaly_score a <= 0.8.
Proof.
  eexists. split; [vm_compute; reflexivity|].
  apply (detect_anomalies_invariants Examples.plain_formatter
           Examples.suspicious_transaction None).
  vm_compute. reflexivity.
Defined.

Ltac pattern_cases t C A P :=
  unfold match_fraud_patterns, FRAUD_PATTERNS, match_pattern,
    indicator_matches;
  destruct (gt (get (claims_30d t) 0) 10) eqn:C;
  destruct (gt (get (amount t) 0) 1000) eqn:A;
  destruct (gt (get (provider_risk_score t) 0) 0.5) eqn:P;
  match goal with
  | |- context [fold_left ?f ?l ?a] =>
      let v := eval vm_compute in (fold_left f l a) in
      change (fold_left f l a) with v
  end;
  cbv iota beta;
  cbn [matched_patterns patterns_matched patterns_checked
       combined_pattern_score List.length].

(** X10: of the five patterns of the library only the first three can
    ever match; a matched pattern has a match strength between 0.5 and 1,
    and the combined pattern score lies in [[0, 1]]. *)
Theorem matched_patterns_bounds (t : Transaction) :
  let res := match_fraud_patterns t in
  Forall (fun m =>
            In (matched_id m) ["PATTERN_001"; "PATTERN_002"; "PATTERN_003"]
            /\ 0.5 <= match_strength m <= 1)
         (matched_patterns res)
  /\ (patterns_matched res <= 3)%nat
  /\ patterns_checked res = 5%nat
  /\ 0 <= combined_pattern_score res <= 1.
Proof.
  intro res. unfold res. clear res.
  pattern_cases t C A P.
  all: split;
    [repeat (apply Forall_cons;
             [split; [cbn; tauto | cbn [match_strength]; split; lra]|]);
     apply Forall_nil|].
  all: split; [lia|].
  all: split; [reflexivity|].
  all: split; [apply min_glb; lra|].
  all: match goal with
       | |- min ?x ?y <= _ => pose proof (min_le_r x y); lra
       end.
Qed.

(** X11: no pattern matches exactly when there are at most ten claims in
    30 days and the amount is at most 1000, whatever the provider risk
    score is; the combined pattern score is then 0.  An amount above 1000
    alone matches PATTERN_001 and PATTERN_003. *)
Theorem no_pattern_iff (t : Transaction) :
  let res := match_fraud_patterns t in
  (matched_patterns res = []
   <-> get (claims_30d t) 0 <= 10 /\ get (amount t) 0 <= 1000)
  /\ (matched_patterns res = [] -> combined_pattern_score res == 0)
  /\ (1000 < get (amount t) 0 ->
      existsb (fun m => (matched_id m =? "PATTERN_001")%string)
              (matched_patterns res) = true
      /\ existsb (fun m => (matched_id m =? "PATTERN_003")%string)
                 (matched_patterns res) = true).
Proof.
  intro res. unfold res. clear res.
  pattern_cases t C A P.
  all: try apply gt_true in C; try apply gt_false in C.
  all: try apply gt_true in A; try apply gt_false in A.
  all: split; [split; [try discriminate; intros _; split; assumption|]|].
  all: try (intros [Hc Ha]; exfalso; lra).
  all: try (intros _; reflexivity).
  all: split; [try discriminate; intros _; reflexivity|].
  all: intro Hgt; try (exfalso; lra); split; reflexivity.
Qed.

Lemma no_pattern_iff_witness :
  matched_patterns
    (match_fraud_patterns
       (Examples.transaction_of (Some 900) (Some 3) (Some 0.9) None None))
  = []
  /\ existsb (fun m => (matched_id m =? "PATTERN_001")%string)
             (matched_patterns
                (match_fraud_patterns
                   (Examples.transaction_of (Some 1200) None None None None)))
     = true.
Proof.
  split.
  - apply (proj1 (no_pattern_iff
                    (Examples.transaction_of (Some 900) (Some 3) (Some 0.9)
                       None None))).
    split; cbn; lra.
  - apply (proj2 (proj2 (no_pattern_iff
                           (Examples.transaction_of (Some 1200) None None
                              None None)))).
    cbn. lra.
Defined.

End FraudToolsFacts.

(** ** More on [score_transaction] *)

Section ScoringMore.
Import Py Rewards FraudTools.

Lemma score_transaction_shape (fmt : Formatter) (t : Transaction)
    (e : option (list Q)) (r : Score) :
  score_transaction fmt t e = Ok r ->
  exists c,
    fraud_probability r = round (min (max c 0) 1) 4
    /\ confidence r = round (1 - Qabs (min (max c 0) 1 - 0.5) * 2) 4
    /\ recommended_action r
       = (if should_flag (min (max c 0) 1) default_threshold
          then "FLAG" else "PASS")
    /\ risk_level r = value (classify_risk (min (max c 0) 1)).
Proof.
  unfold score_transaction.
  destruct (detect_anomalies_no_stats fmt t) as [a Ha]. rewrite Ha.
  cbn [bind]. intro H. injection H as <-.
  cbn [fraud_probability confidence recommended_action risk_level].
  eexists. repeat split; reflexivity.
Qed.

(** X12: what [score_transaction] reports is consistent: a FLAG comes
    with a reported probability of at least 0.3 and a PASS with one of at
    most 0.3; the level critical comes with at least 0.7 and a FLAG, the
    level low with at most 0.2 and a PASS. *)
Theorem score_transaction_consistent (fmt : Formatter) (t : Transaction)
    (e : option (list Q)) (r : Score) :
  score_transaction fmt t e = Ok r ->
  (recommended_action r = "FLAG" -> 0.3 <= fraud_probability r)
  /\ (recommended_action r = "PASS" -> fraud_probability r <= 0.3)
  /\ (risk_level r = "critical" ->
      0.7 <= fraud_probability r /\ recommended_action r = "FLAG")
  /\ (risk_level r = "low" ->
      fraud_probability r <= 0.2 /\ recommended_action r = "PASS").
Proof.
  intro H. destruct (score_transaction_shape fmt t e r H)
    as (c & Hp & _ & Ha & Hl).
  set (p := min (max c 0) 1) in *.
  assert (R3 : round 0.3 4 == 0.3) by reflexivity.
  assert (R7 : round 0.7 4 == 0.7) by reflexivity.
  assert (R2 : round 0.2 4 == 0.2) by reflexivity.
  rewrite Hp, Ha, Hl.
  split; [|split; [|split]].
  - destruct (should_flag p default_threshold) eqn:F; [|discriminate].
    intros _. apply should_flag_true in F. unfold default_threshold in F.
    rewrite <- R3. apply round_mono, F.
  - destruct (should_flag p default_threshold) eqn:F; [discriminate|].
    intros _. apply should_flag_false in F. unfold default_threshold in F.
    rewrite <- R3. apply round_mono. lra.
  - destruct (classify_risk p) eqn:L; try discriminate.
    intros _. apply classify_risk_critical in L. split.
    + rewrite <- R7. apply round_mono, L.
    + assert (F : should_flag p default_threshold = true)
        by (apply should_flag_true; unfold default_threshold; lra).
      rewrite F. reflexivity.
  - destruct (classify_risk p) eqn:L; try discriminate.
    intros _. apply classify_risk_low in L. split.
    + rewrite <- R2. apply round_mono. lra.
    + assert (F : should_flag p default_threshold = false)
        by (apply should_flag_false; unfold default_threshold; lra).
      rewrite F. reflexivity.
Qed.

Lemma score_transaction_consistent_witness :
  exists r,
    score_transaction Examples.plain_formatter
      Examples.suspicious_transaction None = Ok r
    /\ 0.7 <= fraud_probability r.
Proof.
  eexists. split; [vm_compute; reflexivity|].
  apply (score_transaction_consistent Examples.plain_formatter
           Examples.suspicious_transaction None);
    vm_compute; reflexivity.
Defined.

(** X14: a transaction with at most ten claims in 30 days, an amount of
    at most 500 and a provider risk score of at most 0.5 raises no
    anomaly and matches no pattern; [score_transaction] reports it with a
    probability of at most 0.06, at the level low, with the action
    PASS. *)
Theorem quiet_transaction_passes (fmt : Formatter) (t : Transaction)
    (e : option (list Q)) :
  get (claims_30d t) 0 <= 10 ->
  get (amount t) 0 <= 500 ->
  get (provider_risk_score t) 0 <= 0.5 ->
  exists r,
    score_transaction fmt t e = Ok r
    /\ recommended_action r = "PASS"
    /\ risk_level r = "low"
    /\ fraud_probability r <= 0.06
    /\ score_anomalies r = []
    /\ score_matched_patterns r = [].
Proof.
  intros Hc Ha Hp.
  assert (C : gt (get (claims_30d t) 0) 10 = false)
    by (apply gt_false; lra).
  assert (A5 : gt (get (amount t) 0) (100 * 5) = false)
    by (apply gt_false; lra).
  assert (A500 : gt (get (amount t) 0) 500 = false)
    by (apply gt_false; lra).
  assert (A : gt (get (amount t) 0) 1000 = false)
    by (apply gt_false; lra).
  assert (P : gt (get (provider_risk_score t) 0) 0.5 = false)
    by (apply gt_false; lra).
  unfold score_transaction, detect_anomalies. cbn [stats_truthy].
  rewrite A5, C, P, A500, andb_false_r. cbn [bind].
  unfold match_fraud_patterns, FRAUD_PATTERNS, match_pattern,
    indicator_matches.
  rewrite C, A, P.
  match goal with
  | |- context [fold_left ?f ?l ?a] =>
      let v := eval vm_compute in (fold_left f l a) in
      change (fold_left f l a) with v
  end.
  cbv iota beta.
  cbn [overall_anomaly_score combined_pattern_score anomalies
       matched_patterns].
  eexists. split; [reflexivity|].
  cbn [recommended_action risk_level fraud_probability score_anomalies
       score_matched_patterns].
  change (min (len (@nil Anomaly) * 0.2) 1.0) with (0 # 10).
  change (min 0.0 1.0) with 0.0.
  set (af := min (get (amount t) 0 / 5000) 1.0).
  assert (Haf : af <= 0.1).
  { pose proof (min_le_l (get (amount t) 0 / 5000) 1.0) as Hm.
    fold af in Hm.
    assert (get (amount t) 0 / 5000 <= 0.1)
      by (apply Qle_shift_div_r; lra).
    lra. }
  set (c := 0.3 * (0 # 10) + 0.4 * 0.0 + 0.2 * af * 0.5
            + 0.1 * get (provider_risk_score t) 0).
  assert (Hcl : c <= 0.06) by (unfold c; lra).
  assert (Hclamp : min (max c 0) 1 <= 0.06).
  { pose proof (min_le_l (max c 0) 1).
    assert (max c 0 <= 0.06) by (apply max_lub; lra).
    lra. }
  assert (Hflag : should_flag (min (max c 0) 1) default_threshold = false)
    by (apply should_flag_false; unfold default_threshold; lra).
  assert (Hlow : classify_risk (min (max c 0) 1) = LOW)
    by (apply classify_risk_low; lra).
  rewrite Hflag, Hlow.
  repeat split; try reflexivity.
  assert (H6 : round 0.06 4 == 0.06) by reflexivity.
  rewrite <- H6. apply round_mono, Hclamp.
Qed.

Lemma quiet_transaction_passes_witness :
  exists r,
    score_transaction Examples.plain_formatter
      (Examples.transaction_of (Some 120) (Some 2) (Some 0.1) (Some 24) None)
      None = Ok r
    /\ recommended_action r = "PASS".
Proof.
  destruct (quiet_transaction_passes Examples.plain_formatter
              (Examples.transaction_of (Some 120) (Some 2) (Some 0.1)
                 (Some 24) None) None) as (r & H & Hr & _).
  - cbn. lra.
  - cbn. lra.
  - cbn. lra.
  - exists r. split; assumption.
Defined.

End ScoringMore.

(** ** More on the scoring functions, on floats *)

Section FloatToolsMore.
Import Py Rewards PyFloat FloatTools.

(** X13: for a well-formed transaction, the probability and the
    confidence that [score_transaction] reports are both NaN when the
    amount or the provider risk score is NaN, or when the amount is minus
    infinity and the provider risk score plus infinity; in every other
    case both are numbers of [[0, 1]]. *)
Theorem score_transaction_confidence_range (fmt : Formatter)
    (t : Transaction) (e : option (list Q)) (r : Score) :
  well_formed t ->
  score_transaction fmt t e = Ok r ->
  let amount := get (amount t) (Fin 0) in
  let provider_risk := get (provider_risk_score t) (Fin 0) in
  let undefined :=
    amount = NaN \/ provider_risk = NaN
    \/ (amount = NegInf /\ provider_risk = PosInf) in
  (undefined -> fraud_probability r = NaN /\ confidence r = NaN)
  /\ (~ undefined ->
      exists p c,
        fraud_probability r = Fin p /\ confidence r = Fin c
        /\ 0 <= p <= 1 /\ 0 <= c <= 1).
Proof.
  intros Hwf Hr amount provider_risk undefined.
  destruct (float_score_cases fmt t e Hwf) as (r' & Hr' & H).
  rewrite Hr in Hr'. injection Hr' as <-.
  fold amount provider_risk in H. unfold undefined. clear undefined.
  destruct amount as [x| | |]; destruct provider_risk as [y| | |]; split;
    first
      [ intros _;
        match type of H with
        | _ /\ _ => split; [apply H | apply (proj1 (proj2 H))]
        | _ => exact H
        end
      | intros [E | [E | [E1 E2]]]; discriminate
      | intro Hn; exfalso; apply Hn; tauto ].
Qed.

Lemma score_transaction_confidence_range_witness :
  exists r p c,
    score_transaction FloatExamples.plain_formatter
      (FloatExamples.transaction_of (Some (Fin 5000)) (Some PosInf)) None
    = Ok r
    /\ fraud_probability r = Fin p /\ confidence r = Fin c
    /\ 0 <= p <= 1 /\ 0 <= c <= 1.
Proof.
  assert (Hwf : well_formed
                  (FloatExamples.transaction_of (Some (Fin 5000))
                     (Some PosInf))).
  { pose proof max_float_large. repeat split; cbn; lra. }
  destruct (float_score_cases FloatExamples.plain_formatter _ None Hwf)
    as (r & Hr & _).
  destruct (proj2 (score_transaction_confidence_range
                     FloatExamples.plain_formatter _ None r Hwf Hr))
    as (p & c & H).
  { intros [E | [E | [E _]]]; discriminate E. }
  exists r, p, c. split; [exact Hr | exact H].
Defined.

Lemma gt_zero_average (x avg : float) :
  is_zero avg = true -> gt x (avg * Fin 5)%float = gt x (Fin 0).
Proof.
  destruct avg as [b| | |]; cbn [is_zero]; try discriminate.
  intro E. apply Qeq_bool_eq in E.
  rewrite mul_fin by (pose proof max_float_large; split; lra).
  destruct x as [a| | |]; try reflexivity.
  unfold gt. cbn [lt].
  destruct (Py.lt (b * 5) a) eqn:L1; destruct (Py.lt 0 a) eqn:L2;
    try reflexivity; exfalso;
    first [apply lt_true in L1 | apply lt_false in L1];
    first [apply lt_true in L2 | apply lt_false in L2]; lra.
Qed.

(** X8: for a well-formed transaction and a representable average,
    [detect_anomalies] raises exactly when the average amount it uses is
    zero and the amount is greater than zero; the exception is then a
    [ZeroDivisionError].  Without historical statistics it returns. *)
Theorem detect_anomalies_raises_iff (fmt : Formatter) (t : Transaction)
    (stats : option HistoricalStats) :
  let avg :=
    if stats_truthy stats
    then match stats with
         | Some h => get (avg_amount h) (Fin 100)
         | None => Fin 100
         end
    else Fin 100 in
  well_formed t -> representable avg ->
  ((exists e, detect_anomalies fmt t stats = Raise e)
   <-> (is_zero avg = true /\ gt (get (amount t) (Fin 0)) (Fin 0) = true))
  /\ (forall e, detect_anomalies fmt t stats = Raise e ->
                exn_class e = "ZeroDivisionError")
  /\ (stats = None -> exists a, detect_anomalies fmt t stats = Ok a).
Proof.
  intros avg _ _.
  destruct (float_detect_anomalies_cases fmt t stats)
    as [(G & E & H) | (G & a & s & H & _)]; fold avg in G; try fold avg in E.
  - rewrite (gt_zero_average _ _ E) in G.
    split; [|split].
    + split; [intros _; split; assumption|].
      intros _. exists ZeroDivisionError. exact H.
    + intros e He. rewrite H in He. injection He as <-. reflexivity.
    + intros ->. cbn in avg. unfold avg in E. vm_compute in E.
      discriminate E.
  - split; [|split].
    + split; [intros [e He]; rewrite H in He; discriminate He|].
      intros [E Hpos]. exfalso. destruct G as [G | G].
      * rewrite (gt_zero_average _ _ E) in G. congruence.
      * congruence.
    + intros e He. rewrite H in He. discriminate He.
    + intros _. exists a. exact H.
Qed.

Lemma detect_anomalies_raises_iff_witness :
  exists e,
    detect_anomalies FloatExamples.plain_formatter
      (FloatExamples.transaction_of (Some PosInf) None)
      (Some FloatExamples.zero_average)
    = Raise e.
Proof.
  apply (proj1 (detect_anomalies_raises_iff FloatExamples.plain_formatter
                  (FloatExamples.transaction_of (Some PosInf) None)
                  (Some FloatExamples.zero_average)
                  ltac:(repeat split)
                  ltac:(cbn; pose proof max_float_large; lra))).
  split; reflexivity.
Defined.

End FloatToolsMore.

(** ** The empty batch *)

Section EmptyBatch.
Import Py Rewards FraudTools Orchestrator.

Variables Document Report : Type.
Variable fmt : Formatter.
Variable default_case_id : string.
Variable agents : SubAgents Document Report.

(** X15: the batch workflow on a request without transactions (the key
    absent, or an empty list) succeeds: it reports zero transactions
    processed, zero flagged, zero passed and an average probability of 0,
    without dividing by the number of results. *)
Theorem empty_batch_reports_zeros (self : FraudOrchestratorAgent)
    (request : Request Document) :
  get (request_transactions request) [] = [] ->
  batch_analyze (transaction_analyst self) fmt [] 
    {| context_transaction_id := get (request_transaction_id request) "";
       context_case_id := get (request_case_id request) default_case_id |}
  = Ok {| batch_status := "success";
          transactions_analyzed := 0;
          flagged_count := 0;
          pass_count := 0;
          average_fraud_probability := 0;
          results := [] |}
  /\ process fmt default_case_id agents self request BATCH
     = BatchDone {| batch_response_status := "success";
                    batch_workflow := "batch";
                    transactions_processed := 0;
                    batch_flagged_count := 0;
                    batch_pass_count := 0;
                    batch_average_fraud_probability := 0;
                    batch_results := [] |}.
Proof.
  intro H. split; [reflexivity|].
  unfold process, _batch_workflow. cbv zeta. rewrite H. reflexivity.
Qed.

End EmptyBatch.

Section EmptyBatchSample.
Import Py Orchestrator.

Lemma empty_batch_reports_zeros_witness :
  status (process Examples.plain_formatter "CASE-0" Examples.agents
            create_orchestrator
            (Examples.request_of Examples.suspicious_transaction [] [])
            BATCH)
  = "success".
Proof.
  rewrite (proj2 (empty_batch_reports_zeros string string
                    Examples.plain_formatter "CASE-0" Examples.agents
                    create_orchestrator
                    (Examples.request_of Examples.suspicious_transaction
                       [] [])
                    eq_refl)).
  reflexivity.
Defined.

End EmptyBatchSample.

(** ** The reward matrix and the routing rules *)

Section RewardMatrixFacts.
Import Py Rewards RewardMatrix.

(** X16: [get_reward] never reaches its [ValueError]: for each action
    and outcome it returns the entry of [get_reward_matrix] at the names
    of the action and of the outcome. *)
Theorem get_reward_matches_matrix (self : RewardConfig) (a : Action)
    (o : Outcome) :
  exists v,
    get_reward self a o = Ok v
    /\ Py.bind (item (get_reward_matrix self) (action_name a))
               (fun row => item row (outcome_name o))
       = Ok v.
Proof.
  destruct a, o; eexists; split; reflexivity.
Qed.

(** X17: [cost_ratio] raises a [ZeroDivisionError] exactly when the false
    positive penalty is 0; otherwise it is the non-negative ratio of the
    magnitudes of the two penalties, 10 for the default matrix. *)
Theorem cost_ratio_spec (self : RewardConfig) :
  (false_positive_penalty self == 0 ->
   cost_ratio self = Raise ZeroDivisionError)
  /\ (~ false_positive_penalty self == 0 ->
      exists v,
        cost_ratio self = Ok v
        /\ 0 <= v
        /\ v * Qabs (false_positive_penalty self)
           == Qabs (false_negative_penalty self))
  /\ (exists v, cost_ratio REWARD_CONFIG = Ok v /\ v == 10).
Proof.
  split; [|split].
  - intro H. unfold cost_ratio, truediv.
    apply Qeq_eq_bool in H. rewrite H. reflexivity.
  - intro H. unfold cost_ratio, truediv.
    destruct (Qeq_bool (false_positive_penalty self) 0) eqn:E;
      [apply Qeq_bool_eq in E; contradiction|].
    cbn [bind]. eexists. split; [reflexivity|].
    split; [apply Qabs_nonneg|].
    rewrite <- Qabs_Qmult. apply Qabs_wd. field. exact H.
  - eexists. split; reflexivity.
Qed.

Lemma cost_ratio_spec_witness :
  cost_ratio {| true_positive_reward := 10;
                true_negative_reward := 1;
                false_positive_penalty := 0;
                false_negative_penalty := -50;
                discount_factor := 0.99 |}
  = Raise ZeroDivisionError.
Proof.
  apply (proj1 (cost_ratio_spec
                  {| true_positive_reward := 10;
                     true_negative_reward := 1;
                     false_positive_penalty := 0;
                     false_negative_penalty := -50;
                     discount_factor := 0.99 |})).
  reflexivity.
Defined.

(** X18: [classify_risk_level] always finds a routing rule, so the
    default action [manual_review] never shows: the action is
    [block_immediate] from 0.7 on, [flag_review] in [[0.2, 0.7)] and
    [auto_approve] below 0.2; only scores from 0.7 on escalate, and only
    scores below 0.2 have no queue. *)
Theorem routing_by_score (score : Q) :
  let c := classify_risk_level score in
  (classification_action c = "block_immediate" <-> 0.7 <= score)
  /\ (classification_action c = "flag_review" <-> 0.2 <= score < 0.7)
  /\ (classification_action c = "auto_approve" <-> score < 0.2)
  /\ classification_action c <> "manual_review"
  /\ (classification_auto_escalate c = true <-> 0.7 <= score)
  /\ (classification_queue c = None <-> score < 0.2).
Proof.
  intro c. unfold c, classify_risk_level. cbv zeta.
  destruct (classify_risk score) eqn:L;
    cbn [routing_get ROUTING_RULES RiskLevel_eqb classification_action
         classification_auto_escalate classification_queue rule_action
         rule_auto_escalate rule_queue];
    first [ apply classify_risk_low in L
          | apply classify_risk_medium in L
          | apply classify_risk_high in L
          | apply classify_risk_critical in L ];
    repeat split; intros; try discriminate; try reflexivity; try lra.
Qed.

Lemma routing_by_score_witness :
  classification_action (classify_risk_level 0.85) = "block_immediate"
  /\ classification_action (classify_risk_level 0.25) = "flag_review"
  /\ classification_queue (classify_risk_level 0.1) = None.
Proof.
  split; [|split].
  - apply (routing_by_score 0.85). lra.
  - apply (routing_by_score 0.25). lra.
  - apply (routing_by_score 0.1). lra.
Defined.

End RewardMatrixFacts.

(** ** The reward calculator of [rl/reward.py] *)

Section RewardCalculatorFacts.
Import Py Rewards RLReward.

(** X19: the calculator built without a configuration rewards a
    prediction as [RewardConfig.get_reward] of the default matrix rewards
    the matching action (FLAG for a predicted fraud, PASS otherwise) and
    outcome. *)
Theorem calculate_reward_matches_matrix (predicted actual : bool) :
  RewardMatrix.get_reward REWARD_CONFIG
    (if predicted then RewardMatrix.FLAG else RewardMatrix.PASS)
    (if actual then RewardMatrix.FRAUD else RewardMatrix.LEGITIMATE)
  = Ok (fst (calculate_reward (new None) predicted actual)).
Proof. destruct predicted, actual; reflexivity. Qed.

Lemma Qabs_eq_zero (x : Q) : Qabs x == 0 -> x == 0.
Proof.
  intro H. pose proof (Qle_Qabs x). pose proof (Qle_Qabs (- x)) as Hn.
  pose proof (Qabs_opp x). lra.
Qed.

(** X20: [calculate_optimal_threshold] raises a [ZeroDivisionError]
    exactly when both penalties are 0; otherwise its value lies in
    [[0, 1]], and it is 1/11 for the default matrix. *)
Theorem optimal_threshold_spec (self : RewardCalculator) :
  (false_positive (config self) == 0 /\ false_negative (config self) == 0 ->
   calculate_optimal_threshold self = Raise ZeroDivisionError)
  /\ (~ (false_positive (config self) == 0
         /\ false_negative (config self) == 0) ->
      exists v, calculate_optimal_threshold self = Ok v /\ 0 <= v <= 1)
  /\ (exists v, calculate_optimal_threshold (new None) = Ok v /\ v == 1 # 11).
Proof.
  unfold calculate_optimal_threshold, truediv. cbv zeta.
  pose proof (Qabs_nonneg (false_positive (config self))) as Hp.
  pose proof (Qabs_nonneg (false_negative (config self))) as Hn.
  split; [|split].
  - intros [Hfp Hfn].
    assert (Hz : Qabs (false_positive (config self))
                 + Qabs (false_negative (config self)) == 0).
    { rewrite Hfp, Hfn. reflexivity. }
    apply Qeq_eq_bool in Hz. rewrite Hz. reflexivity.
  - intro Hnz.
    destruct (Qeq_bool (Qabs (false_positive (config self))
                        + Qabs (false_negative (config self))) 0) eqn:E.
    + exfalso. apply Hnz. apply Qeq_bool_eq in E.
      split; apply Qabs_eq_zero; lra.
    + apply Qeq_bool_neq in E. eexists. split; [reflexivity|].
      split.
      * apply Qle_shift_div_l; lra.
      * apply Qle_shift_div_r; lra.
  - eexists. split; reflexivity.
Qed.

Lemma optimal_threshold_spec_witness :
  calculate_optimal_threshold
    (new (Some {| true_positive := 10; true_negative := 1;
                  false_positive := 0; false_negative := 0 |}))
  = Raise ZeroDivisionError.
Proof.
  apply (proj1 (optimal_threshold_spec
                  (new (Some {| true_positive := 10; true_negative := 1;
                                false_positive := 0;
                                false_negative := 0 |})))).
  split; reflexivity.
Defined.

(** X21: under the default matrix, flagging has an expected reward at
    least that of passing exactly from the probability 1/11 on; so for a
    probability between 1/11 and the flag threshold 0.3 [should_flag]
    answers no although flagging has the strictly higher expected reward.
    The expected reward of the transaction analyst is the calculator's. *)
Theorem flag_pays_from_one_eleventh (p : Q) (decision : bool) :
  (calculate_expected_reward (new None) p false
   <= calculate_expected_reward (new None) p true
   <-> 1 # 11 <= p)
  /\ (1 # 11 < p < 0.3 ->
      should_flag p default_threshold = false
      /\ calculate_expected_reward (new None) p false
         < calculate_expected_reward (new None) p true)
  /\ TransactionAnalyst._calculate_expected_reward
       TransactionAnalyst.create_agent p decision
     = Ok (calculate_expected_reward (new None) p decision).
Proof.
  unfold calculate_expected_reward, new.
  cbn [config true_positive true_negative false_positive false_negative
       true_positive_reward true_negative_reward false_positive_penalty
       false_negative_penalty REWARD_CONFIG REWARD_MATRIX].
  split; [|split].
  - split; intro H; lra.
  - intros [H1 H3]. split; [|lra].
    apply should_flag_false. unfold default_threshold. exact H3.
  - destruct decision; reflexivity.
Qed.

Lemma flag_pays_from_one_eleventh_witness :
  should_flag 0.2 default_threshold = false
  /\ calculate_expected_reward (new None) 0.2 false
     < calculate_expected_reward (new None) 0.2 true.
Proof.
  apply (flag_pays_from_one_eleventh 0.2 true). split; reflexivity.
Defined.

Local Notation "'worth' self c" :=
  (num (count_tp c) * true_positive (config self)
   + num (count_tn c) * true_negative (config self)
   + num (count_fp c) * false_positive (config self)
   + num (count_fn c) * false_negative (config self))
  (at level 10, self at level 9, c at level 9).

Lemma num_S (n : nat) : num (S n) == num n + 1.
Proof.
  unfold num. rewrite Nat2Z.inj_succ. unfold Z.succ.
  rewrite inject_Z_plus. reflexivity.
Qed.

Lemma num_nonneg (n : nat) : 0 <= num n.
Proof.
  unfold num. replace 0 with (inject_Z 0) by reflexivity.
  rewrite <- Zle_Qle. lia.
Qed.

Lemma num_plus (n m : nat) : num (n + m) == num n + num m.
Proof. unfold num. rewrite Nat2Z.inj_add, inject_Z_plus. reflexivity. Qed.

Lemma num_pos (n : nat) : (0 < n)%nat -> 0 < num n.
Proof.
  intro H. unfold num. replace 0 with (inject_Z 0) by reflexivity.
  rewrite <- Zlt_Qlt. lia.
Qed.

(** The loop of [get_batch_statistics] counts each pair once and adds to
    the total the reward of what it counts. *)
Lemma batch_fold (self : RewardCalculator) (outcomes : list (bool * bool))
    (c0 : Counts) (r0 : Q) :
  let out := fold_left (batch_step self) outcomes (c0, r0) in
  (count_tp (fst out) + count_tn (fst out) + count_fp (fst out)
   + count_fn (fst out)
   = count_tp c0 + count_tn c0 + count_fp c0 + count_fn c0
     + List.length outcomes)%nat
  /\ snd out - worth self (fst out) == r0 - worth self c0.
Proof.
  revert c0 r0. induction outcomes as [|[p a] l IH]; intros c0 r0.
  - cbn. split; [lia | reflexivity].
  - cbn [fold_left].
    specialize (IH (fst (batch_step self (c0, r0) (p, a)))
                   (snd (batch_step self (c0, r0) (p, a)))).
    rewrite <- surjective_pairing in IH. cbv zeta in IH.
    destruct IH as [IHn IHr]. cbv zeta. split.
    + rewrite IHn. destruct p, a; cbn; lia.
    + rewrite IHr.
      destruct p, a;
        cbn [batch_step calculate_reward andb negb fst snd get_reward
             increment count_tp count_tn count_fp count_fn];
        rewrite num_S; ring.
Qed.

Lemma ratio_unit (a b : nat) :
  (0 < a + b)%nat -> 0 <= num a / num (a + b) <= 1.
Proof.
  intro H. pose proof (num_pos _ H) as Hp.
  pose proof (num_nonneg a). pose proof (num_nonneg b).
  rewrite num_plus in *. split.
  - apply Qle_shift_div_l; lra.
  - apply Qle_shift_div_r; lra.
Qed.

Lemma guarded_ratio_unit (a b : nat) :
  0 <= (if (0 <? a + b)%nat then num a / num (a + b) else 0) <= 1.
Proof.
  destruct (0 <? a + b)%nat eqn:E.
  - apply Nat.ltb_lt in E. apply ratio_unit, E.
  - split; discriminate.
Qed.

Lemma f1_unit (p r : Q) :
  0 <= p <= 1 -> 0 <= r <= 1 ->
  0 <= (if gt (p + r) 0 then 2 * p * r / (p + r) else 0) <= 1.
Proof.
  intros [Hp0 Hp1] [Hr0 Hr1].
  destruct (gt (p + r) 0) eqn:G; [|split; discriminate].
  apply gt_true in G.
  assert (H0 : 0 <= p * r) by (apply Qmult_le_0_compat; assumption).
  assert (H1 : p * r <= p * 1)
    by (rewrite !(Qmult_comm p); apply Qmult_le_compat_r; assumption).
  assert (H2 : p * r <= 1 * r) by (apply Qmult_le_compat_r; assumption).
  split.
  - apply Qle_shift_div_l; lra.
  - apply Qle_shift_div_r; lra.
Qed.

(** X22: in the statistics of a batch the four counts add up to the
    total, which is the number of pairs; the total reward is the sum over
    the four outcomes of count times reward; and precision, recall, F1
    and accuracy all lie in [[0, 1]], the empty batch included. *)
Theorem batch_statistics_invariants (self : RewardCalculator)
    (outcomes : list (bool * bool)) :
  let s := get_batch_statistics self outcomes in
  total s = List.length outcomes
  /\ (count_tp (counts s) + count_tn (counts s) + count_fp (counts s)
      + count_fn (counts s) = total s)%nat
  /\ total_reward s == worth self (counts s)
  /\ 0 <= precision (metrics s) <= 1
  /\ 0 <= recall (metrics s) <= 1
  /\ 0 <= f1_score (metrics s) <= 1
  /\ 0 <= accuracy (metrics s) <= 1.
Proof.
  unfold get_batch_statistics.
  pose proof (batch_fold self outcomes
                {| count_tp := 0; count_tn := 0; count_fp := 0;
                   count_fn := 0 |} 0.0) as Hfold.
  cbv zeta in Hfold.
  destruct (fold_left (batch_step self) outcomes
              ({| count_tp := 0; count_tn := 0; count_fp := 0;
                  count_fn := 0 |}, 0.0)) as [c r].
  cbn [fst snd count_tp count_tn count_fp count_fn] in Hfold.
  destruct Hfold as [Hn Hr].
  cbv zeta.
  cbn [total counts total_reward metrics precision recall f1_score accuracy].
  split; [reflexivity|]. split; [lia|].
  split.
  { change (num 0) with 0 in Hr. lra. }
  split; [apply guarded_ratio_unit|].
  split; [apply guarded_ratio_unit|].
  split; [apply f1_unit; apply guarded_ratio_unit|].
  assert (Hlen : List.length outcomes
                 = (count_tp c + count_tn c + (count_fp c + count_fn c))%nat)
    by lia.
  rewrite Hlen.
  destruct (0 <? count_tp c + count_tn c + (count_fp c + count_fn c))%nat
    eqn:E; [|split; discriminate].
  apply Nat.ltb_lt in E.
  pose proof (num_pos _ E) as Hpos.
  pose proof (num_nonneg (count_tp c + count_tn c)).
  pose proof (num_nonneg (count_fp c + count_fn c)).
  rewrite (num_plus (count_tp c + count_tn c)) in *. split.
  - apply Qle_shift_div_l; lra.
  - apply Qle_shift_div_r; lra.
Qed.

End RewardCalculatorFacts.

(** ** [aggregate_scores] *)

Section AggregateScores.
Import Py Orchestrator BaseAgent.

Local Notation "'good' acc" := (0 <= fst acc /\ fst acc <= snd acc)
  (at level 10, acc at level 9).

Lemma add_item_good (weights : dict) (acc : Q * Q) (kv : string * Q) :
  (forall k, 0 <= dict_get weights k 0) ->
  good acc -> 0 <= snd kv <= 1 -> good (add_item weights acc kv).
Proof.
  intros Hw [H0 H1] [Hv0 Hv1]. destruct acc as [ws w], kv as [k v].
  unfold add_item. cbn [fst snd] in *.
  destruct (has_key weights k); [|split; assumption].
  pose proof (Hw k) as Hk. split; cbn [fst snd].
  - assert (0 <= v * dict_get weights k 0)
      by (apply Qmult_le_0_compat; assumption).
    lra.
  - assert (v * dict_get weights k 0 <= 1 * dict_get weights k 0)
      by (apply Qmult_le_compat_r; assumption).
    lra.
Qed.

Lemma inner_good (weights : dict) (d : dict) (acc : Q * Q) :
  (forall k, 0 <= dict_get weights k 0) ->
  good acc -> Forall (fun kv => 0 <= snd kv <= 1) d ->
  good (fold_left (add_item weights) d acc).
Proof.
  intros Hw Ha Hd. revert acc Ha.
  induction Hd as [|kv d Hkv Hd IH]; intros acc Ha.
  - exact Ha.
  - cbn [fold_left]. apply IH. apply add_item_good; assumption.
Qed.

Lemma outer_good (weights : dict) (scores : list dict) (acc : Q * Q) :
  (forall k, 0 <= dict_get weights k 0) ->
  good acc -> Forall (Forall (fun kv => 0 <= snd kv <= 1)) scores ->
  good (fold_left (fun acc score_dict =>
                     fold_left (add_item weights) score_dict acc)
                  scores acc).
Proof.
  intros Hw Ha Hs. revert acc Ha.
  induction Hs as [|d l Hd Hl IH]; intros acc Ha.
  - exact Ha.
  - cbn [fold_left]. apply IH. apply inner_good; assumption.
Qed.

Lemma sum_from (l : list Q) (a : Q) : fold_left Qplus l a == a + sum l.
Proof.
  unfold sum. revert a. induction l as [|x l IH]; intro a; cbn [fold_left].
  - ring.
  - rewrite IH. rewrite (IH (0 + x)). ring.
Qed.

Lemma sum_bounds (l : list Q) :
  Forall (fun x => 0 <= x <= 1) l -> 0 <= sum l <= FraudTools.len l.
Proof.
  intro H. induction H as [|x l Hx Hl IH].
  - cbn. split; discriminate.
  - unfold sum. cbn [fold_left]. rewrite sum_from.
    unfold FraudTools.len in *. cbn [List.length].
    rewrite Nat2Z.inj_succ. unfold Z.succ. rewrite inject_Z_plus.
    change (inject_Z 1) with 1. lra.
Qed.

(** X23: [aggregate_scores] stays in [[0, 1]]: when every value of every
    score dict lies in [[0, 1]] and, if weights are given, none of them is
    negative, the result lies in [[0, 1]]; this covers the empty list, the
    equal-weight average and the case where no key carries a weight. *)
Theorem aggregate_scores_range (scores : list dict) (weights : option dict) :
  (forall w k, weights = Some w -> 0 <= dict_get w k 0) ->
  Forall (Forall (fun kv => 0 <= snd kv <= 1)) scores ->
  0 <= aggregate_scores scores weights <= 1.
Proof.
  intros Hw Hs. unfold aggregate_scores.
  destruct scores as [|d l]; [split; discriminate|].
  destruct weights as [w|].
  - pose proof (outer_good w (d :: l) (0.0, 0.0)
                  (fun k => Hw w k eq_refl)
                  (conj (Qle_refl 0.0) (Qle_refl 0.0)) Hs) as Hgood.
    match type of Hgood with
    | context [fst ?x] => destruct x as [ws wsum]
    end.
    destruct Hgood as [H0 H1]. cbn [fst snd] in *.
    destruct (gt wsum 0) eqn:G; [|split; discriminate].
    apply gt_true in G. split.
    + apply Qle_shift_div_l; lra.
    + apply Qle_shift_div_r; lra.
  - set (vals := map (fun s : dict => dict_get s "score" 0) (d :: l)).
    assert (Hv : Forall (fun x => 0 <= x <= 1) vals).
    { unfold vals. apply Forall_map. apply Forall_impl with (2 := Hs).
      intros s Hsd. clear -Hsd. induction Hsd as [|[k v] t Hkv Ht IH].
      - cbn. split; discriminate.
      - cbn [dict_get].
        destruct (k =? "score")%string; [exact Hkv | exact IH]. }
    pose proof (sum_bounds vals Hv) as [Hs0 Hs1].
    assert (Hlen : FraudTools.len vals == FraudTools.len (d :: l)).
    { unfold FraudTools.len, vals. rewrite length_map. reflexivity. }
    rewrite Hlen in Hs1.
    assert (Hpos : 0 < FraudTools.len (d :: l)).
    { unfold FraudTools.len. replace 0 with (inject_Z 0) by reflexivity.
      rewrite <- Zlt_Qlt. cbn [List.length]. lia. }
    split.
    + apply Qle_shift_div_l; lra.
    + apply Qle_shift_div_r; lra.
Qed.

Lemma aggregate_scores_range_witness :
  0 <= aggregate_scores [[("transaction", 0.8); ("document", 0.2)];
                         [("pattern", 1)]]
         (Some decide_weights)
  <= 1.
Proof.
  apply aggregate_scores_range.
  - intros w k H. injection H as <-. unfold decide_weights.
    cbn [dict_get].
    repeat (match goal with
            | |- context [if ?b then _ else _] => destruct b
            end); discriminate.
  - repeat constructor; cbn; discriminate.
Defined.

End AggregateScores.

(** ** Velocity and network risk *)

Section AgentHelpers.
Import Py FraudTools PatternDetector NetworkAnalyzer.

Lemma le_true (x y : Q) : PatternDetector.le x y = true <-> x <= y.
Proof. unfold PatternDetector.le. apply Qle_bool_iff. Qed.

Lemma le_false (x y : Q) : PatternDetector.le x y = false <-> y < x.
Proof. unfold PatternDetector.le. apply (ge_false y x). Qed.

Lemma velocity_extreme (c : Q) :
  _classify_velocity c = "extreme" <-> 10 < c.
Proof.
  unfold _classify_velocity.
  destruct (PatternDetector.le c 2) eqn:E2;
    [apply le_true in E2; split; [discriminate | intro; lra]|].
  destruct (PatternDetector.le c 5) eqn:E5;
    [apply le_true in E5; split; [discriminate | intro; lra]|].
  destruct (PatternDetector.le c 10) eqn:E10;
    [apply le_true in E10; split; [discriminate | intro; lra]|].
  apply le_false in E10. split; [intros _; exact E10 | reflexivity].
Qed.

(** X24: the pattern detector's velocity class and the anomaly detector
    agree on the frequency: in a result of [detect_anomalies] a
    [high_frequency] anomaly is present exactly when [_classify_velocity]
    calls the number of claims in 30 days extreme, that is, above 10. *)
Theorem velocity_matches_frequency_anomaly (fmt : Formatter)
    (t : Transaction) (stats : option HistoricalStats) (a : AnomalyResult) :
  detect_anomalies fmt t stats = Ok a ->
  (existsb (fun x => (anomaly_type x =? "high_frequency")%string)
           (anomalies a) = true
   <-> _classify_velocity (get (claims_30d t) 0) = "extreme")
  /\ (_classify_velocity (get (claims_30d t) 0) = "extreme"
      <-> 10 < get (claims_30d t) 0).
Proof.
  intro H. split; [|apply velocity_extreme].
  destruct (detect_anomalies_cases fmt t stats)
    as [(_ & _ & Hr) | (_ & a' & Ha & _ & _ & _ & _ & _ & Hf)].
  - rewrite Hr in H. discriminate H.
  - rewrite Ha in H. injection H as <-. rewrite Hf.
    rewrite velocity_extreme. apply gt_true.
Qed.

Lemma velocity_matches_frequency_anomaly_witness :
  exists a,
    detect_anomalies Examples.plain_formatter Examples.suspicious_transaction
      None = Ok a
    /\ (existsb (fun x => (anomaly_type x =? "high_frequency")%string)
                (anomalies a) = true
        <-> _classify_velocity
              (get (claims_30d Examples.suspicious_transaction) 0)
            = "extreme").
Proof.
  eexists. split; [vm_compute; reflexivity|].
  apply (velocity_matches_frequency_anomaly Examples.plain_formatter
           Examples.suspicious_transaction None).
  vm_compute. reflexivity.
Defined.

Lemma community_risk_map_range (c : string) :
  0.1 <= community_risk_map c <= 0.5.
Proof.
  unfold community_risk_map.
  repeat (match goal with
          | |- context [if ?b then _ else _] => destruct b
          end); split; discriminate.
Qed.

Lemma max_of_ge (first : Q) (rest : list Q) : first <= max_of first rest.
Proof.
  unfold max_of. revert first.
  induction rest as [|x l IH]; intro first; cbn [fold_left].
  - apply Qle_refl.
  - pose proof (IH (max first x)). pose proof (max_le_l first x). lra.
Qed.

Lemma add_risk_step (s : Q) (r : NetworkRisk) :
  s + 0.05 <= add_risk s r <= s + 0.15.
Proof.
  unfold add_risk.
  repeat (match goal with
          | |- context [if ?b then _ else _] => destruct b
          end); split; lra.
Qed.

Lemma risks_ge (l : list NetworkRisk) (s : Q) : s <= fold_left add_risk l s.
Proof.
  revert s. induction l as [|r l IH]; intro s; cbn [fold_left].
  - apply Qle_refl.
  - pose proof (IH (add_risk s r)). pose proof (add_risk_step s r). lra.
Qed.

(** X25: the network risk score never exceeds 1; it is at least 0.1 when
    no ring has a negative detection confidence; and one more network
    risk in the list never lowers it. *)
Theorem network_risk_bounds (stats : NetworkStats) (community : string)
    (rings : list Ring) (influential : bool) (risks : list NetworkRisk)
    (extra : NetworkRisk) :
  _calculate_network_risk stats community rings influential risks <= 1
  /\ (Forall (fun r => 0 <= get (detection_confidence r) 0) rings ->
      0.1 <= _calculate_network_risk stats community rings influential risks)
  /\ _calculate_network_risk stats community rings influential risks
     <= _calculate_network_risk stats community rings influential
          (risks ++ [extra]).
Proof.
  unfold _calculate_network_risk. cbv zeta.
  set (s1 := match map (fun r => get (detection_confidence r) 0) rings with
             | [] => 0.0 + community_risk_map community
             | c :: rest =>
                 0.0 + community_risk_map community + max_of c rest * 0.3
             end).
  set (s2 := if influential then s1 + 0.1 else s1).
  split; [|split].
  - match goal with
    | |- min ?x ?y <= _ => pose proof (min_le_r x y); lra
    end.
  - intro Hr.
    assert (H1 : 0.1 <= s1).
    { unfold s1. pose proof (community_risk_map_range community).
      destruct rings as [|r rest]; cbn [map]; [lra|].
      inversion Hr as [|a b Ha Hb]; subst.
      pose proof (max_of_ge (get (detection_confidence r) 0)
                    (map (fun r => get (detection_confidence r) 0) rest)).
      lra. }
    assert (H2 : 0.1 <= s2) by (unfold s2; destruct influential; lra).
    pose proof (risks_ge risks s2) as H3.
    apply min_glb; [|lra].
    destruct (gt (get (clustering_coefficient stats) 0) 0.6); lra.
  - rewrite fold_left_app. cbn [fold_left].
    set (s3 := fold_left add_risk risks s2).
    pose proof (add_risk_step s3 extra).
    apply min_mono.
    destruct (gt (get (clustering_coefficient stats) 0) 0.6); lra.
Qed.

Lemma network_risk_bounds_witness :
  0.1 <= _calculate_network_risk {| clustering_coefficient := Some 0.7 |}
           "medium" [ {| detection_confidence := Some 0.9 |} ] true
           [ {| risk_severity := Some "high" |} ].
Proof.
  apply (proj1 (proj2 (network_risk_bounds
                         {| clustering_coefficient := Some 0.7 |}
                         "medium" [ {| detection_confidence := Some 0.9 |} ]
                         true [ {| risk_severity := Some "high" |} ]
                         {| risk_severity := None |}))).
  apply Forall_cons; [cbn; discriminate | apply Forall_nil].
Defined.

End AgentHelpers.

(** ** Which exception the transaction analyst raises *)

Section AnalyzeException.
Import Py Rewards FraudTools TransactionAnalyst.

Lemma analyze_stats_cases (self : TransactionAnalystAgent) (fmt : Formatter)
    (t : Transaction) (ctx : AgentContext) (include_history : bool) :
  let stats :=
    if include_history
    then
      if truthy (get (beneficiary_id t) "")
      then Some {| avg_amount := Some 0.0;
                   stats_total_30d := Some 0.0;
                   claim_count := Some 0 |}
      else None
    else None in
  (forall e, detect_anomalies fmt t stats = Raise e ->
             analyze self fmt t ctx include_history = Raise e)
  /\ (forall a, detect_anomalies fmt t stats = Ok a ->
                analyze self fmt t ctx include_history
                = Raise (AttributeError "RewardConfig" "flag_threshold")).
Proof.
  intro stats. unfold analyze. cbv zeta.
  change (transaction_count (get_transaction_history
                               (get (beneficiary_id t) "") 90)) with 0.
  change (total_amount (get_transaction_history
                          (get (beneficiary_id t) "") 90)) with 0.0.
  change (history_avg_amount (get_transaction_history
                                (get (beneficiary_id t) "") 90)) with 0.0.
  fold stats. split.
  - intros e He. rewrite He. reflexivity.
  - intros a Ha. rewrite Ha. cbn [bind].
    match goal with
    | |- context [score_transaction fmt t ?e] =>
        destruct (score_transaction_total fmt t e) as [sc Hs]
    end.
    rewrite Hs. cbn [bind].
    unfold _calculate_expected_reward, float_attr, getattr, attributes.
    destruct (should_flag (FraudTools.fraud_probability sc)
                default_threshold);
      reflexivity.
Qed.

(** X26: on a transaction whose numbers are within the float range,
    [analyze] raises one of two exceptions and which one is decided by its
    input: a [ZeroDivisionError] when the history is included, the
    transaction names a beneficiary and its amount is positive (the
    placeholder history has a zero average), and otherwise the
    [AttributeError] on [flag_threshold]. *)
Theorem analyze_exception (self : TransactionAnalystAgent) (fmt : Formatter)
    (t : Transaction) (ctx : AgentContext) (include_history : bool) :
  Finite.numbers_in_range t ->
  (include_history = true
   /\ truthy (get (beneficiary_id t) "") = true
   /\ 0 < get (amount t) 0 ->
   analyze self fmt t ctx include_history = Raise ZeroDivisionError)
  /\ (~ (include_history = true
         /\ truthy (get (beneficiary_id t) "") = true
         /\ 0 < get (amount t) 0) ->
      analyze self fmt t ctx include_history
      = Raise (AttributeError "RewardConfig" "flag_threshold")).
Proof.
  intros _.
  destruct (analyze_stats_cases self fmt t ctx include_history)
    as [Hraise Hok].
  cbv zeta in Hraise, Hok.
  match type of Hraise with
  | forall e, detect_anomalies fmt t ?s = _ -> _ => set (stats := s) in *
  end.
  destruct (detect_anomalies_cases fmt t stats)
    as [(G & E & H) | (G & a & H & _)]; cbv zeta in G.
  - split; [intros _; apply Hraise, H|].
    intro Hn. exfalso. apply Hn. unfold stats in G, E.
    destruct include_history; [|vm_compute in E; discriminate E].
    destruct (truthy (get (beneficiary_id t) ""));
      [|vm_compute in E; discriminate E].
    cbn [stats_truthy avg_amount stats_total_30d claim_count get] in G.
    apply gt_true in G. repeat split. lra.
  - split; [|intros _; apply (Hok a), H].
    intros (Hh & Hb & Hpos). exfalso. unfold stats in G.
    rewrite Hh, Hb in G.
    cbn [stats_truthy avg_amount stats_total_30d claim_count get] in G.
    destruct G as [G | G]; [|vm_compute in G; discriminate G].
    apply gt_false in G. lra.
Qed.

Lemma analyze_exception_witness :
  analyze create_agent Examples.plain_formatter
    (Examples.transaction_of (Some 5) None None None (Some "B-1"))
    Examples.context0 true
  = Raise ZeroDivisionError
  /\ analyze create_agent Examples.plain_formatter
       (Examples.transaction_of (Some 5) None None None (Some "B-1"))
       Examples.context0 false
     = Raise (AttributeError "RewardConfig" "flag_threshold").
Proof.
  assert (Hrange : Finite.numbers_in_range
                     (Examples.transaction_of (Some 5) None None None
                        (Some "B-1"))).
  { pose proof max_float_large.
    unfold Finite.numbers_in_range, Finite.in_range_opt,
      Finite.in_float_range.
    cbn. repeat split; try exact I; lra. }
  split.
  - apply (proj1 (analyze_exception create_agent Examples.plain_formatter
                    (Examples.transaction_of (Some 5) None None None
                       (Some "B-1"))
                    Examples.context0 true Hrange)).
    repeat split.
  - apply (proj2 (analyze_exception create_agent Examples.plain_formatter
                    (Examples.transaction_of (Some 5) None None None
                       (Some "B-1"))
                    Examples.context0 false Hrange)).
    intros (H & _). discriminate H.
Defined.

End AnalyzeException.
